(** * Filo: the adaptive classification engine, embedded in Rocq

    A shallow embedding of the Go sources of [lynx-lee/filo]:
    - [internal/storage/database.go]  (module [Storage])
    - [internal/embedding]            (module [Embedding])
    - [internal/memory]               (module [Memory])
    - [internal/classifier]           (module [Classifier])
    - [internal/organizer], [cmd/undo.go], [cmd/root.go]

    Conventions.
    - A Go [string] is a byte sequence: Rocq's [string] (a list of 8-bit
      characters).  Runes are decoded from it the way [for range] does.
    - A Go [int] (counters, priorities, indices) is a [Z]; the values met
      here stay far below 2^63, so no wrap-around is written out except in
      the 64-bit FNV-1a hash, where the code relies on it.
    - A [float64] is an exact rational ([Q]) in the storage, memory and
      classifier layers, whose arithmetic is rational; the embedder, which
      takes square roots, is written once over an abstract arithmetic and
      instantiated with the reals and with IEEE-754 binary64
      ([PrimFloat]).
    - SQL tables are lists of rows in rowid order; every statement the
      code sends is written as the list function it denotes. *)

From Stdlib Require Import ZArith QArith Qminmax Reals Lra Lia Bool.
From Stdlib Require Import List String Ascii DecimalString DecimalNat.
From Stdlib Require Import Sorting.Permutation Sorting.Sorted Psatz.
From Stdlib Require PrimFloat Uint63 FloatAxioms SpecFloat.
From stdpp Require Import gmap strings list sorting.

Import ListNotations.
Local Open Scope string_scope.
Local Open Scope list_scope.
Local Open Scope Z_scope.

(* ===================================================================== *)
(** * Go strings: bytes, runes, UTF-8 *)
(* ===================================================================== *)

Module GoString.

(** [len(s)]: the number of bytes. *)
Definition len (s : string) : Z := Z.of_nat (String.length s).

Definition bytes (s : string) : list Z :=
  map (fun c => Z.of_nat (nat_of_ascii c)) (list_ascii_of_string s).

Definition byte_to_ascii (b : Z) : ascii := ascii_of_nat (Z.to_nat (b mod 256)).

Definition of_bytes (bs : list Z) : string :=
  string_of_list_ascii (map byte_to_ascii bs).

(** [utf8.RuneError], U+FFFD. *)
Definition RuneError : Z := 65533.

Definition is_cont (b : Z) : bool := (128 <=? b) && (b <=? 191).

(** [utf8.DecodeRuneInString]: the first rune of a byte sequence and its
    width.  An ill-formed prefix decodes to ([RuneError], 1). *)
Definition decode_rune (bs : list Z) : Z * nat :=
  match bs with
  | [] => (RuneError, 0%nat)
  | b0 :: rest =>
    if b0 <? 128 then (b0, 1%nat)
    else if (b0 <? 194) || (244 <? b0) then (RuneError, 1%nat)
    else if b0 <? 224 then
      match rest with
      | b1 :: _ =>
        if is_cont b1 then ((b0 mod 32) * 64 + b1 mod 64, 2%nat)
        else (RuneError, 1%nat)
      | _ => (RuneError, 1%nat)
      end
    else if b0 <? 240 then
      match rest with
      | b1 :: b2 :: _ =>
        let lo := if b0 =? 224 then 160 else 128 in
        let hi := if b0 =? 237 then 159 else 191 in
        if (lo <=? b1) && (b1 <=? hi) && is_cont b2
        then ((b0 mod 16) * 4096 + (b1 mod 64) * 64 + b2 mod 64, 3%nat)
        else (RuneError, 1%nat)
      | _ => (RuneError, 1%nat)
      end
    else
      match rest with
      | b1 :: b2 :: b3 :: _ =>
        let lo := if b0 =? 240 then 144 else 128 in
        let hi := if b0 =? 244 then 143 else 191 in
        if (lo <=? b1) && (b1 <=? hi) && is_cont b2 && is_cont b3
        then ((b0 mod 8) * 262144 + (b1 mod 64) * 4096
              + (b2 mod 64) * 64 + b3 mod 64, 4%nat)
        else (RuneError, 1%nat)
      | _ => (RuneError, 1%nat)
      end
  end.

(** [for i, r := range s]: the runes of [s] with the byte offset each one
    starts at.  The fuel is the number of bytes left; every step consumes
    at least one. *)
Fixpoint range_from (fuel : nat) (off : Z) (bs : list Z) : list (Z * Z) :=
  match fuel, bs with
  | O, _ | _, [] => []
  | S fuel', _ =>
    let '(r, w) := decode_rune bs in
    let w' := Nat.max 1 w in
    (off, r) :: range_from fuel' (off + Z.of_nat w') (drop w' bs)
  end.

Definition range (s : string) : list (Z * Z) :=
  range_from (String.length s) 0 (bytes s).

Definition runes (s : string) : list Z := map snd (range s).

(** [utf8.AppendRune]: the bytes of one rune; surrogates and values out of
    range are written as [RuneError]. *)
Definition encode_rune (r : Z) : list Z :=
  if (0 <=? r) && (r <? 128) then [r]
  else if (128 <=? r) && (r <? 2048) then [192 + r / 64; 128 + r mod 64]
  else if (r <? 0) || (1114111 <? r) || ((55296 <=? r) && (r <=? 57343))
  then [239; 191; 189]
  else if r <? 65536
  then [224 + r / 4096; 128 + (r / 64) mod 64; 128 + r mod 64]
  else [240 + r / 262144; 128 + (r / 4096) mod 64;
        128 + (r / 64) mod 64; 128 + r mod 64].

(** [string(r)] for a rune [r]. *)
Definition of_rune (r : Z) : string := of_bytes (encode_rune r).

Definition of_runes (rs : list Z) : string :=
  of_bytes (concat (map encode_rune rs)).

(** [s[i:j]] for [0 <= i <= j <= len(s)]. *)
Definition slice (s : string) (i j : Z) : string :=
  String.substring (Z.to_nat i) (Z.to_nat (j - i)) s.

End GoString.

(** The Unicode tables of Go's [unicode] package stay outside this
    repository: the simple lower-case mapping of a rune beyond ASCII and
    membership in the Han script are an interface with one instance per
    table. *)
Class Unicode := {
  unicode_lower : Z -> Z;   (* [unicode.ToLower] on runes >= 128 *)
  unicode_is_han : Z -> bool (* [\p{Han}] *)
}.

(** An instance for examples: no case pairs beyond ASCII, and the CJK
    Unified Ideographs block U+4E00..U+9FFF as the Han script. *)
Definition BasicUnicode : Unicode :=
  {| unicode_lower := fun r => r;
     unicode_is_han := fun r => (19968 <=? r) && (r <=? 40959) |}.

Module GoStrings.
Import GoString.

Section WithUnicode.
Context {U : Unicode}.

(** [unicode.ToLower]. *)
Definition lower_rune (r : Z) : Z :=
  if r <? 128 then (if (65 <=? r) && (r <=? 90) then r + 32 else r)
  else unicode_lower r.

(** [strings.ToLower]: every rune mapped through [unicode.ToLower]
    ([strings.Map]; an ill-formed byte becomes U+FFFD). *)
Definition ToLower (s : string) : string :=
  if forallb (fun b => b <? 128) (bytes s)
  then of_bytes (map lower_rune (bytes s))
  else of_runes (map lower_rune (runes s)).

End WithUnicode.

(** [strings.TrimSuffix]. *)
Definition TrimSuffix (s suffix : string) : string :=
  let n := String.length s in
  let k := String.length suffix in
  if (k <=? n)%nat && String.eqb (String.substring (n - k) k s) suffix
  then String.substring 0 (n - k) s
  else s.

End GoStrings.

(* ===================================================================== *)
(** * Go's [regexp]: the two patterns the sources compile *)
(* ===================================================================== *)

(** Both patterns are alternations of one repeated character class
    ([[\p{Han}]+|[a-zA-Z]+|\d+] and [[\p{Han}]+|[a-zA-Z]{2,}|\d{4,}]).
    [FindAllString] scans left to right; at each rune the first
    alternative whose greedy run is long enough wins, the match is
    reported as the bytes it covers, and the scan resumes behind it. *)
Module Regexp.
Import GoString.

Definition is_letter (r : Z) : bool :=
  ((65 <=? r) && (r <=? 90)) || ((97 <=? r) && (r <=? 122)).

Definition is_digit (r : Z) : bool := (48 <=? r) && (r <=? 57).

(** The length of the longest prefix of runes satisfying [p]. *)
Fixpoint run_length (p : Z -> bool) (rs : list (Z * Z)) : nat :=
  match rs with
  | (_, r) :: rs' => if p r then S (run_length p rs') else O
  | [] => O
  end.

(** The first alternative (class, least repetition) matching at the head
    of [rs], as the number of runes it consumes. *)
Fixpoint first_alt (alts : list ((Z -> bool) * nat)) (rs : list (Z * Z))
  : option nat :=
  match alts with
  | [] => None
  | (p, least) :: alts' =>
    let n := run_length p rs in
    if (least <=? n)%nat then Some n else first_alt alts' rs
  end.

(** Byte offset at which [rs] starts ([total] when it is empty). *)
Definition offset_of (total : Z) (rs : list (Z * Z)) : Z :=
  match rs with (o, _) :: _ => o | [] => total end.

Fixpoint find_all_from (alts : list ((Z -> bool) * nat)) (fuel : nat)
    (total : Z) (rs : list (Z * Z)) : list (Z * Z) :=
  match fuel, rs with
  | O, _ | _, [] => []
  | S fuel', (o, _) :: rest =>
    match first_alt alts rs with
    | Some (S n) =>
      let rs' := drop n rest in
      (o, offset_of total rs') :: find_all_from alts fuel' total rs'
    | _ => find_all_from alts fuel' total rest
    end
  end.

Definition FindAllString (alts : list ((Z -> bool) * nat)) (s : string)
  : list string :=
  let rs := range s in
  map (fun '(i, j) => slice s i j)
      (find_all_from alts (List.length rs) (len s) rs).

Section WithUnicode.
Context {U : Unicode}.

(** [[\p{Han}]+|[a-zA-Z]+|\d+] *)
Definition tokenRegex : list ((Z -> bool) * nat) :=
  [(unicode_is_han, 1%nat); (is_letter, 1%nat); (is_digit, 1%nat)].

(** [[\p{Han}]+|[a-zA-Z]{2,}|\d{4,}] *)
Definition keywordRegex : list ((Z -> bool) * nat) :=
  [(unicode_is_han, 1%nat); (is_letter, 2%nat); (is_digit, 4%nat)].

End WithUnicode.
End Regexp.

(* ===================================================================== *)
(** * [hash/fnv]: 64-bit FNV-1a *)
(* ===================================================================== *)

Module Fnv.

Definition offset64 : Z := 14695981039346656037.
Definition prime64 : Z := 1099511628211.

(** [h := fnv.New64a(); h.Write(bs); h.Sum64()]: unsigned 64-bit
    arithmetic, the product wrapping modulo 2^64. *)
Definition Sum64a (bs : list Z) : Z :=
  fold_left (fun h b => (Z.lxor h b * prime64) mod 2 ^ 64) bs offset64.

End Fnv.

(* ===================================================================== *)
(** * [internal/embedding]: the local, hash-based embedder *)
(* ===================================================================== *)

(** The arithmetic of [float64] the embedder uses.  [fof_int] is the
    conversion [float64(n)], [fis_zero x] the test [x == 0]. *)
Class FloatOps (F : Type) := {
  fzero : F;
  fadd : F -> F -> F;
  fmul : F -> F -> F;
  fdiv : F -> F -> F;
  fsqrt : F -> F;
  fof_int : Z -> F;
  fis_zero : F -> bool
}.

Module Embedding.
Import GoString GoStrings.

Section Local.
Context {U : Unicode} {F : Type} {FO : FloatOps F}.

Record LocalEmbedder := { dimension : Z }.

Definition NewLocalEmbedder : LocalEmbedder := {| dimension := 256 |}.

(** [int(h.Sum64() % uint64(e.dimension))] after [h.Write([]byte(s))]. *)
Definition slot (e : LocalEmbedder) (s : string) : nat :=
  Z.to_nat (Fnv.Sum64a (bytes s) mod dimension e).

(** [vec[idx] += w] *)
Definition bump (vec : list F) (idx : nat) (w : F) : list F :=
  alter (fun x => fadd x w) idx vec.

(** First loop of [Embed]: one feature per rune, weighted [1/(i+1)] by
    the byte offset [i] the rune starts at. *)
Definition char_features (e : LocalEmbedder) (text : string) (vec : list F)
  : list F :=
  fold_left
    (fun v '(i, char) =>
       bump v (slot e (of_rune char)) (fdiv (fof_int 1) (fof_int (i + 1))))
    (range text) vec.

(** Second loop: one feature per word, weighted [2/(i+1)] by its
    ordinal [i]. *)
Definition word_features (e : LocalEmbedder) (text : string) (vec : list F)
  : list F :=
  fold_left
    (fun v '(i, word) =>
       bump v (slot e word) (fdiv (fof_int 2) (fof_int (Z.of_nat i + 1))))
    (imap (fun i w => (i, w)) (Regexp.FindAllString Regexp.tokenRegex text))
    vec.

(** Third loop: [for i := 0; i < len(text)-2; i++], the three bytes at
    [i], weight 0.5. *)
Definition ngram_features (e : LocalEmbedder) (text : string) (vec : list F)
  : list F :=
  fold_left
    (fun v i =>
       bump v (slot e (slice text (Z.of_nat i) (Z.of_nat i + 3)))
            (fdiv (fof_int 1) (fof_int 2)))
    (seq 0 (Z.to_nat (len text - 2))) vec.

Definition sum_squares (vec : list F) : F :=
  fold_left (fun sum v => fadd sum (fmul v v)) vec fzero.

(** [normalize]: scale to unit length; the zero vector is returned as it
    is. *)
Definition normalize (vec : list F) : list F :=
  let norm := fsqrt (sum_squares vec) in
  if fis_zero norm then vec else map (fun v => fdiv v norm) vec.

Definition Embed (e : LocalEmbedder) (text : string) : list F :=
  let vec := replicate (Z.to_nat (dimension e)) fzero in
  let text := ToLower text in
  let vec := char_features e text vec in
  let vec := word_features e text vec in
  let vec := ngram_features e text vec in
  normalize vec.

(** The loop of [Similarity]: the dot product and the two squared
    norms, accumulated index by index. *)
Definition accumulate (v1 v2 : list F) : F * F * F :=
  fold_left
    (fun '(dot, n1, n2) '(x, y) =>
       (fadd dot (fmul x y), fadd n1 (fmul x x), fadd n2 (fmul y y)))
    (zip v1 v2) (fzero, fzero, fzero).

Definition Similarity (e : LocalEmbedder) (v1 v2 : list F) : F :=
  if negb (List.length v1 =? List.length v2)%nat then fzero
  else
    let '(dot, n1, n2) := accumulate v1 v2 in
    if fis_zero n1 || fis_zero n2 then fzero
    else fdiv dot (fmul (fsqrt n1) (fsqrt n2)).

End Local.
End Embedding.

(** Exact arithmetic: the reals. *)
Definition RealOps : FloatOps R :=
  {| fzero := 0%R; fadd := Rplus; fmul := Rmult; fdiv := Rdiv;
     fsqrt := R_sqrt.sqrt; fof_int := IZR;
     fis_zero := fun x => if Req_dec_T x 0%R then true else false |}.

(** IEEE-754 binary64, round to nearest even: what [float64] is on the
    platforms that do not fuse multiply and add (amd64). *)
Definition Binary64Ops : FloatOps PrimFloat.float :=
  {| fzero := PrimFloat.zero; fadd := PrimFloat.add; fmul := PrimFloat.mul;
     fdiv := PrimFloat.div; fsqrt := PrimFloat.sqrt;
     fof_int := fun n => PrimFloat.of_uint63 (Uint63.of_Z n);
     fis_zero := fun x => PrimFloat.eqb x PrimFloat.zero |}.

(* ===================================================================== *)
(** * Stable sorting *)
(* ===================================================================== *)

(** A stable insertion sort: [before a b] says that [a] must come
    strictly before [b]; elements that tie keep their order.  It stands
    for [sort.SliceStable] and for SQL's [ORDER BY] over rows in rowid
    order (the outcome of a stable sort does not depend on the
    algorithm). *)
Module StableSort.

Fixpoint insert {A} (before : A -> A -> bool) (x : A) (l : list A)
  : list A :=
  match l with
  | [] => [x]
  | y :: l' => if before y x then y :: insert before x l' else x :: l
  end.

Definition sort {A} (before : A -> A -> bool) (l : list A) : list A :=
  fold_right (insert before) [] l.

End StableSort.

(* ===================================================================== *)
(** * SQL as list functions *)
(* ===================================================================== *)

Module Sql.

(** [ORDER BY] *)
Definition order_by {A} (before : A -> A -> bool) (l : list A) : list A :=
  StableSort.sort before l.

(** [LIMIT n]; a negative bound means no bound. *)
Definition limit {A} (n : Z) (l : list A) : list A :=
  if n <? 0 then l else take (Z.to_nat n) l.

Definition fold_case (b : Z) : Z :=
  if (65 <=? b) && (b <=? 90) then b + 32 else b.

(** One character of the text as [_] consumes it: a lead byte and the
    continuation bytes behind it. *)
Fixpoint skip_continuation (t : list Z) : list Z :=
  match t with
  | b :: t' => if (128 <=? b) && (b <? 192) then skip_continuation t' else t
  | [] => []
  end.

(** SQLite's [LIKE] with its defaults: [%] any run of characters, [_] any
    one character, ASCII letters compared without case. *)
Fixpoint like_bytes (pat text : list Z) : bool :=
  match pat with
  | [] => match text with [] => true | _ => false end
  | c :: pat' =>
    if c =? 37 then
      (fix star (t : list Z) : bool :=
         like_bytes pat' t
         || match t with [] => false | _ :: t' => star t' end) text
    else if c =? 95 then
      match text with
      | [] => false
      | b :: t' =>
        like_bytes pat' (if 192 <=? b then skip_continuation t' else t')
      end
    else
      match text with
      | [] => false
      | b :: t' => (fold_case c =? fold_case b) && like_bytes pat' t'
      end
  end.

(** [text LIKE pat] *)
Definition like (text pat : string) : bool :=
  like_bytes (GoString.bytes pat) (GoString.bytes text).

(** [SUM] and [AVG] over a column. *)
Definition sumZ (l : list Z) : Z := fold_right Z.add 0 l.

Definition sumQ (l : list Q) : Q := fold_right Qplus (0 # 1)%Q l.

Definition avgQ (l : list Q) : Q := (sumQ l / inject_Z (Z.of_nat (List.length l)))%Q.

End Sql.

(* ===================================================================== *)
(** * [internal/storage]: the SQLite store *)
(* ===================================================================== *)

(** The order in which [for k, v := range m] visits a Go map is chosen by
    the runtime. *)
Class Runtime := {
  map_range : forall {A : Type}, list (string * A) -> list (string * A)
}.

(** An instance for examples: the entries in the order of their keys'
    internal encoding. *)
Definition PlainRuntime : Runtime := {| map_range := fun _ l => l |}.

(** The nested loop both [GetCandidateCategories] and [GetModelSummaries]
    sort with:
    [for i := 0; i < n-1; i++ { for j := i+1; j < n; j++ {
       if s[j] > s[i] { s[i], s[j] = s[j], s[i] } } }].
    [sweep] is one run of the inner loop: [x] is the value in slot [i];
    each later slot is compared with it and exchanged when greater, so the
    slot ends with the greatest value and the others stay in their
    slots. *)
Module ExchangeSort.
Section Sort.
Context {A : Type} (gt : A -> A -> bool).

Fixpoint sweep (x : A) (rest : list A) : A * list A :=
  match rest with
  | [] => (x, [])
  | y :: rest' =>
    if gt y x
    then let '(m, r) := sweep y rest' in (m, x :: r)
    else let '(m, r) := sweep x rest' in (m, y :: r)
  end.

Fixpoint sort_from (n : nat) (s : list A) : list A :=
  match n, s with
  | S n', x :: rest => let '(m, r) := sweep x rest in m :: sort_from n' r
  | _, _ => s
  end.

Definition sort (s : list A) : list A := sort_from (List.length s) s.

End Sort.
End ExchangeSort.

Module Storage.

(** Rows of [classification_history] ([ClassificationRecord], with the
    [source] column the struct leaves out). *)
Module History.
Record t := {
  ID : Z; Filename : string; Extension : string; Category : string;
  Subcategory : string; Confidence : Q; Keywords : list string;
  UserConfirmed : bool; Source : string; CreatedAt : Z }.
End History.

(** Rows of [learned_rules] ([LearnedRule]). *)
Module Rule.
Record t := {
  ID : Z; Pattern : string; PatternType : string; Category : string;
  Subcategory : string; Priority : Z; HitCount : Z; UpdatedAt : Z }.
End Rule.

(** Rows of [vectors] ([VectorRecord]). *)
Module Vector.
Record t := {
  Filename : string; Category : string; Subcategory : string;
  Vector : list Q; CreatedAt : Z }.
End Vector.

(** Rows of [user_feedback]. *)
Module Feedback.
Record t := {
  Filename : string; OriginalCategory : string; CorrectedCategory : string;
  OriginalSubcategory : string; CorrectedSubcategory : string }.
End Feedback.

(** Rows of [operation_logs] ([OperationLog]). *)
Module OperationLog.
Record t := {
  ID : Z; BatchID : string; SourcePath : string; DestPath : string;
  Filename : string; Category : string; Subcategory : string;
  Status : string; CreatedAt : Z }.
End OperationLog.

(** Rows of [model_stats] ([ModelStats]). *)
Module ModelStats.
Record t := {
  ModelName : string; BatchID : string; FileCount : Z; TotalTimeMs : Z;
  AvgTimePerFileMs : Q; AvgConfidence : Q; ConfirmedCount : Z;
  CorrectedCount : Z; AccuracyRate : Q; CreatedAt : Z }.
End ModelStats.

Module ModelSummary.
Record t := {
  ModelName : string; TotalBatches : Z; TotalFiles : Z;
  AvgTimePerFileMs : Q; AvgConfidence : Q; TotalConfirmed : Z;
  TotalCorrected : Z; AccuracyRate : Q; Score : Q; LastUsed : Z }.
End ModelSummary.

(** The database: its six tables in rowid order, the AUTOINCREMENT
    counters of the tables whose ids are read back, and the value of
    [CURRENT_TIMESTAMP]. *)
Record Database := {
  classification_history : list History.t;
  learned_rules : list Rule.t;
  user_feedback : list Feedback.t;
  vectors : list Vector.t;
  operation_logs : list OperationLog.t;
  model_stats : list ModelStats.t;
  history_seq : Z;
  rules_seq : Z;
  logs_seq : Z;
  now : Z }.

(** A fresh database file after [init]. *)
Definition empty (clock : Z) : Database :=
  {| classification_history := []; learned_rules := []; user_feedback := [];
     vectors := []; operation_logs := []; model_stats := [];
     history_seq := 0; rules_seq := 0; logs_seq := 0; now := clock |}.

Definition set_history (d : Database) h seq : Database :=
  {| classification_history := h; learned_rules := learned_rules d;
     user_feedback := user_feedback d; vectors := vectors d;
     operation_logs := operation_logs d; model_stats := model_stats d;
     history_seq := seq; rules_seq := rules_seq d; logs_seq := logs_seq d;
     now := now d |}.

Definition set_rules (d : Database) r seq : Database :=
  {| classification_history := classification_history d; learned_rules := r;
     user_feedback := user_feedback d; vectors := vectors d;
     operation_logs := operation_logs d; model_stats := model_stats d;
     history_seq := history_seq d; rules_seq := seq; logs_seq := logs_seq d;
     now := now d |}.

Definition set_feedback (d : Database) f : Database :=
  {| classification_history := classification_history d;
     learned_rules := learned_rules d; user_feedback := f;
     vectors := vectors d; operation_logs := operation_logs d;
     model_stats := model_stats d; history_seq := history_seq d;
     rules_seq := rules_seq d; logs_seq := logs_seq d; now := now d |}.

Definition set_vectors (d : Database) v : Database :=
  {| classification_history := classification_history d;
     learned_rules := learned_rules d; user_feedback := user_feedback d;
     vectors := v; operation_logs := operation_logs d;
     model_stats := model_stats d; history_seq := history_seq d;
     rules_seq := rules_seq d; logs_seq := logs_seq d; now := now d |}.

Definition set_logs (d : Database) l seq : Database :=
  {| classification_history := classification_history d;
     learned_rules := learned_rules d; user_feedback := user_feedback d;
     vectors := vectors d; operation_logs := l;
     model_stats := model_stats d; history_seq := history_seq d;
     rules_seq := rules_seq d; logs_seq := seq; now := now d |}.

Definition set_model_stats (d : Database) m : Database :=
  {| classification_history := classification_history d;
     learned_rules := learned_rules d; user_feedback := user_feedback d;
     vectors := vectors d; operation_logs := operation_logs d;
     model_stats := m; history_seq := history_seq d;
     rules_seq := rules_seq d; logs_seq := logs_seq d; now := now d |}.

Section Operations.
Context {U : Unicode} {RT : Runtime}.
Import GoString GoStrings.

(** ** Classification history *)

(** [AddClassification]: one INSERT; the new row id is returned. *)
Definition AddClassification (d : Database)
    (filename ext category subcategory source : string) (confidence : Q)
    (keywords : list string) (confirmed : bool) : Database * Z :=
  let id := history_seq d + 1 in
  let row := {| History.ID := id; History.Filename := filename;
                History.Extension := ext; History.Category := category;
                History.Subcategory := subcategory;
                History.Confidence := confidence;
                History.Keywords := keywords;
                History.UserConfirmed := confirmed;
                History.Source := source; History.CreatedAt := now d |} in
  (set_history d (classification_history d ++ [row]) id, id).

(** SQL [LOWER]: ASCII letters only. *)
Definition sql_lower (s : string) : string :=
  of_bytes (map Sql.fold_case (bytes s)).

(** [GetSimilarClassifications]: confirmed rows whose lower-cased file
    name contains one of the keywords of two bytes or more, newest
    first. *)
Definition GetSimilarClassifications (d : Database) (keywords : list string)
    (limit : Z) : list History.t :=
  match keywords with
  | [] => []
  | _ =>
    let args :=
      map (fun kw => "%" ++ ToLower kw ++ "%")%string
          (filter (fun kw => 2 <= len kw) keywords) in
    match args with
    | [] => []
    | _ =>
      Sql.limit limit
        (Sql.order_by
           (fun a b => History.CreatedAt b <? History.CreatedAt a)
           (filter
              (fun r =>
                 History.UserConfirmed r = true /\
                 existsb (Sql.like (sql_lower (History.Filename r))) args
                 = true)
              (classification_history d)))
    end
  end.

(** ** Learned rules *)

Definition rule_key (pattern patternType category : string) (r : Rule.t)
  : bool :=
  String.eqb (Rule.Pattern r) pattern
  && String.eqb (Rule.PatternType r) patternType
  && String.eqb (Rule.Category r) category.

(** The UPDATE of [AddOrUpdateRule] on one row. *)
Definition bump_rule (clock priority : Z) (r : Rule.t) : Rule.t :=
  {| Rule.ID := Rule.ID r; Rule.Pattern := Rule.Pattern r;
     Rule.PatternType := Rule.PatternType r; Rule.Category := Rule.Category r;
     Rule.Subcategory := Rule.Subcategory r;
     Rule.Priority := Z.max (Rule.Priority r) priority;
     Rule.HitCount := Rule.HitCount r + 1; Rule.UpdatedAt := clock |}.

(** [AddOrUpdateRule]: lower-case the pattern; UPDATE the rows with this
    (pattern, pattern_type, category); when [RowsAffected] is 0, INSERT a
    row with [hit_count] 1. *)
Definition AddOrUpdateRule (d : Database)
    (pattern patternType category subcategory : string) (priority : Z)
  : Database :=
  let pattern := ToLower pattern in
  let hit := rule_key pattern patternType category in
  let updated :=
    map (fun r => if hit r then bump_rule (now d) priority r else r)
        (learned_rules d) in
  let affected := List.length (filter (fun r => hit r = true) (learned_rules d)) in
  if (affected =? 0)%nat then
    let id := rules_seq d + 1 in
    set_rules d
      (updated ++
       [{| Rule.ID := id; Rule.Pattern := pattern;
           Rule.PatternType := patternType; Rule.Category := category;
           Rule.Subcategory := subcategory; Rule.Priority := priority;
           Rule.HitCount := 1; Rule.UpdatedAt := now d |}])
      id
  else set_rules d updated (rules_seq d).

(** [ORDER BY priority DESC, hit_count DESC] *)
Definition rule_before (a b : Rule.t) : bool :=
  (Rule.Priority b <? Rule.Priority a)
  || ((Rule.Priority a =? Rule.Priority b)
      && (Rule.HitCount b <? Rule.HitCount a)).

(** The loop that drops repeats by the key [pattern + "|" + category];
    [seen] is the map of keys met so far. *)
Fixpoint dedup_rules (seen : gset string) (rules : list Rule.t)
  : list Rule.t :=
  match rules with
  | [] => []
  | r :: rules' =>
    let key := (Rule.Pattern r ++ "|" ++ Rule.Category r)%string in
    if decide (key ∈ seen) then dedup_rules seen rules'
    else r :: dedup_rules ({[key]} ∪ seen) rules'
  end.

(** [GetMatchingRules]: up to three extension rules for [ext]; then, once
    per keyword of two bytes or more, up to three keyword rules whose
    pattern the file name contains; repeats dropped. *)
Definition GetMatchingRules (d : Database) (filename : string)
    (keywords : list string) (ext : string) : list Rule.t :=
  let filename := ToLower filename in
  let ext := ToLower ext in
  let by_ext :=
    if String.eqb ext EmptyString then []
    else
      Sql.limit 3
        (Sql.order_by rule_before
           (filter
              (fun r =>
                 String.eqb (Rule.PatternType r) "extension"
                 && String.eqb (Rule.Pattern r) ext = true)
              (learned_rules d))) in
  let by_keyword :=
    Sql.limit 3
      (Sql.order_by rule_before
         (filter
            (fun r =>
               String.eqb (Rule.PatternType r) "keyword"
               && Sql.like filename ("%" ++ Rule.Pattern r ++ "%")%string
               = true)
            (learned_rules d))) in
  let rules :=
    by_ext ++
    concat (map (fun kw => if len kw <? 2 then [] else by_keyword) keywords) in
  dedup_rules ∅ rules.

(** [GetTopRules]: rules with a hit, most used first. *)
Definition GetTopRules (d : Database) (limit : Z) : list Rule.t :=
  Sql.limit limit
    (Sql.order_by
       (fun a b =>
          (Rule.HitCount b <? Rule.HitCount a)
          || ((Rule.HitCount a =? Rule.HitCount b)
              && (Rule.Priority b <? Rule.Priority a)))
       (filter (fun r => 1 <= Rule.HitCount r) (learned_rules d))).

(** ** Vectors *)

(** [SaveVector] *)
Definition SaveVector (d : Database) (filename category subcategory : string)
    (vector : list Q) : Database :=
  set_vectors d
    (vectors d ++
     [{| Vector.Filename := filename; Vector.Category := category;
         Vector.Subcategory := subcategory; Vector.Vector := vector;
         Vector.CreatedAt := now d |}]).

Definition newest_first (a b : Vector.t) : bool :=
  Vector.CreatedAt b <? Vector.CreatedAt a.

(** [SearchVectors] *)
Definition SearchVectors (d : Database) (limit : Z) : list Vector.t :=
  Sql.limit limit (Sql.order_by newest_first (vectors d)).

(** [SearchVectorsByCategories] *)
Definition SearchVectorsByCategories (d : Database) (categories : list string)
    (limit : Z) : list Vector.t :=
  match categories with
  | [] => SearchVectors d limit
  | _ =>
    Sql.limit limit
      (Sql.order_by newest_first
         (filter (fun v => Vector.Category v ∈ categories) (vectors d)))
  end.

(** The first statement of [SearchVectorsByExtension],
    [SELECT DISTINCT category ... ORDER BY COUNT( * ) DESC LIMIT 5]:
    SQLite refuses it when it prepares it (an aggregate in the ORDER BY of
    a query that is not an aggregate one), so [Query] returns an error. *)
Definition extension_categories (d : Database) (ext : string)
  : option (list string) := None.

(** [SearchVectorsByExtension] *)
Definition SearchVectorsByExtension (d : Database) (ext : string) (limit : Z)
  : list Vector.t :=
  match extension_categories d ext with
  | None => SearchVectors d limit
  | Some [] => SearchVectors d limit
  | Some categories => SearchVectorsByCategories d categories limit
  end.

(** [GROUP BY key] with [COUNT( * )]: the groups in the order their first
    row appears. *)
Fixpoint count_key (k : string) (groups : list (string * Z))
  : list (string * Z) :=
  match groups with
  | [] => [(k, 1)]
  | (k', n) :: groups' =>
    if String.eqb k' k then (k', n + 1) :: groups'
    else (k', n) :: count_key k groups'
  end.

Definition group_count (keys : list string) : list (string * Z) :=
  fold_left (fun groups k => count_key k groups) keys [].

(** [categorySet[cat] += count] over the rows of one query. *)
Definition add_counts (weight : Z) (rows : list (string * Z))
    (categorySet : gmap string Z) : gmap string Z :=
  fold_left
    (fun m '(cat, count) => <[cat := default 0 (m !! cat) + count * weight]> m)
    rows categorySet.

Definition most_hit_first (a b : Rule.t) : bool :=
  Rule.HitCount b <? Rule.HitCount a.

(** [GetCandidateCategories]: categories weighted by the rules naming a
    keyword, twice by the rules of the extension, and by the confirmed
    history containing a keyword; the five heaviest. *)
Definition GetCandidateCategories (d : Database) (keywords : list string)
    (ext : string) : list string :=
  let long := filter (fun kw => ¬ (len kw < 2)) keywords in
  let rule_rows (p : Rule.t -> bool) : list (string * Z) :=
    map (fun r => (Rule.Category r, Rule.HitCount r))
        (Sql.limit 3
           (Sql.order_by most_hit_first
              (filter (fun r => p r = true) (learned_rules d)))) in
  let categorySet : gmap string Z := ∅ in
  let categorySet :=
    fold_left
      (fun m kw =>
         add_counts 1
           (rule_rows
              (fun r =>
                 String.eqb (Rule.Pattern r) (ToLower kw)
                 || Sql.like (Rule.Pattern r) ("%" +:+ ToLower kw +:+ "%")))
           m)
      long categorySet in
  let categorySet :=
    if String.eqb ext EmptyString then categorySet
    else
      add_counts 2
        (rule_rows
           (fun r =>
              String.eqb (Rule.PatternType r) "extension"
              && String.eqb (Rule.Pattern r) ext))
        categorySet in
  let categorySet :=
    fold_left
      (fun m kw =>
         add_counts 1
           (Sql.limit 3
              (Sql.order_by (fun a b : string * Z => snd b <? snd a)
                 (group_count
                    (map History.Category
                       (filter
                          (fun r =>
                             History.UserConfirmed r = true /\
                             Sql.like (sql_lower (History.Filename r))
                                      ("%" +:+ ToLower kw +:+ "%") = true)
                          (classification_history d))))))
           m)
      long categorySet in
  let scored := map_range (map_to_list categorySet) in
  let scored :=
    ExchangeSort.sort (fun a b : string * Z => snd b <? snd a) scored in
  map fst (take 5 scored).

(** ** Feedback *)

(** [AddFeedback] *)
Definition AddFeedback (d : Database)
    (filename origCat corrCat origSub corrSub : string) : Database :=
  set_feedback d
    (user_feedback d ++
     [{| Feedback.Filename := filename; Feedback.OriginalCategory := origCat;
         Feedback.CorrectedCategory := corrCat;
         Feedback.OriginalSubcategory := origSub;
         Feedback.CorrectedSubcategory := corrSub |}]).

(** ** Operation logs *)

(** [AddOperationLog] *)
Definition AddOperationLog (d : Database)
    (batchID sourcePath destPath filename category subcategory status : string)
  : Database :=
  let id := logs_seq d + 1 in
  set_logs d
    (operation_logs d ++
     [{| OperationLog.ID := id; OperationLog.BatchID := batchID;
         OperationLog.SourcePath := sourcePath;
         OperationLog.DestPath := destPath;
         OperationLog.Filename := filename;
         OperationLog.Category := category;
         OperationLog.Subcategory := subcategory;
         OperationLog.Status := status;
         OperationLog.CreatedAt := now d |}])
    id.

(** [GetBatchLogs]: the rows of the batch whose status is ['success'], by
    id. *)
Definition GetBatchLogs (d : Database) (batchID : string)
  : list OperationLog.t :=
  Sql.order_by (fun a b => OperationLog.ID a <? OperationLog.ID b)
    (filter
       (fun l =>
          OperationLog.BatchID l = batchID /\ OperationLog.Status l = "success")
       (operation_logs d)).

Definition mark_undone (l : OperationLog.t) : OperationLog.t :=
  {| OperationLog.ID := OperationLog.ID l;
     OperationLog.BatchID := OperationLog.BatchID l;
     OperationLog.SourcePath := OperationLog.SourcePath l;
     OperationLog.DestPath := OperationLog.DestPath l;
     OperationLog.Filename := OperationLog.Filename l;
     OperationLog.Category := OperationLog.Category l;
     OperationLog.Subcategory := OperationLog.Subcategory l;
     OperationLog.Status := "undone";
     OperationLog.CreatedAt := OperationLog.CreatedAt l |}.

(** [MarkBatchUndone]: one UPDATE over every row of the batch. *)
Definition MarkBatchUndone (d : Database) (batchID : string) : Database :=
  set_logs d
    (map (fun l =>
            if String.eqb (OperationLog.BatchID l) batchID
            then mark_undone l else l)
         (operation_logs d))
    (logs_seq d).

(** [GetLatestBatch]: the batch of the newest ['success'] row, or the
    empty string. *)
Definition GetLatestBatch (d : Database) : string :=
  match
    Sql.order_by
      (fun a b => OperationLog.CreatedAt b <? OperationLog.CreatedAt a)
      (filter (fun l => OperationLog.Status l = "success") (operation_logs d))
  with
  | l :: _ => OperationLog.BatchID l
  | [] => EmptyString
  end.

(** ** Model statistics *)

(** [AddModelStats] *)
Definition AddModelStats (d : Database) (modelName batchID : string)
    (fileCount totalTimeMs : Z) (avgConfidence : Q) : Database :=
  let avgTimePerFile :=
    if 0 <? fileCount
    then (inject_Z totalTimeMs / inject_Z fileCount)%Q else (0 # 1)%Q in
  set_model_stats d
    (model_stats d ++
     [{| ModelStats.ModelName := modelName; ModelStats.BatchID := batchID;
         ModelStats.FileCount := fileCount;
         ModelStats.TotalTimeMs := totalTimeMs;
         ModelStats.AvgTimePerFileMs := avgTimePerFile;
         ModelStats.AvgConfidence := avgConfidence;
         ModelStats.ConfirmedCount := 0; ModelStats.CorrectedCount := 0;
         ModelStats.AccuracyRate := (0 # 1)%Q;
         ModelStats.CreatedAt := now d |}]).

(** The UPDATE of [UpdateModelAccuracy] on one row. *)
Definition update_accuracy (confirmed corrected : Z) (accuracyRate : Q)
    (s : ModelStats.t) : ModelStats.t :=
  {| ModelStats.ModelName := ModelStats.ModelName s;
     ModelStats.BatchID := ModelStats.BatchID s;
     ModelStats.FileCount := ModelStats.FileCount s;
     ModelStats.TotalTimeMs := ModelStats.TotalTimeMs s;
     ModelStats.AvgTimePerFileMs := ModelStats.AvgTimePerFileMs s;
     ModelStats.AvgConfidence := ModelStats.AvgConfidence s;
     ModelStats.ConfirmedCount := ModelStats.ConfirmedCount s + confirmed;
     ModelStats.CorrectedCount := ModelStats.CorrectedCount s + corrected;
     ModelStats.AccuracyRate := accuracyRate;
     ModelStats.CreatedAt := ModelStats.CreatedAt s |}.

(** [UpdateModelAccuracy] *)
Definition UpdateModelAccuracy (d : Database) (batchID : string)
    (confirmed corrected : Z) : Database :=
  let total := confirmed + corrected in
  let accuracyRate :=
    if 0 <? total
    then (inject_Z confirmed / inject_Z total)%Q else (0 # 1)%Q in
  set_model_stats d
    (map (fun s =>
            if String.eqb (ModelStats.BatchID s) batchID
            then update_accuracy confirmed corrected accuracyRate s else s)
         (model_stats d)).

(** The model names of a table, each once, in the order of their first
    row. *)
Fixpoint distinct (seen : list string) (names : list string) : list string :=
  match names with
  | [] => []
  | n :: names' =>
    if existsb (String.eqb n) seen then distinct seen names'
    else n :: distinct (n :: seen) names'
  end.

(** One row of the SELECT of [GetModelSummaries]: the aggregates of the
    rows of one model. *)
Definition aggregate (name : string) (rows : list ModelStats.t)
  : ModelSummary.t :=
  {| ModelSummary.ModelName := name;
     ModelSummary.TotalBatches := Z.of_nat (List.length rows);
     ModelSummary.TotalFiles := Sql.sumZ (map ModelStats.FileCount rows);
     ModelSummary.AvgTimePerFileMs :=
       Sql.avgQ (map ModelStats.AvgTimePerFileMs rows);
     ModelSummary.AvgConfidence := Sql.avgQ (map ModelStats.AvgConfidence rows);
     ModelSummary.TotalConfirmed :=
       Sql.sumZ (map ModelStats.ConfirmedCount rows);
     ModelSummary.TotalCorrected :=
       Sql.sumZ (map ModelStats.CorrectedCount rows);
     ModelSummary.AccuracyRate := (0 # 1)%Q;
     ModelSummary.Score := (0 # 1)%Q;
     ModelSummary.LastUsed :=
       fold_right Z.max 0 (map ModelStats.CreatedAt rows) |}.

(** [SELECT ... FROM model_stats GROUP BY model_name
     ORDER BY total_files DESC] *)
Definition summary_rows (d : Database) : list ModelSummary.t :=
  Sql.order_by
    (fun a b => ModelSummary.TotalFiles b <? ModelSummary.TotalFiles a)
    (map (fun name =>
            aggregate name
              (filter (fun s => ModelStats.ModelName s = name) (model_stats d)))
         (distinct [] (map ModelStats.ModelName (model_stats d)))).

Definition Qltb (x y : Q) : bool := negb (Qle_bool y x).

(** The body of the [rows.Next()] loop of [GetModelSummaries]: accuracy,
    speed score and score of one scanned row. *)
Definition score_row (s : ModelSummary.t) : ModelSummary.t :=
  let total := ModelSummary.TotalConfirmed s + ModelSummary.TotalCorrected s in
  let accuracyRate :=
    if 0 <? total
    then (inject_Z (ModelSummary.TotalConfirmed s) / inject_Z total)%Q
    else ModelSummary.AvgConfidence s in
  let speedScore := (1 - ModelSummary.AvgTimePerFileMs s / 1000)%Q in
  let speedScore := if Qltb speedScore 0 then (0 # 1)%Q else speedScore in
  let speedScore := if Qltb 1 speedScore then (1 # 1)%Q else speedScore in
  {| ModelSummary.ModelName := ModelSummary.ModelName s;
     ModelSummary.TotalBatches := ModelSummary.TotalBatches s;
     ModelSummary.TotalFiles := ModelSummary.TotalFiles s;
     ModelSummary.AvgTimePerFileMs := ModelSummary.AvgTimePerFileMs s;
     ModelSummary.AvgConfidence := ModelSummary.AvgConfidence s;
     ModelSummary.TotalConfirmed := ModelSummary.TotalConfirmed s;
     ModelSummary.TotalCorrected := ModelSummary.TotalCorrected s;
     ModelSummary.AccuracyRate := accuracyRate;
     ModelSummary.Score :=
       (accuracyRate * (1 # 2) + ModelSummary.AvgConfidence s * (3 # 10)
        + speedScore * (1 # 5))%Q;
     ModelSummary.LastUsed := ModelSummary.LastUsed s |}.

(** [GetModelSummaries]: scan and score every row, then sort by score,
    highest first. *)
Definition GetModelSummaries (d : Database) : list ModelSummary.t :=
  ExchangeSort.sort
    (fun sj si => Qltb (ModelSummary.Score si) (ModelSummary.Score sj))
    (map score_row (summary_rows d)).

(** [GetBestModel]: the first summary with ten files or more, or the
    empty string. *)
Definition GetBestModel (d : Database) : string :=
  match
    filter (fun s => 10 <= ModelSummary.TotalFiles s) (GetModelSummaries d)
  with
  | s :: _ => ModelSummary.ModelName s
  | [] => EmptyString
  end.

End Operations.
End Storage.

(* ===================================================================== *)
(** * [path/filepath] on a system whose separator is [/] *)
(* ===================================================================== *)

Module Filepath.

Definition slash : ascii := "/"%char.
Definition dot : ascii := "."%char.

(** [filepath.Ext]: the suffix from the last dot of the last element. *)
Fixpoint ext_from_end (rev_path acc : list ascii) : list ascii :=
  match rev_path with
  | [] => []
  | c :: rest =>
    if Ascii.eqb c slash then []
    else if Ascii.eqb c dot then c :: acc
    else ext_from_end rest (c :: acc)
  end.

Definition Ext (path : string) : string :=
  string_of_list_ascii (ext_from_end (rev (list_ascii_of_string path)) []).

(** The elements between the separators. *)
Fixpoint split_slash (cur : list ascii) (cs : list ascii) : list string :=
  match cs with
  | [] => [string_of_list_ascii (rev cur)]
  | c :: cs' =>
    if Ascii.eqb c slash
    then string_of_list_ascii (rev cur) :: split_slash [] cs'
    else split_slash (c :: cur) cs'
  end.

Definition join_slash (elems : list string) : string :=
  match elems with
  | [] => EmptyString
  | e :: es => fold_left (fun acc x => acc +:+ "/" +:+ x) es e
  end.

(** [filepath.Clean]: no empty or [.] element, [..] resolved against the
    element before it, [.] for the empty result. *)
Definition Clean (path : string) : string :=
  match path with
  | EmptyString => "."
  | String c _ =>
    let rooted := Ascii.eqb c slash in
    let stack :=
      fold_left
        (fun (out : list string) (e : string) =>
           if String.eqb e EmptyString || String.eqb e "." then out
           else if String.eqb e ".." then
             match out with
             | top :: out' =>
               if String.eqb top ".." then e :: out else out'
             | [] => if rooted then out else [e]
             end
           else e :: out)
        (split_slash [] (list_ascii_of_string path)) [] in
    let body := join_slash (rev stack) in
    if rooted then "/" +:+ body
    else if String.eqb body EmptyString then "." else body
  end.

(** The bytes up to and including the last separator. *)
Fixpoint up_to_last_slash (rev_path : list ascii) : list ascii :=
  match rev_path with
  | [] => []
  | c :: rest => if Ascii.eqb c slash then rev_path else up_to_last_slash rest
  end.

(** [filepath.Dir] *)
Definition Dir (path : string) : string :=
  Clean (string_of_list_ascii
           (rev (up_to_last_slash (rev (list_ascii_of_string path))))).

(** [filepath.Base] of a path that does not end in a separator. *)
Fixpoint base_from_end (rev_path acc : list ascii) : list ascii :=
  match rev_path with
  | [] => acc
  | c :: rest =>
    if Ascii.eqb c slash then acc else base_from_end rest (c :: acc)
  end.

Definition Base (path : string) : string :=
  match path with
  | EmptyString => "."
  | _ =>
    string_of_list_ascii (base_from_end (rev (list_ascii_of_string path)) [])
  end.

(** [filepath.Join]: the non-empty elements joined and cleaned. *)
Definition Join (elems : list string) : string :=
  match filter (fun e => e <> EmptyString) elems with
  | [] => EmptyString
  | es => Clean (join_slash es)
  end.

End Filepath.

(* ===================================================================== *)
(** * [internal/config] *)
(* ===================================================================== *)

Module Config.

Record t := {
  LLMModel : string;
  EnableLearning : bool;
  SimilarityThreshold : Q;
  ConfidenceThreshold : Q;
  BatchSize : Z }.

(** [defaultConfig] *)
Definition defaultConfig : t :=
  {| LLMModel := "qwen3:8b"; EnableLearning := true;
     SimilarityThreshold := (85 # 100)%Q; ConfidenceThreshold := (7 # 10)%Q;
     BatchSize := 15 |}.

End Config.

(** The interface [embedding.Embedder].  A vector of [float64] is a list
    of rationals (every finite [float64] is one). *)
Class Embedder := {
  Embed : string -> list Q;
  Similarity : list Q -> list Q -> Q
}.

(** An instance for examples whose outcome no vector decides: every text
    is embedded as the empty vector, and nothing is similar. *)
Definition BlindEmbedder : Embedder :=
  {| Embed := fun _ => []; Similarity := fun _ _ => (0 # 1)%Q |}.

(* ===================================================================== *)
(** * [internal/memory] *)
(* ===================================================================== *)

Module Memory.
Import GoString GoStrings Storage.

Definition MaxVectorSearchLimit : Z := 200.
Definition MinKeywordLength : Z := 2.

Record Match := {
  Category : string;
  Subcategory : string;
  Confidence : Q;
  Source : string;
  Reasoning : string }.

Section WithInterfaces.
Context {U : Unicode} {RT : Runtime} {E : Embedder}.

(** [extractKeywords] *)
Definition extractKeywords (filename : string) : list string :=
  let name := TrimSuffix filename (Filepath.Ext filename) in
  Regexp.FindAllString Regexp.keywordRegex name.

(** The word set of a lower-cased name. *)
Definition word_set (n : string) : gset string :=
  list_to_set (Regexp.FindAllString Regexp.tokenRegex (ToLower n)).

(** [filenameSimilarity]: the Jaccard coefficient of the two word
    sets. *)
Definition filenameSimilarity (n1 n2 : string) : Q :=
  let w1 := word_set n1 in
  let w2 := word_set n2 in
  if (size w1 =? 0)%nat || (size w2 =? 0)%nat then (0 # 1)%Q
  else
    let intersection := Z.of_nat (size (w1 ∩ w2)) in
    let union := Z.of_nat (size w1) + Z.of_nat (size w2) - intersection in
    (inject_Z intersection / inject_Z union)%Q.

(** [matchRules] *)
Definition matchRules (cfg : Config.t) (db : Database) (filename : string)
  : option Match :=
  let keywords := extractKeywords filename in
  let ext := ToLower (Filepath.Ext filename) in
  match GetMatchingRules db filename keywords ext with
  | [] => None
  | best :: _ =>
    let conf :=
      ((6 # 10) + inject_Z (Rule.HitCount best) / 50 * (35 # 100))%Q in
    let conf := if Qltb (95 # 100) conf then (95 # 100)%Q else conf in
    Some {| Category := Rule.Category best;
            Subcategory := Rule.Subcategory best;
            Confidence := conf;
            Source := "rule";
            Reasoning :=
              "匹配规则: " +:+ Rule.PatternType best +:+ "「"
              +:+ Rule.Pattern best +:+ "」" |}
  end.

(** The [best] record of [matchVectors]. *)
Record Best := {
  best_Filename : string;
  best_Category : string;
  best_Subcategory : string;
  best_Similarity : Q }.

(** [matchVectors] *)
Definition matchVectors (cfg : Config.t) (db : Database) (filename : string)
  : option Match :=
  let queryVec := Embed filename in
  let keywords := extractKeywords filename in
  let ext := ToLower (Filepath.Ext filename) in
  let candidateCategories := GetCandidateCategories db keywords ext in
  let vectors :=
    match candidateCategories with
    | _ :: _ =>
      SearchVectorsByCategories db candidateCategories MaxVectorSearchLimit
    | [] => SearchVectorsByExtension db ext MaxVectorSearchLimit
    end in
  match vectors with
  | [] => None
  | _ =>
    let best :=
      fold_left
        (fun best v =>
           let sim := Similarity queryVec (Vector.Vector v) in
           if Qltb (best_Similarity best) sim
           then {| best_Filename := Vector.Filename v;
                   best_Category := Vector.Category v;
                   best_Subcategory := Vector.Subcategory v;
                   best_Similarity := sim |}
           else best)
        vectors
        {| best_Filename := EmptyString; best_Category := EmptyString;
           best_Subcategory := EmptyString; best_Similarity := (0 # 1)%Q |} in
    if Qltb (best_Similarity best) (Config.SimilarityThreshold cfg) then None
    else
      Some {| Category := best_Category best;
              Subcategory := best_Subcategory best;
              Confidence := best_Similarity best;
              Source := "vector";
              Reasoning := "相似文件: " +:+ best_Filename best |}
  end.

(** [matchHistory] *)
Definition matchHistory (cfg : Config.t) (db : Database) (filename : string)
  : option Match :=
  match extractKeywords filename with
  | [] => None
  | keywords =>
    match GetSimilarClassifications db keywords 5 with
    | [] => None
    | best :: _ =>
      let sim := filenameSimilarity filename (History.Filename best) in
      Some {| Category := History.Category best;
              Subcategory := History.Subcategory best;
              Confidence := (sim * (9 # 10))%Q;
              Source := "history";
              Reasoning := "历史记录: " +:+ History.Filename best |}
    end
  end.

(** [m.Confidence >= m.cfg.SimilarityThreshold] *)
Definition reaches (cfg : Config.t) (m : Match) : bool :=
  Qle_bool (Config.SimilarityThreshold cfg) (Confidence m).

(** [if match := tier(filename); match != nil { if match.Confidence >=
    threshold { return match } }]: what one tier of [Query] returns, if it
    returns. *)
Definition accepted (cfg : Config.t) (m : option Match) : option Match :=
  match m with
  | Some m => if reaches cfg m then Some m else None
  | None => None
  end.

(** [Query]: rules, then vectors, then history; the first match that
    reaches the threshold, or nil. *)
Definition Query (cfg : Config.t) (db : Database) (filename : string)
  : option Match :=
  match accepted cfg (matchRules cfg db filename) with
  | Some m => Some m
  | None =>
    match accepted cfg (matchVectors cfg db filename) with
    | Some m => Some m
    | None => accepted cfg (matchHistory cfg db filename)
    end
  end.

(** [learnRules]: one extension rule (priority 5) and one keyword rule
    per keyword of [MinKeywordLength] bytes or more (priority 10). *)
Definition learnRules (db : Database) (filename category subcategory : string)
  : Database :=
  let ext := ToLower (Filepath.Ext filename) in
  let keywords := extractKeywords filename in
  let db :=
    if String.eqb ext EmptyString then db
    else AddOrUpdateRule db ext "extension" category subcategory 5 in
  fold_left
    (fun db kw =>
       if MinKeywordLength <=? len kw
       then AddOrUpdateRule db (ToLower kw) "keyword" category subcategory 10
       else db)
    keywords db.

(** [Learn]: a history row and a vector row; rules when the user
    confirmed. *)
Definition Learn (db : Database)
    (filename category subcategory source : string) (confidence : Q)
    (userConfirmed : bool) : Database :=
  let ext := ToLower (Filepath.Ext filename) in
  let keywords := extractKeywords filename in
  let db :=
    fst (AddClassification db filename ext category subcategory source
           confidence keywords userConfirmed) in
  let vec := Embed filename in
  let db := SaveVector db filename category subcategory vec in
  if userConfirmed then learnRules db filename category subcategory else db.

(** [LearnFromCorrection]: a feedback row, and keyword rules of priority
    20 for the corrected labels. *)
Definition LearnFromCorrection (db : Database)
    (filename origCat corrCat origSub corrSub : string) : Database :=
  let db := AddFeedback db filename origCat corrCat origSub corrSub in
  fold_left
    (fun db kw =>
       if MinKeywordLength <=? len kw
       then AddOrUpdateRule db (ToLower kw) "keyword" corrCat corrSub 20
       else db)
    (extractKeywords filename) db.

(** [GetLearnedRules]: pattern, category and subcategory of the top
    rules. *)
Definition GetLearnedRules (db : Database) (limit : Z)
  : list (string * string * string) :=
  map (fun r => (Rule.Pattern r, Rule.Category r, Rule.Subcategory r))
      (GetTopRules db limit).

End WithInterfaces.
End Memory.

(* ===================================================================== *)
(** * [internal/scanner], decoded JSON, and the LLM gateway *)
(* ===================================================================== *)

Module Scanner.
Record FileInfo := {
  Path : string; Name : string; Extension : string; Size : Z;
  ModifiedTime : Z; IsDir : bool }.

#[global] Instance FileInfo_eq_dec : EqDecision FileInfo.
Proof. solve_decision. Defined.

End Scanner.

(** What [encoding/json] decodes into [interface{}]: [nil], [bool],
    [float64], [string], [[]interface{}], [map[string]interface{}]. *)
Module Json.

#[warnings="-register-all"]
Inductive value :=
| Null
| Bool (b : bool)
| Number (q : Q)
| Str (s : string)
| Array (items : list value)
| Object (fields : list (string * value)).

(** [m[key]] on a decoded object: of two fields with one name the decoder
    keeps the later. *)
Fixpoint lookup (key : string) (fields : list (string * value))
  : option value :=
  match fields with
  | [] => None
  | (k, v) :: fields' =>
    match lookup key fields' with
    | Some v' => Some v'
    | None => if String.eqb k key then Some v else None
    end
  end.

End Json.

(** [llm.Client.ClassifyFiles]: the HTTP exchange with the model and the
    decoding of its answer happen outside; what the classifier sees is an
    error (time-out, HTTP error, answer that does not parse) or the
    decoded object.  [call] numbers the calls of one run. *)
Module Llm.

Inductive Response :=
| Failed (err : string)
| Decoded (resp : list (string * Json.value)).

Class Client := {
  ClassifyFiles :
    forall (call : nat) (files : list (string * string * Z))
           (rules : list (string * string * string)), Response
}.

(** Two services for examples.  The first never answers in time. *)
Definition TimeoutClient : Client :=
  {| ClassifyFiles := fun _ _ _ => Failed "context deadline exceeded" |}.

(** The second answers every batch with one classification of the
    given confidence. *)
Definition AnswerWith (confidence : Q) : Client :=
  {| ClassifyFiles := fun _ _ _ =>
       Decoded
         [("classifications",
           Json.Array
             [Json.Object
                [("filename", Json.Str "zxqfoo.bin");
                 ("category", Json.Str "Data");
                 ("subcategory", Json.Str "Binary");
                 ("confidence", Json.Number confidence);
                 ("reasoning", Json.Str "binary data")]])] |}.

End Llm.

(* ===================================================================== *)
(** * [internal/classifier] *)
(* ===================================================================== *)

Module Classifier.
Import GoString GoStrings Storage.

Record Result := {
  FileInfo : Scanner.FileInfo;
  Category : string;
  Subcategory : string;
  Confidence : Q;
  Reasoning : string;
  Source : string;
  Keywords : list string }.

(** The [modelStats] field. *)
Record Stats := {
  TotalTimeMs : Z;
  FileCount : Z;
  TotalConfidence : Q }.

(** The classifier: its two handles [memory] and [db] open the same
    database file, so they are one [Database] here. *)
Record t := {
  db : Database;
  cfg : Config.t;
  batchID : string;
  modelStats : Stats }.

(** [NewClassifier] on an open database, at the time that formats as
    [batchID]. *)
Definition NewClassifier (db : Database) (cfg : Config.t) (batchID : string)
  : t :=
  {| db := db; cfg := cfg; batchID := batchID;
     modelStats := {| TotalTimeMs := 0; FileCount := 0;
                      TotalConfidence := (0 # 1)%Q |} |}.

Definition with_db (c : t) (db' : Database) : t :=
  {| db := db'; cfg := cfg c; batchID := batchID c;
     modelStats := modelStats c |}.

(** [getString] *)
Definition getString (m : list (string * Json.value)) (key def : string)
  : string :=
  match Json.lookup key m with
  | Some (Json.Str v) => v
  | _ => def
  end.

(** [getFloat] *)
Definition getFloat (m : list (string * Json.value)) (key : string) (def : Q)
  : Q :=
  match Json.lookup key m with
  | Some (Json.Number v) => v
  | _ => def
  end.

(** [getStringSlice] *)
Definition getStringSlice (m : list (string * Json.value)) (key : string)
  : list string :=
  match Json.lookup key m with
  | Some (Json.Array v) =>
    omap (fun item => match item with Json.Str s => Some s | _ => None end) v
  | _ => []
  end.

(** The results of one failed batch. *)
Definition error_results (batch : list Scanner.FileInfo) (err : string)
  : list Result :=
  map (fun f =>
         {| FileInfo := f; Category := "未分类"; Subcategory := "其他";
            Confidence := (0 # 1)%Q; Reasoning := "分类失败: " +:+ err;
            Source := "error"; Keywords := [] |})
      batch.

(** The loop over [classifications]: entry [j] is for [batch[j]]; the
    loop stops at the end of the batch and skips an entry that is not an
    object. *)
Fixpoint parsed_results (batch : list Scanner.FileInfo)
    (classifications : list Json.value) : list Result :=
  match classifications, batch with
  | cls :: classifications', f :: batch' =>
    match cls with
    | Json.Object clsMap =>
      {| FileInfo := f;
         Category := getString clsMap "category" "未分类";
         Subcategory := getString clsMap "subcategory" "其他";
         Confidence := getFloat clsMap "confidence" (1 # 2);
         Reasoning := getString clsMap "reasoning" EmptyString;
         Source := "llm";
         Keywords := getStringSlice clsMap "keywords" |}
      :: parsed_results batch' classifications'
    | _ => parsed_results batch' classifications'
    end
  | _, _ => []
  end.

Section WithInterfaces.
Context {U : Unicode} {RT : Runtime} {E : Embedder} {L : Llm.Client}.

(** The results of one batch. *)
Definition batch_results (call : nat) (batch : list Scanner.FileInfo)
    (rules : list (string * string * string)) : list Result :=
  let batchData :=
    map (fun f => (Scanner.Name f, Scanner.Extension f, Scanner.Size f))
        batch in
  match Llm.ClassifyFiles call batchData rules with
  | Llm.Failed err => error_results batch err
  | Llm.Decoded resp =>
    match Json.lookup "classifications" resp with
    | Some (Json.Array classifications) =>
      parsed_results batch classifications
    | _ => []
    end
  end.

(** The loop [for i := 0; i < len(files); i += batchSize] of
    [classifyWithLLM], at index [i] with [results] so far.  [None] when
    the loop does not return: the slice [files[i:end]] is out of bounds
    (a negative batch size), or the fuel is spent (a batch size of 0
    never advances). *)
Fixpoint batch_loop (fuel : nat) (batchSize : Z)
    (files : list Scanner.FileInfo) (rules : list (string * string * string))
    (call : nat) (i : Z) (results : list Result) : option (list Result) :=
  if Z.of_nat (List.length files) <=? i then Some results
  else
    match fuel with
    | O => None
    | S fuel' =>
      let end_ := i + batchSize in
      let end_ :=
        if Z.of_nat (List.length files) <? end_
        then Z.of_nat (List.length files) else end_ in
      if end_ <? i then None
      else
        let batch := take (Z.to_nat (end_ - i)) (drop (Z.to_nat i) files) in
        batch_loop fuel' batchSize files rules (S call) (i + batchSize)
          (results ++ batch_results call batch rules)
    end.

(** [classifyWithLLM] *)
Definition classifyWithLLM (c : t) (files : list Scanner.FileInfo)
    (rules : list (string * string * string)) : option (list Result) :=
  batch_loop (S (List.length files)) (Config.BatchSize (cfg c)) files rules
    0%nat 0 [].

(** Phase 1 of [Classify]: directories are skipped; a file whose [Query]
    match reaches the threshold gets a result from memory, the others
    queue for the model. *)
Fixpoint memory_phase (c : t) (files : list Scanner.FileInfo)
  : list Result * list Scanner.FileInfo :=
  match files with
  | [] => ([], [])
  | f :: files' =>
    let '(memoryResults, llmNeeded) := memory_phase c files' in
    if Scanner.IsDir f then (memoryResults, llmNeeded)
    else
      match Memory.Query (cfg c) (db c) (Scanner.Name f) with
      | Some m =>
        if Qle_bool (Config.SimilarityThreshold (cfg c)) (Memory.Confidence m)
        then
          ({| FileInfo := f;
              Category := Memory.Category m;
              Subcategory := Memory.Subcategory m;
              Confidence := Memory.Confidence m;
              Reasoning := Memory.Reasoning m;
              Source := "memory";
              Keywords := [] |} :: memoryResults, llmNeeded)
        else (memoryResults, f :: llmNeeded)
      | None => (memoryResults, f :: llmNeeded)
      end
  end.

(** [order[f.Path] = i] for every file, a later file replacing an earlier
    one with the same path. *)
Definition path_order (files : list Scanner.FileInfo) : gmap string Z :=
  fold_left
    (fun order '(i, f) => <[Scanner.Path f := Z.of_nat i]> order)
    (imap (fun i f => (i, f)) files) ∅.

(** [order[r.FileInfo.Path]], 0 for a path the map does not hold. *)
Definition rank (order : gmap string Z) (r : Result) : Z :=
  default 0 (order !! Scanner.Path (FileInfo r)).

(** The learning loop of phase 2. *)
Definition learn_results (db : Database) (llmResults : list Result)
  : Database :=
  fold_left
    (fun db r =>
       Memory.Learn db (Scanner.Name (FileInfo r)) (Category r)
         (Subcategory r) "llm" (Confidence r) false)
    llmResults db.

(** [Classify]; [elapsed] is the time the model took, in milliseconds. *)
Definition Classify (c : t) (files : list Scanner.FileInfo) (elapsed : Z)
  : option (t * list Result) :=
  let '(memoryResults, llmNeeded) := memory_phase c files in
  let phase2 :=
    match llmNeeded with
    | [] => Some (c, [])
    | _ =>
      let rules := Memory.GetLearnedRules (db c) 30 in
      match classifyWithLLM c llmNeeded rules with
      | None => None
      | Some llmResults =>
        let stats :=
          {| TotalTimeMs := elapsed;
             FileCount := Z.of_nat (List.length llmResults);
             TotalConfidence :=
               fold_left (fun total r => (total + Confidence r)%Q) llmResults
                 (TotalConfidence (modelStats c)) |} in
        let db' :=
          if Config.EnableLearning (cfg c)
          then learn_results (db c) llmResults else db c in
        Some ({| db := db'; cfg := cfg c; batchID := batchID c;
                 modelStats := stats |}, llmResults)
      end
    end in
  match phase2 with
  | None => None
  | Some (c', llmResults) =>
    let results := memoryResults ++ llmResults in
    let order := path_order files in
    Some (c', StableSort.sort (fun a b => rank order a <? rank order b) results)
  end.

(** Whether the loop of [classifyWithLLM] ends in a run-time panic.  It
    is the loop of [batch_loop] without its results: the slice
    expression [files[i:end]] panics when [end < i], which a negative
    batch size brings about, and nothing recovers the panic.  [len] is
    [len(files)]. *)
Fixpoint batch_loop_panics (fuel : nat) (batchSize len i : Z) : bool :=
  if len <=? i then false
  else
    match fuel with
    | O => false
    | S fuel' =>
      let end_ := i + batchSize in
      let end_ := if len <? end_ then len else end_ in
      if end_ <? i then true
      else batch_loop_panics fuel' batchSize len (i + batchSize)
    end.

Definition classifyWithLLM_panics (c : t) (files : list Scanner.FileInfo)
  : bool :=
  batch_loop_panics (S (List.length files)) (Config.BatchSize (cfg c))
    (Z.of_nat (List.length files)) 0.

(** [Classify] panics when it calls [classifyWithLLM] and that call
    does. *)
Definition Classify_panics (c : t) (files : list Scanner.FileInfo) : bool :=
  match snd (memory_phase c files) with
  | [] => false
  | llmNeeded => classifyWithLLM_panics c llmNeeded
  end.

(** [Confirm] *)
Definition Confirm (c : t) (r : Result) : t :=
  let db' :=
    Memory.Learn (db c) (Scanner.Name (FileInfo r)) (Category r)
      (Subcategory r) (Source r) (Confidence r) true in
  let db' :=
    if String.eqb (Source r) "llm"
    then UpdateModelAccuracy db' (batchID c) 1 0 else db' in
  with_db c db'.

(** [Correct] *)
Definition Correct (c : t) (r : Result) (newCat newSub : string) : t :=
  let db' :=
    Memory.LearnFromCorrection (db c) (Scanner.Name (FileInfo r)) (Category r)
      newCat (Subcategory r) newSub in
  let db' :=
    if String.eqb (Source r) "llm"
    then UpdateModelAccuracy db' (batchID c) 0 1 else db' in
  with_db c db'.

(** [Close]: the statistics of the run are saved when the model
    classified a file. *)
Definition Close (c : t) : Database :=
  if 0 <? FileCount (modelStats c)
  then
    AddModelStats (db c) (Config.LLMModel (cfg c)) (batchID c)
      (FileCount (modelStats c)) (TotalTimeMs (modelStats c))
      (TotalConfidence (modelStats c) / inject_Z (FileCount (modelStats c)))%Q
  else db c.

End WithInterfaces.
End Classifier.

(* ===================================================================== *)
(** * The file system as the commands see it *)
(* ===================================================================== *)

Module Os.

(** The paths that exist: regular files and directories. *)
Record FileSystem := {
  files : gset string;
  dirs : gset string }.

(** The reasons for which the system refuses a call on a path that
    exists (permissions, another device, ...) are the environment's. *)
Class Faults := {
  mkdir_all_fails : string -> bool;
  rename_fails : string -> string -> bool
}.

(** An instance for examples: the system refuses nothing. *)
Definition NoFaults : Faults :=
  {| mkdir_all_fails := fun _ => false; rename_fails := fun _ _ => false |}.

(** [_, err := os.Stat(p)] with [err == nil]; the only error taken into
    account is that [p] does not exist. *)
Definition Stat (fs : FileSystem) (p : string) : bool :=
  bool_decide (p ∈ files fs ∪ dirs fs).

(** A directory and the directories above it. *)
Fixpoint ancestors (fuel : nat) (p : string) : list string :=
  match fuel with
  | O => [p]
  | S fuel' =>
    let up := Filepath.Dir p in
    if String.eqb up p then [p] else p :: ancestors fuel' up
  end.

Section WithFaults.
Context {FL : Faults}.

(** [os.MkdirAll]: [None] is an error. *)
Definition MkdirAll (fs : FileSystem) (path : string) : option FileSystem :=
  let chain := ancestors (String.length path) (Filepath.Clean path) in
  if mkdir_all_fails path
     || existsb (fun p => bool_decide (p ∈ files fs)) chain
  then None
  else Some {| files := files fs; dirs := dirs fs ∪ list_to_set chain |}.

(** Where a path lies once [old] is called [new]: [old] itself and what
    is below it move. *)
Definition rebase (old new p : string) : string :=
  if String.eqb p old then new
  else if String.prefix (old +:+ "/") p
  then new +:+ String.substring (String.length old)
                 (String.length p - String.length old) p
  else p.

(** [os.Rename]: [None] is an error. *)
Definition Rename (fs : FileSystem) (old new : string) : option FileSystem :=
  if negb (Stat fs old) || rename_fails old new then None
  else Some {| files := set_map (rebase old new) (files fs);
               dirs := set_map (rebase old new) (dirs fs) |}.

End WithFaults.

(** The entries of a directory. *)
Definition entries (fs : FileSystem) (dir : string) : list string :=
  filter (fun p => Filepath.Dir p = dir /\ p <> dir)
         (elements (files fs ∪ dirs fs)).

(** [os.Remove] on a directory: it goes when it is empty. *)
Definition RemoveDir (fs : FileSystem) (dir : string) : FileSystem :=
  match entries fs dir with
  | [] => {| files := files fs; dirs := dirs fs ∖ {[dir]} |}
  | _ => fs
  end.

(** [%d] of a counter. *)
Definition itoa (n : nat) : string := NilZero.string_of_uint (Nat.to_uint n).

End Os.

(* ===================================================================== *)
(** * [internal/organizer] *)
(* ===================================================================== *)

Module Organizer.
Import Storage.

Definition LowConfidenceThreshold : Q := (7 # 10)%Q.

Record Plan := {
  TargetDir : string;
  Actions : gmap string (list Classifier.Result) }.

Record ExecuteResult := {
  Success : Z;
  Errors : Z }.

(** The folder of a result: [category/subcategory], or the category alone
    when the subcategory says nothing. *)
Definition folder_of (r : Classifier.Result) : string :=
  let sub := Classifier.Subcategory r in
  if negb (String.eqb sub EmptyString) && negb (String.eqb sub "其他")
     && negb (String.eqb sub "未知")
  then Filepath.Join [Classifier.Category r; sub]
  else Classifier.Category r.

(** [GeneratePlan] *)
Definition GeneratePlan (results : list Classifier.Result) (targetDir : string)
  : Plan :=
  {| TargetDir := targetDir;
     Actions :=
       fold_left
         (fun actions r =>
            <[folder_of r := default [] (actions !! folder_of r) ++ [r]]>
              actions)
         results ∅ |}.

(** The search of [handleDuplicate] and of [undoBatch] for a name that is
    free: [candidate i] for [i = from, from+1, ...].  [None] when the
    fuel is spent. *)
Fixpoint first_free (fs : Os.FileSystem) (candidate : nat -> string)
    (fuel from : nat) : option string :=
  match fuel with
  | O => None
  | S fuel' =>
    if Os.Stat fs (candidate from) then first_free fs candidate fuel' (S from)
    else Some (candidate from)
  end.

(** More candidates than there are paths. *)
Definition search_fuel (fs : Os.FileSystem) : nat :=
  S (size (Os.files fs ∪ Os.dirs fs)).

(** [handleDuplicate]: the path when it is free, else the first free
    [name_i.ext] beside it. *)
Definition handleDuplicate (fs : Os.FileSystem) (path : string)
  : option string :=
  if negb (Os.Stat fs path) then Some path
  else
    let dir := Filepath.Dir path in
    let ext := Filepath.Ext path in
    let name := GoStrings.TrimSuffix (Filepath.Base path) ext in
    first_free fs
      (fun i => Filepath.Join [dir; name +:+ "_" +:+ Os.itoa i +:+ ext])
      (search_fuel fs) 1.

Section WithInterfaces.
Context {U : Unicode} {RT : Runtime} {E : Embedder} {L : Llm.Client}
        {FL : Os.Faults}.

(** The state [Execute] works on. *)
Record World := {
  clf : Classifier.t;
  fs : Os.FileSystem;
  result : ExecuteResult }.

(** One file of [Execute]: move it, log the move, confirm the
    classification when it moved. *)
Definition move_file (batchID targetFolder : string) (w : option World)
    (r : Classifier.Result) : option World :=
  match w with
  | None => None
  | Some w =>
    let src := Scanner.Path (Classifier.FileInfo r) in
    let dst := Filepath.Join [targetFolder; Scanner.Name (Classifier.FileInfo r)] in
    match handleDuplicate (fs w) dst with
    | None => None
    | Some dst =>
      let log status c :=
        Classifier.with_db c
          (AddOperationLog (Classifier.db c) batchID src dst
             (Scanner.Name (Classifier.FileInfo r)) (Classifier.Category r)
             (Classifier.Subcategory r) status) in
      match Os.Rename (fs w) src dst with
      | None =>
        Some {| clf := log "failed" (clf w); fs := fs w;
                result := {| Success := Success (result w);
                             Errors := Errors (result w) + 1 |} |}
      | Some fs' =>
        Some {| clf := log "success" (Classifier.Confirm (clf w) r);
                fs := fs';
                result := {| Success := Success (result w) + 1;
                             Errors := Errors (result w) |} |}
      end
    end
  end.

(** [Execute]: every folder of the plan in the order the runtime ranges
    over the map; [batchID] is the time of the call.  [None] when a
    search for a free name does not end. *)
Definition Execute (plan : Plan) (c : Classifier.t) (files : Os.FileSystem)
    (batchID : string) : option World :=
  fold_left
    (fun w '(folder, results) =>
       match w with
       | None => None
       | Some w =>
         let targetFolder := Filepath.Join [TargetDir plan; folder] in
         let fs' :=
           match Os.MkdirAll (fs w) targetFolder with
           | Some fs' => fs'
           | None => fs w
           end in
         fold_left (move_file batchID targetFolder) results
           (Some {| clf := clf w; fs := fs'; result := result w |})
       end)
    (map_range (map_to_list (Actions plan)))
    (Some {| clf := c; fs := files;
             result := {| Success := 0; Errors := 0 |} |}).

(** A line read from the terminal ([reader.ReadString] and
    [strings.TrimSpace]); the empty string at the end of the input. *)
Definition read_line (stdin : list string) : string * list string :=
  match stdin with
  | line :: rest => (line, rest)
  | [] => (EmptyString, [])
  end.

(** The state of [InteractiveReview]. *)
Record Review := {
  rv_clf : Classifier.t;
  rv_stdin : list string;
  rv_actions : gmap string (list Classifier.Result);
  rv_modified : bool;
  rv_done : bool }.

Definition relabel (r : Classifier.Result) (newCat newSub : string)
  : Classifier.Result :=
  {| Classifier.FileInfo := Classifier.FileInfo r;
     Classifier.Category := newCat; Classifier.Subcategory := newSub;
     Classifier.Confidence := Classifier.Confidence r;
     Classifier.Reasoning := Classifier.Reasoning r;
     Classifier.Source := Classifier.Source r;
     Classifier.Keywords := Classifier.Keywords r |}.

(** One result of the review: asked about when its confidence is low. *)
Definition review_one (folder : string) (st : Review)
    (ir : nat * Classifier.Result) : Review :=
  let '(i, r) := ir in
  if rv_done st || negb (Qltb (Classifier.Confidence r) LowConfidenceThreshold)
  then st
  else
    let '(input, stdin) := read_line (rv_stdin st) in
    let input := GoStrings.ToLower input in
    if String.eqb input "q" then
      {| rv_clf := rv_clf st; rv_stdin := stdin; rv_actions := rv_actions st;
         rv_modified := rv_modified st; rv_done := true |}
    else if String.eqb input "y" then
      {| rv_clf := Classifier.Confirm (rv_clf st) r; rv_stdin := stdin;
         rv_actions := rv_actions st; rv_modified := rv_modified st;
         rv_done := false |}
    else if String.eqb input "c" then
      let '(newCat, stdin) := read_line stdin in
      let newCat :=
        if String.eqb newCat EmptyString then Classifier.Category r
        else newCat in
      let '(newSub, stdin) := read_line stdin in
      let newSub :=
        if String.eqb newSub EmptyString then Classifier.Subcategory r
        else newSub in
      {| rv_clf := Classifier.Correct (rv_clf st) r newCat newSub;
         rv_stdin := stdin;
         rv_actions :=
           alter (alter (fun r' => relabel r' newCat newSub) i) folder
             (rv_actions st);
         rv_modified := true; rv_done := false |}
    else
      {| rv_clf := rv_clf st; rv_stdin := stdin; rv_actions := rv_actions st;
         rv_modified := rv_modified st; rv_done := false |}.

(** [InteractiveReview]: the plan after the review, the classifier and
    what is left of the input. *)
Definition InteractiveReview (plan : Plan) (c : Classifier.t)
    (stdin : list string) : Plan * Classifier.t * list string :=
  let st :=
    fold_left
      (fun st '(folder, results) =>
         fold_left (review_one folder) (imap (fun i r => (i, r)) results) st)
      (map_range (map_to_list (Actions plan)))
      {| rv_clf := c; rv_stdin := stdin; rv_actions := Actions plan;
         rv_modified := false; rv_done := false |} in
  let plan' :=
    if rv_modified st
    then GeneratePlan
           (concat (map snd (map_range (map_to_list (rv_actions st)))))
           (TargetDir plan)
    else {| TargetDir := TargetDir plan; Actions := rv_actions st |} in
  (plan', rv_clf st, rv_stdin st).

(** [Confirm]: [ui.Confirm(prompt, false)], yes on [y] or [yes]. *)
Definition Confirm (stdin : list string) : bool * list string :=
  let '(input, stdin) := read_line stdin in
  let input := GoStrings.ToLower input in
  (String.eqb input "y" || String.eqb input "yes", stdin).

End WithInterfaces.
End Organizer.

(* ===================================================================== *)
(** * [cmd/undo.go] *)
(* ===================================================================== *)

Module Undo.
Import Storage.

(** What one run of [undoBatch] did: the renames it performed, in order,
    and its two counters. *)
Record Report := {
  renames : list (string * string);
  success : Z;
  errors : Z }.

Definition nothing : Report := {| renames := []; success := 0; errors := 0 |}.

(** The sibling [base_restored_i.ext] of a path. *)
Definition restored_name (path : string) (i : nat) : string :=
  let ext := Filepath.Ext path in
  let base := String.substring 0 (String.length path - String.length ext) path in
  base +:+ "_restored_" +:+ Os.itoa i +:+ ext.

(** Where a file goes back to: its source path when nothing is there,
    else the first free [_restored_i] sibling, [i = 1, 2, ...]. *)
Definition restore_target (fs : Os.FileSystem) (sourcePath : string)
  : option string :=
  if Os.Stat fs sourcePath
  then Organizer.first_free fs (restored_name sourcePath)
         (Organizer.search_fuel fs) 1
  else Some sourcePath.

Section WithInterfaces.
Context {RT : Runtime} {FL : Os.Faults}.

Definition failed (fs : Os.FileSystem) (rep : Report)
  : option (Os.FileSystem * Report) :=
  Some (fs, {| renames := renames rep; success := success rep;
               errors := errors rep + 1 |}).

(** One log of the pass of [undoBatch]. *)
Definition undo_one (st : option (Os.FileSystem * Report))
    (log : OperationLog.t) : option (Os.FileSystem * Report) :=
  match st with
  | None => None
  | Some (fs, rep) =>
    if negb (Os.Stat fs (OperationLog.DestPath log)) then failed fs rep
    else
      match Os.MkdirAll fs (Filepath.Dir (OperationLog.SourcePath log)) with
      | None => failed fs rep
      | Some fs1 =>
        match restore_target fs1 (OperationLog.SourcePath log) with
        | None => None
        | Some destPath =>
          match Os.Rename fs1 (OperationLog.DestPath log) destPath with
          | None => failed fs1 rep
          | Some fs2 =>
            Some (fs2,
                  {| renames :=
                       renames rep ++ [(OperationLog.DestPath log, destPath)];
                     success := success rep + 1;
                     errors := errors rep |})
          end
        end
      end
  end.

(** [cleanEmptyDirs]: the directories the files were moved out of, and
    the parent of each one removed, go when they are empty. *)
Definition cleanEmptyDirs (fs : Os.FileSystem) (logs : list OperationLog.t)
  : Os.FileSystem :=
  let dirs : gmap string bool :=
    list_to_map
      (map (fun l => (Filepath.Dir (OperationLog.DestPath l), true)) logs) in
  fold_left
    (fun fs '(dir, _) =>
       if bool_decide (dir ∈ Os.dirs fs)
          && bool_decide (Os.entries fs dir = [])
       then Os.RemoveDir (Os.RemoveDir fs dir) (Filepath.Dir dir)
       else fs)
    (map_range (map_to_list dirs)) fs.

(** [undoBatch]; [confirmed] is the answer to the prompt.  [None] when a
    search for a free name does not end. *)
Definition undoBatch (db : Database) (fs : Os.FileSystem) (batchID : string)
    (confirmed : bool) : option (Database * Os.FileSystem * Report) :=
  match GetBatchLogs db batchID with
  | [] => Some (db, fs, nothing)
  | logs =>
    if negb confirmed then Some (db, fs, nothing)
    else
      match fold_left undo_one logs (Some (fs, nothing)) with
      | None => None
      | Some (fs', rep) =>
        let db' := if 0 <? success rep then MarkBatchUndone db batchID else db in
        Some (db', cleanEmptyDirs fs' logs, rep)
      end
  end.

(** [runUndo] without [--list]: the batch named on the command line, or
    the latest one. *)
Definition runUndo (db : Database) (fs : Os.FileSystem) (args : list string)
    (confirmed : bool) : option (Database * Os.FileSystem * Report) :=
  match args with
  | batchID :: _ => undoBatch db fs batchID confirmed
  | [] =>
    let batchID := GetLatestBatch db in
    if String.eqb batchID EmptyString then Some (db, fs, nothing)
    else undoBatch db fs batchID confirmed
  end.

End WithInterfaces.
End Undo.

(* ===================================================================== *)
(** * [cmd/root.go] *)
(* ===================================================================== *)

Module Cmd.
Import Storage.

(** The flags of the root command. *)
Record Flags := {
  targetDir : string;
  model : string;
  dryRun : bool;
  interactive : bool;
  noLearning : bool;
  recursive : bool }.

(** What cobra makes of the command line before it runs the command: an
    error of the flag parser, or the flags and the positional
    arguments. *)
Inductive CommandLine :=
| FlagError (message : string)
| Parsed (flags : Flags) (args : list string).

(** What the process finds around it. *)
Record Environment := {
  service_available : bool;
  installed_models : list string;
  scan : string -> bool -> option (list Scanner.FileInfo);
  stdin : list string;
  classify_time : string;
  execute_time : string;
  elapsed : Z }.

(** How far [runOrganize] went. *)
Inductive Outcome :=
| Help
| DirectoryMissing
| ServiceUnavailable
| ModelNotInstalled
| ScanFailed
| NoFiles
| Preview
| Cancelled
| Executed (r : Organizer.ExecuteResult).

Section WithInterfaces.
Context {U : Unicode} {RT : Runtime} {E : Embedder} {L : Llm.Client}
        {FL : Os.Faults}.

(** [runOrganize]: the database and the file system it leaves, and how
    far it went.  [None] when it does not return. *)
Definition runOrganize (env : Environment) (cfg : Config.t) (db : Database)
    (files : Os.FileSystem) (flags : Flags) (args : list string)
  : option (Database * Os.FileSystem * Outcome) :=
  match args with
  | [] => Some (db, files, Help)
  | sourceDir :: _ =>
    let cfg :=
      {| Config.LLMModel :=
           if String.eqb (model flags) EmptyString then Config.LLMModel cfg
           else model flags;
         Config.EnableLearning :=
           if noLearning flags then false else Config.EnableLearning cfg;
         Config.SimilarityThreshold := Config.SimilarityThreshold cfg;
         Config.ConfidenceThreshold := Config.ConfidenceThreshold cfg;
         Config.BatchSize := Config.BatchSize cfg |} in
    let target :=
      if String.eqb (targetDir flags) EmptyString
      then Filepath.Join [sourceDir; "已整理"] else targetDir flags in
    if negb (Os.Stat files sourceDir) then Some (db, files, DirectoryMissing)
    else if negb (service_available env)
    then Some (db, files, ServiceUnavailable)
    else if negb (existsb (String.eqb (Config.LLMModel cfg))
                    (installed_models env))
    then Some (db, files, ModelNotInstalled)
    else
      match scan env sourceDir (recursive flags) with
      | None => Some (db, files, ScanFailed)
      | Some found =>
        if (List.length (filter (fun f => Scanner.IsDir f = false) found)
            =? 0)%nat
        then Some (db, files, NoFiles)
        else
          let c := Classifier.NewClassifier db cfg (classify_time env) in
          match Classifier.Classify c found (elapsed env) with
          | None => None
          | Some (c, results) =>
            let plan := Organizer.GeneratePlan results target in
            let '(plan, c, input) :=
              if interactive flags
              then Organizer.InteractiveReview plan c (stdin env)
              else (plan, c, stdin env) in
            if dryRun flags then Some (Classifier.Close c, files, Preview)
            else
              let '(yes, _) := Organizer.Confirm input in
              if yes then
                match Organizer.Execute plan c files (execute_time env) with
                | None => None
                | Some w =>
                  Some (Classifier.Close (Organizer.clf w), Organizer.fs w,
                        Executed (Organizer.result w))
                end
              else Some (Classifier.Close c, files, Cancelled)
          end
      end
  end.

(** Whether [runOrganize] ends in a run-time panic: it does when it gets
    as far as [Classify] and [Classify] panics.  The steps before are
    those of [runOrganize]. *)
Definition runOrganize_panics (env : Environment) (cfg : Config.t)
    (db : Database) (files : Os.FileSystem) (flags : Flags)
    (args : list string) : bool :=
  match args with
  | [] => false
  | sourceDir :: _ =>
    let cfg :=
      {| Config.LLMModel :=
           if String.eqb (model flags) EmptyString then Config.LLMModel cfg
           else model flags;
         Config.EnableLearning :=
           if noLearning flags then false else Config.EnableLearning cfg;
         Config.SimilarityThreshold := Config.SimilarityThreshold cfg;
         Config.ConfidenceThreshold := Config.ConfidenceThreshold cfg;
         Config.BatchSize := Config.BatchSize cfg |} in
    if negb (Os.Stat files sourceDir) then false
    else if negb (service_available env) then false
    else if negb (existsb (String.eqb (Config.LLMModel cfg))
                    (installed_models env))
    then false
    else
      match scan env sourceDir (recursive flags) with
      | None => false
      | Some found =>
        if (List.length (filter (fun f => Scanner.IsDir f = false) found)
            =? 0)%nat
        then false
        else
          Classifier.Classify_panics
            (Classifier.NewClassifier db cfg (classify_time env)) found
      end
  end.

(** [rootCmd.Execute()]: cobra returns an error when the flags do not
    parse or when [cobra.MaximumNArgs(1)] refuses the arguments; [Run]
    itself returns nothing. *)
Definition rootCmd_Execute (env : Environment) (cfg : Config.t) (db : Database)
    (files : Os.FileSystem) (line : CommandLine)
  : option (option string * option (Database * Os.FileSystem * Outcome)) :=
  match line with
  | FlagError message => Some (Some message, None)
  | Parsed flags args =>
    if (1 <? List.length args)%nat
    then Some (Some "accepts at most 1 arg(s)", None)
    else
      match runOrganize env cfg db files flags args with
      | None => None
      | Some done => Some (None, Some done)
      end
  end.

(** [Execute]: the status the process exits with, and what the command
    did when it returned.  [os.Exit(1)] on an error of cobra, 0 when
    [main] returns; a panic that nothing recovers ends the process with
    status 2 (the Go runtime prints the panic and exits with 2).  [None]
    when the process does not end. *)
Definition Execute (env : Environment) (cfg : Config.t) (db : Database)
    (files : Os.FileSystem) (line : CommandLine)
  : option (Z * option (Database * Os.FileSystem * Outcome)) :=
  match rootCmd_Execute env cfg db files line with
  | None =>
    match line with
    | Parsed flags args =>
      if runOrganize_panics env cfg db files flags args then Some (2, None)
      else None
    | FlagError _ => None
    end
  | Some (Some err, done) => Some (1, done)
  | Some (None, done) => Some (0, done)
  end.

End WithInterfaces.
End Cmd.

(* ===================================================================== *)
(** * How the rule table grows *)
(* ===================================================================== *)

Module Growth.
Import Storage.

(** [d'] is [d] after rules were learned: the other tables, the clock and
    the counters of the other tables are those of [d]; every rule of [d]
    is still in its place with its id, key and subcategory, and with a
    hit count and a priority that are not lower; the rows behind them
    are new and their pattern, type, category and subcategory satisfy
    [P]; and the key stays unique when it was. *)
Definition rules_grow (P : string -> string -> string -> string -> Prop)
    (d d' : Database) : Prop :=
  (classification_history d' = classification_history d /\
   vectors d' = vectors d /\ user_feedback d' = user_feedback d /\
   operation_logs d' = operation_logs d /\ model_stats d' = model_stats d /\
   history_seq d' = history_seq d /\ logs_seq d' = logs_seq d /\
   now d' = now d) /\
  (forall i r, learned_rules d !! i = Some r ->
     exists r', learned_rules d' !! i = Some r' /\
       Rule.ID r' = Rule.ID r /\ Rule.Pattern r' = Rule.Pattern r /\
       Rule.PatternType r' = Rule.PatternType r /\
       Rule.Category r' = Rule.Category r /\
       Rule.Subcategory r' = Rule.Subcategory r /\
       Rule.HitCount r <= Rule.HitCount r' /\
       Rule.Priority r <= Rule.Priority r') /\
  (forall i r', (List.length (learned_rules d) <= i)%nat ->
     learned_rules d' !! i = Some r' ->
     P (Rule.Pattern r') (Rule.PatternType r') (Rule.Category r')
       (Rule.Subcategory r') /\ 1 <= Rule.HitCount r') /\
  (NoDup (map (fun r => (Rule.Pattern r, Rule.PatternType r, Rule.Category r))
              (learned_rules d)) ->
   NoDup (map (fun r => (Rule.Pattern r, Rule.PatternType r, Rule.Category r))
              (learned_rules d'))).

End Growth.

(* ===================================================================== *)
(** * The reset functions of the store *)
(* ===================================================================== *)

Module StorageReset.
Import Storage.

(** [DELETE FROM table]: the rows go; the AUTOINCREMENT counter of the
    table is kept in [sqlite_sequence]. *)
Definition delete_from (d : Database) (table : string) : Database :=
  if String.eqb table "classification_history"
  then set_history d [] (history_seq d)
  else if String.eqb table "learned_rules" then set_rules d [] (rules_seq d)
  else if String.eqb table "user_feedback" then set_feedback d []
  else if String.eqb table "vectors" then set_vectors d []
  else if String.eqb table "operation_logs" then set_logs d [] (logs_seq d)
  else if String.eqb table "model_stats" then set_model_stats d []
  else d.

(** [ResetHistory] *)
Definition ResetHistory (d : Database) : Database :=
  delete_from d "classification_history".

(** [ResetRules] *)
Definition ResetRules (d : Database) : Database :=
  delete_from d "learned_rules".

(** [ResetVectors] *)
Definition ResetVectors (d : Database) : Database :=
  delete_from d "vectors".

(** [ResetAll]: the loop over its list of tables. *)
Definition ResetAll (d : Database) : Database :=
  fold_left delete_from
    ["classification_history"; "learned_rules"; "user_feedback"; "vectors";
     "operation_logs"]
    d.

End StorageReset.

(* ===================================================================== *)
(** * The statistics of a scan and the totals of a plan *)
(* ===================================================================== *)

Module ScannerStats.

Record ExtStat := {
  Count : Z;
  Size : Z }.

Record Statistics := {
  TotalFiles : Z;
  TotalDirs : Z;
  TotalSize : Z;
  ExtStats : gmap string ExtStat }.

(** The key a file is counted under: its extension, or a fixed label
    when it has none. *)
Definition ext_key (f : Scanner.FileInfo) : string :=
  if String.eqb (Scanner.Extension f) EmptyString then "(无扩展名)"
  else Scanner.Extension f.

(** The body of the loop of [GetStatistics]. *)
Definition count_file (stats : Statistics) (f : Scanner.FileInfo)
  : Statistics :=
  if Scanner.IsDir f then
    {| TotalFiles := TotalFiles stats; TotalDirs := TotalDirs stats + 1;
       TotalSize := TotalSize stats; ExtStats := ExtStats stats |}
  else
    let ext := ext_key f in
    let es := default {| Count := 0; Size := 0 |} (ExtStats stats !! ext) in
    {| TotalFiles := TotalFiles stats + 1; TotalDirs := TotalDirs stats;
       TotalSize := TotalSize stats + Scanner.Size f;
       ExtStats :=
         <[ext := {| Count := Count es + 1;
                     Size := Size es + Scanner.Size f |}]> (ExtStats stats) |}.

(** [GetStatistics] *)
Definition GetStatistics (files : list Scanner.FileInfo) : Statistics :=
  fold_left count_file files
    {| TotalFiles := 0; TotalDirs := 0; TotalSize := 0; ExtStats := ∅ |}.

End ScannerStats.

Module PlanTotals.
Import Organizer.
Section WithRuntime.
Context {RT : Runtime}.

(** [TotalFiles]: the loop over the folders of the plan. *)
Definition TotalFiles (p : Plan) : Z :=
  fold_left
    (fun total '(_, files) => total + Z.of_nat (List.length files))
    (map_range (map_to_list (Actions p))) 0.


End WithRuntime.
End PlanTotals.

(* ===================================================================== *)
(** * Directories removed from a file system *)
(* ===================================================================== *)

Module Pruning.

(** The file system [fs'] is [fs] with some empty directories removed:
    the files are the same, no directory is new, and no path that is
    left has lost the directory it lies in. *)
Definition pruned (fs fs' : Os.FileSystem) : Prop :=
  Os.files fs' = Os.files fs /\
  Os.dirs fs' ⊆ Os.dirs fs /\
  forall p, p ∈ Os.files fs' ∪ Os.dirs fs' ->
    Filepath.Dir p <> p -> Filepath.Dir p ∈ Os.dirs fs ->
    Filepath.Dir p ∈ Os.dirs fs'.

End Pruning.

(* ===================================================================== *)
(** * How far a run gets *)
(* ===================================================================== *)

Module RunNotions.
Import Storage Cmd.



End RunNotions.

(* ===================================================================== *)
(** * Notions the statements and proofs use *)
(* ===================================================================== *)

Module Notions.
Import Storage Classifier.


(** The loop that fills the map [order] of [Classify], with the index
    written through [h]. *)
Definition order_from (h : nat -> nat) (files : list Scanner.FileInfo)
    (m : gmap string Z) : gmap string Z :=
  fold_left
    (fun order '(i, f) => <[Scanner.Path f := Z.of_nat i]> order)
    (imap (fun i f => (h i, f)) files) m.

(** The position [Classify] sorts a file by. *)
Definition position (files : list Scanner.FileInfo) (f : Scanner.FileInfo) : Z :=
  default 0 (path_order files !! Scanner.Path f).

(** The result [Classify] builds from a match of the memory. *)
Definition from_memory (f : Scanner.FileInfo) (m : Memory.Match) : Result :=
  {| FileInfo := f;
     Category := Memory.Category m;
     Subcategory := Memory.Subcategory m;
     Confidence := Memory.Confidence m;
     Reasoning := Memory.Reasoning m;
     Source := "memory";
     Keywords := [] |}.

(** The three sums of [Similarity], over the pairs of components. *)
Fixpoint dot_product (l : list (R * R)) : R :=
  match l with
  | [] => 0%R
  | (x, y) :: l' => (x * y + dot_product l')%R
  end.

Fixpoint norm2_l (l : list (R * R)) : R :=
  match l with
  | [] => 0%R
  | (x, _) :: l' => (x * x + norm2_l l')%R
  end.

Fixpoint norm2_r (l : list (R * R)) : R :=
  match l with
  | [] => 0%R
  | (_, y) :: l' => (y * y + norm2_r l')%R
  end.

End Notions.

(* ===================================================================== *)
(** * Stores, files and command lines used as examples *)
(* ===================================================================== *)

Module Demo.
Import Storage.

Definition file (dir name ext : string) : Scanner.FileInfo :=
  {| Scanner.Path := dir +:+ "/" +:+ name; Scanner.Name := name;
     Scanner.Extension := ext; Scanner.Size := 2048;
     Scanner.ModifiedTime := 0; Scanner.IsDir := false |}.

Definition zxqfoo : Scanner.FileInfo := file "/home/u/in" "zxqfoo.bin" ".bin".
Definition a_pdf : Scanner.FileInfo := file "/home/u/in" "a.pdf" ".pdf".

Definition folder : Scanner.FileInfo :=
  {| Scanner.Path := "/home/u/in/old"; Scanner.Name := "old";
     Scanner.Extension := EmptyString; Scanner.Size := 0;
     Scanner.ModifiedTime := 0; Scanner.IsDir := true |}.

(** A store in which forty confirmations taught the rule
    [.pdf -> Documents/Finance]. *)
Definition pdf_rules : Database :=
  Nat.iter 40
    (fun d =>
       @AddOrUpdateRule BasicUnicode d ".pdf" "extension" "Documents"
         "Finance" 5)
    (empty 0).

Definition fresh : Classifier.t :=
  Classifier.NewClassifier (empty 0) Config.defaultConfig "20240115_143022".

Definition taught : Classifier.t :=
  Classifier.NewClassifier pdf_rules Config.defaultConfig "20240115_143022".

End Demo.

Module UndoScenario.
Import Storage.

(** The log of the move [~/in/a.pdf -> ~/out/Documents/a.pdf] of batch
    [B1]. *)
Definition moved : Database :=
  AddOperationLog (empty 0) "B1" "/home/u/in/a.pdf"
    "/home/u/out/Documents/a.pdf" "a.pdf" "Documents" EmptyString "success".

(** The file is where the move left it. *)
Definition in_place : Os.FileSystem :=
  {| Os.files := {["/home/u/out/Documents/a.pdf"]};
     Os.dirs := {["/home/u/out/Documents"; "/home/u/out"; "/home/u/in";
                  "/home/u"; "/home"; "/"]} |}.


End UndoScenario.

Module CmdScenario.
Import Storage Cmd.


Definition home : Os.FileSystem :=
  {| Os.files := {["/home/u/in/zxqfoo.bin"]};
     Os.dirs := {["/home/u/in"; "/home/u"; "/home"; "/"]} |}.

Definition flags : Flags :=
  {| targetDir := EmptyString; model := EmptyString; dryRun := false;
     interactive := false; noLearning := false; recursive := false |}.

(** The service runs, the model is installed, the directory holds one
    file, and the user answers [y]. *)
Definition ready : Environment :=
  {| service_available := true;
     installed_models := ["qwen3:8b"];
     scan := fun _ _ => Some [Demo.zxqfoo];
     stdin := ["y"];
     classify_time := "20240115_143022";
     execute_time := "20240115_143030";
     elapsed := 900 |}.



End CmdScenario.

(* ===================================================================== *)
(** * Results, plans and stores used as examples *)
(* ===================================================================== *)

Module PlanScenario.
Import Storage.

(** [a.pdf], decided by the memory with confidence 0.9. *)
Definition sure : Classifier.Result :=
  {| Classifier.FileInfo := Demo.a_pdf;
     Classifier.Category := "Documents"; Classifier.Subcategory := "Finance";
     Classifier.Confidence := (9 # 10)%Q;
     Classifier.Reasoning := "rule"; Classifier.Source := "memory";
     Classifier.Keywords := [] |}.

(** [zxqfoo.bin], decided by the model with confidence 0.5. *)
Definition unsure : Classifier.Result :=
  {| Classifier.FileInfo := Demo.zxqfoo;
     Classifier.Category := "Data"; Classifier.Subcategory := "其他";
     Classifier.Confidence := (5 # 10)%Q;
     Classifier.Reasoning := "binary data"; Classifier.Source := "llm";
     Classifier.Keywords := [] |}.

Definition target : string := "/home/u/out".

(** The directory [/home/u/in] with the two files. *)
Definition inbox : Os.FileSystem :=
  {| Os.files := {["/home/u/in/a.pdf"; "/home/u/in/zxqfoo.bin"]};
     Os.dirs := {["/home/u/in"; "/home/u"; "/home"; "/"]} |}.

(** A store whose only history row is not confirmed. *)
Definition unconfirmed : Database :=
  (AddClassification (empty 0) "zxqfoo.bin" ".bin" "Data" "Binary" "llm"
     (9 # 10)%Q [] false).1.

End PlanScenario.

(* ===================================================================== *)
(** * The two sorts *)
(* ===================================================================== *)

Module SortFacts.



Section Stable.
Context {A : Type} (before : A -> A -> bool).

Lemma insert_perm x l : Permutation (StableSort.insert before x l) (x :: l).
Proof.
  induction l as [|y l IH]; simpl; [done|].
  destruct (before y x); [|done].
  rewrite IH. apply perm_swap.
Qed.

Lemma sort_perm l : Permutation (StableSort.sort before l) l.
Proof.
  induction l as [|x l IH]; simpl; [done|].
  unfold StableSort.sort in *. simpl. rewrite insert_perm. by constructor.
Qed.

End Stable.

Section Exchange.
Context {A : Type} (gt : A -> A -> bool).
Hypothesis gt_total : forall a b, gt a b = false \/ gt b a = false.
Hypothesis ge_trans : forall a b c, gt b a = false -> gt c b = false -> gt c a = false.





End Exchange.
End SortFacts.

(* ===================================================================== *)
(** * Model statistics: [GetModelSummaries] and [GetBestModel] *)
(* ===================================================================== *)

Module ModelFacts.
Import Storage Notions.

Lemma Qltb_false x y : Qltb x y = false <-> (y <= x)%Q.
Proof.
  unfold Qltb. rewrite negb_false_iff. apply Qle_bool_iff.
Qed.

Lemma Qltb_true x y : Qltb x y = true <-> (x < y)%Q.
Proof.
  unfold Qltb. rewrite negb_true_iff. split.
  - intros H. apply Qnot_le_lt. intros Hle. apply Qle_bool_iff in Hle. congruence.
  - intros H. destruct (Qle_bool y x) eqn:E; [|done].
    apply Qle_bool_iff in E. exfalso. eapply Qlt_not_le; eauto.
Qed.



Section Summaries.
Context {U : Unicode} {RT : Runtime}.






End Summaries.
End ModelFacts.

(* ===================================================================== *)
(** * Model accuracy and learned rules *)
(* ===================================================================== *)

Module AccuracyFacts.
Import Storage.

(** What [UpdateModelAccuracy] stores: the counters grow by the
    arguments, the rate is that of the arguments alone. *)
Lemma UpdateModelAccuracy_rows (d : Database) (batchID : string)
    (confirmed corrected : Z) :
  model_stats (UpdateModelAccuracy d batchID confirmed corrected) =
  map (fun s =>
         if String.eqb (ModelStats.BatchID s) batchID
         then update_accuracy confirmed corrected
                (if 0 <? confirmed + corrected
                 then (inject_Z confirmed / inject_Z (confirmed + corrected))%Q
                 else (0 # 1)%Q) s
         else s)
      (model_stats d).
Proof. reflexivity. Qed.

(** C1 (invariant I-5), on a [model_stats] row that is confirmed once
    and then corrected once: [UpdateModelAccuracy] adds its two arguments
    to the counters of the row but stores the rate of the arguments
    alone.  After the calls with [(1, 0)] and [(0, 1)] the row has
    [ConfirmedCount = 1], [CorrectedCount = 1] and [AccuracyRate = 0],
    which is not [1 / (1 + 1)]. *)
Theorem update_model_accuracy_forgets_earlier_feedback :
  let d0 := AddModelStats (empty 0) "qwen3:8b" "20240115_143022" 2 900 (8 # 10) in
  let d1 := UpdateModelAccuracy d0 "20240115_143022" 1 0 in
  let d2 := UpdateModelAccuracy d1 "20240115_143022" 0 1 in
  exists row,
    model_stats d2 = [row] /\
    ModelStats.ConfirmedCount row = 1 /\
    ModelStats.CorrectedCount row = 1 /\
    (ModelStats.AccuracyRate row == 0)%Q /\
    ~ (ModelStats.AccuracyRate row ==
       inject_Z (ModelStats.ConfirmedCount row)
       / inject_Z (ModelStats.ConfirmedCount row + ModelStats.CorrectedCount row))%Q.
Proof.
  eexists. split; [reflexivity|]. simpl.
  repeat split; try reflexivity. intros H. discriminate H.
Qed.

End AccuracyFacts.

Module RuleFacts.
Import Storage GoStrings.

Section Upsert.
Context {U : Unicode}.

Lemma filter_none {A} (P : A -> Prop) `{forall x, Decision (P x)} (l : list A) :
  (forall x, x ∈ l -> ~ P x) -> filter P l = [].
Proof.
  induction l as [|x l IH]; intros Hn; [done|].
  rewrite filter_cons. destruct (decide (P x)) as [Hp|].
  - exfalso. eapply Hn; [by left | done].
  - apply IH. intros y Hy. apply Hn. by right.
Qed.

Lemma map_id_on {A} (f : A -> A) (l : list A) :
  (forall x, x ∈ l -> f x = x) -> map f l = l.
Proof.
  induction l as [|x l IH]; intros Hf; simpl; [done|].
  rewrite Hf by (by left). f_equal. apply IH. intros y Hy. apply Hf. by right.
Qed.

(** C7.  [AddOrUpdateRule] upserts on the key (lower-cased pattern,
    pattern type, category).  When a row has the key, every such row gets
    [HitCount + 1] and the larger of its priority and the new one, and no
    row is added; when no row has it, one row with [HitCount = 1] is
    appended.  Two calls in a row with the same key on a store without it
    leave exactly one more row, with [HitCount = 2] and the larger of the
    two priorities. *)
Theorem add_or_update_rule_upserts (d : Database)
    (pattern patternType category subcategory : string) (priority : Z) :
  let key := rule_key (ToLower pattern) patternType category in
  let inserted hits prio :=
    {| Rule.ID := rules_seq d + 1; Rule.Pattern := ToLower pattern;
       Rule.PatternType := patternType; Rule.Category := category;
       Rule.Subcategory := subcategory; Rule.Priority := prio;
       Rule.HitCount := hits; Rule.UpdatedAt := now d |} in
  (* hit *)
  ((exists r, r ∈ learned_rules d /\ key r = true) ->
   learned_rules
     (AddOrUpdateRule d pattern patternType category subcategory priority)
   = map (fun r =>
            if key r
            then {| Rule.ID := Rule.ID r; Rule.Pattern := Rule.Pattern r;
                    Rule.PatternType := Rule.PatternType r;
                    Rule.Category := Rule.Category r;
                    Rule.Subcategory := Rule.Subcategory r;
                    Rule.Priority := Z.max (Rule.Priority r) priority;
                    Rule.HitCount := Rule.HitCount r + 1;
                    Rule.UpdatedAt := now d |}
            else r)
         (learned_rules d)) /\
  (* miss *)
  ((forall r, r ∈ learned_rules d -> key r = false) ->
   learned_rules
     (AddOrUpdateRule d pattern patternType category subcategory priority)
   = learned_rules d ++ [inserted 1 priority]) /\
  (* twice on a store without the key *)
  (forall priority2,
     (forall r, r ∈ learned_rules d -> key r = false) ->
     learned_rules
       (AddOrUpdateRule
          (AddOrUpdateRule d pattern patternType category subcategory priority)
          pattern patternType category subcategory priority2)
     = learned_rules d ++ [inserted 2 (Z.max priority priority2)]).
Proof.
  intros key inserted.
  assert (Hkey_new : forall hits prio, key (inserted hits prio) = true).
  { intros. unfold key, rule_key, inserted. simpl. by rewrite !String.eqb_refl. }
  assert (Hmiss :
    (forall r, r ∈ learned_rules d -> key r = false) ->
    learned_rules
      (AddOrUpdateRule d pattern patternType category subcategory priority)
    = learned_rules d ++ [inserted 1 priority]).
  { intros Hno. unfold AddOrUpdateRule. fold key.
    rewrite filter_none.
    2:{ intros r Hr. rewrite Hno by done. discriminate. }
    simpl. f_equal. apply map_id_on. intros r Hr. by rewrite Hno. }
  split; [|split].
  - intros (r & Hr & Hk). unfold AddOrUpdateRule. fold key.
    destruct (filter (fun r => key r = true) (learned_rules d)) as [|r0 l0] eqn:Hf.
    + exfalso. assert (r ∈ filter (fun r => key r = true) (learned_rules d))
        by (by apply list_elem_of_filter).
      rewrite Hf in H. by apply not_elem_of_nil in H.
    + reflexivity.
  - exact Hmiss.
  - intros priority2 Hno. unfold AddOrUpdateRule at 1. fold key.
    rewrite (Hmiss Hno).
    rewrite filter_app. rewrite filter_none.
    2:{ intros r Hr. rewrite Hno by done. discriminate. }
    rewrite filter_cons. destruct (decide _) as [_|Hn]; [|by rewrite Hkey_new in Hn].
    simpl. rewrite map_app. simpl. rewrite Hkey_new.
    rewrite map_id_on by (intros r Hr; by rewrite Hno).
    assert (Hnow : now (AddOrUpdateRule d pattern patternType category
                          subcategory priority) = now d).
    { unfold AddOrUpdateRule. by destruct (_ =? _)%nat. }
    unfold bump_rule, inserted. simpl. by rewrite Hnow.
Qed.

End Upsert.
End RuleFacts.

(* ===================================================================== *)
(** * [Classify]: the order of the results *)
(* ===================================================================== *)

Module OrderFacts.

Section ByKey.
Context {A : Type} (key : A -> Z).

Let before (a b : A) : bool := key a <? key b.

Lemma insert_sorted_by_key x l :
  StronglySorted (fun a b => key a <= key b) l ->
  StronglySorted (fun a b => key a <= key b) (StableSort.insert before x l).
Proof.
  induction 1 as [|y l Hl IH Hall]; simpl.
  - repeat constructor.
  - unfold before at 1. destruct (key y <? key x) eqn:E.
    + apply Z.ltb_lt in E. constructor; [done|].
      rewrite Forall_forall in *. intros z Hz.
      rewrite (SortFacts.insert_perm before x l) in Hz.
      apply elem_of_cons in Hz as [->|Hz]; [lia|]. by apply Hall.
    + apply Z.ltb_ge in E. constructor; [by constructor|].
      constructor; [done|].
      rewrite Forall_forall in *. intros z Hz. specialize (Hall z Hz). lia.
Qed.

Lemma sort_sorted_by_key l :
  StronglySorted (fun a b => key a <= key b) (StableSort.sort before l).
Proof.
  induction l as [|x l IH]; simpl; [constructor|].
  by apply insert_sorted_by_key.
Qed.

End ByKey.

Lemma StronglySorted_lookup {A} (R : A -> A -> Prop) (l : list A) :
  (forall i j a b, l !! i = Some a -> l !! j = Some b -> (i < j)%nat -> R a b) ->
  StronglySorted R l.
Proof.
  induction l as [|x l IH]; intros H; constructor.
  - apply IH. intros i j a b Hi Hj Hij. apply (H (S i) (S j)); [done|done|lia].
  - rewrite Forall_forall. intros y Hy.
    apply list_elem_of_lookup in Hy as [j Hj].
    apply (H 0%nat (S j)); [done|done|lia].
Qed.

Import Classifier Notions.

(** ** The map [order] of [Classify] *)

Lemma order_from_cons h x l m :
  order_from h (x :: l) m
  = order_from (h ∘ S) l (<[Scanner.Path x := Z.of_nat (h 0%nat)]> m).
Proof. reflexivity. Qed.

Lemma order_from_other files : forall h m p,
  p ∉ map Scanner.Path files -> order_from h files m !! p = m !! p.
Proof.
  induction files as [|x l IH]; intros h m p Hp; [done|].
  rewrite order_from_cons, IH.
  - apply lookup_insert_ne. intros <-. apply Hp. by left.
  - intros H. apply Hp. by right.
Qed.

Lemma order_from_lookup files : forall h m i f,
  NoDup (map Scanner.Path files) -> files !! i = Some f ->
  order_from h files m !! Scanner.Path f = Some (Z.of_nat (h i)).
Proof.
  induction files as [|x l IH]; intros h m i f Hnd Hi; [done|].
  apply NoDup_cons in Hnd as [Hx Hnd].
  rewrite order_from_cons. destruct i as [|i]; simpl in Hi.
  - injection Hi as ->.
    rewrite order_from_other by done. apply lookup_insert_eq.
  - by apply (IH (h ∘ S)).
Qed.

Lemma path_order_lookup files i f :
  NoDup (map Scanner.Path files) -> files !! i = Some f ->
  path_order files !! Scanner.Path f = Some (Z.of_nat i).
Proof. intros. by apply (order_from_lookup files (fun i => i)). Qed.

Lemma files_sorted_by_position files :
  NoDup (map Scanner.Path files) ->
  StronglySorted (fun a b => position files a <= position files b) files.
Proof.
  intros Hnd. apply StronglySorted_lookup. intros i j a b Hi Hj Hij.
  unfold position. rewrite (path_order_lookup files i a), (path_order_lookup files j b) by done.
  simpl. lia.
Qed.

Lemma position_inj files a b :
  NoDup (map Scanner.Path files) -> a ∈ files -> b ∈ files ->
  position files a = position files b -> a = b.
Proof.
  intros Hnd [i Hi]%list_elem_of_lookup [j Hj]%list_elem_of_lookup.
  unfold position. rewrite (path_order_lookup files i a), (path_order_lookup files j b) by done.
  simpl. intros Heq. assert (i = j) as -> by lia. congruence.
Qed.

(** ** The two phases *)

Section Phases.
Context {U : Unicode} {RT : Runtime} {E : Embedder} {L : Llm.Client}.

Lemma memory_phase_partition c files memoryResults llmNeeded :
  memory_phase c files = (memoryResults, llmNeeded) ->
  Permutation (map FileInfo memoryResults ++ llmNeeded)
    (filter (fun f => Scanner.IsDir f = false) files).
Proof.
  revert memoryResults llmNeeded.
  induction files as [|f files IH]; intros mem need; simpl.
  - by intros [= <- <-].
  - destruct (memory_phase c files) as [mem' need'].
    specialize (IH _ _ eq_refl). rewrite filter_cons.
    destruct (Scanner.IsDir f) eqn:Hd.
    + intros [= <- <-]. by destruct (decide _).
    + destruct (decide _) as [_|]; [|done].
      destruct (Memory.Query _ _ _) as [m|].
      * destruct (Qle_bool _ _); intros [= <- <-]; simpl.
        -- by constructor.
        -- rewrite <- IH. symmetry. apply Permutation_middle.
      * intros [= <- <-]. rewrite <- IH. symmetry. apply Permutation_middle.
Qed.

Lemma parsed_results_sublist batch : forall classifications,
  map FileInfo (parsed_results batch classifications) `sublist_of` batch.
Proof.
  induction batch as [|f batch IH]; intros [|cls classifications]; simpl;
    try apply sublist_nil_l.
  destruct cls; simpl; try (apply sublist_cons, IH).
  apply sublist_skip, IH.
Qed.

Lemma error_results_files batch err :
  map FileInfo (error_results batch err) = batch.
Proof. unfold error_results. rewrite map_map. simpl. apply map_id. Qed.

Lemma batch_results_sublist call batch rules :
  map FileInfo (batch_results call batch rules) `sublist_of` batch.
Proof.
  unfold batch_results. destruct (Llm.ClassifyFiles _ _ _) as [err|resp].
  - by rewrite error_results_files.
  - destruct (Json.lookup _ _) as [[| | | |cls|]|]; simpl;
      try apply sublist_nil_l.
    apply parsed_results_sublist.
Qed.

Lemma batch_loop_sublist fuel batchSize files rules :
  forall call i results out,
  0 <= i ->
  batch_loop fuel batchSize files rules call i results = Some out ->
  exists more,
    out = results ++ more /\
    map FileInfo more `sublist_of` drop (Z.to_nat i) files /\
    ((forall call batch rules,
        List.length (batch_results call batch rules) = List.length batch) ->
     List.length more = List.length (drop (Z.to_nat i) files)).
Proof.
  induction fuel as [|fuel IH]; intros call i results out Hi; simpl.
  - destruct (_ <=? i) eqn:Hend; [|done]. apply Z.leb_le in Hend.
    intros [= <-]. exists [].
    split; [by rewrite app_nil_r |]. split; [apply sublist_nil_l|].
    intros _. rewrite length_drop. simpl. lia.
  - destruct (_ <=? i) eqn:Hend.
    { apply Z.leb_le in Hend. intros [= <-]. exists [].
      split; [by rewrite app_nil_r |]. split; [apply sublist_nil_l|].
      intros _. rewrite length_drop. simpl. lia. }
    apply Z.leb_gt in Hend.
    set (end_ := if Z.of_nat (List.length files) <? i + batchSize
                 then Z.of_nat (List.length files) else i + batchSize).
    destruct (end_ <? i) eqn:Hneg; [done|]. apply Z.ltb_ge in Hneg.
    intros Hloop. apply IH in Hloop as (more & -> & Hsub & Hlen).
    2:{ subst end_. destruct (_ <? i + batchSize) eqn:Hc; [apply Z.ltb_lt in Hc|]; lia. }
    eexists. split; [by rewrite <- app_assoc|].
    set (k := Z.to_nat (end_ - i)).
    split.
    + rewrite map_app.
      assert (Hsplit : forall (D X Y : list Scanner.FileInfo),
                X `sublist_of` take k D -> Y `sublist_of` drop k D ->
                X ++ Y `sublist_of` D).
      { intros D X Y HX HY. rewrite <- (take_drop k D). by apply sublist_app. }
      apply Hsplit; [apply batch_results_sublist|].
      rewrite drop_drop.
      subst end_ k. destruct (_ <? i + batchSize) eqn:Hcmp.
      * apply Z.ltb_lt in Hcmp.
        rewrite (drop_ge files (Z.to_nat (i + batchSize))) in Hsub by lia.
        apply sublist_nil_r in Hsub. rewrite Hsub. apply sublist_nil_l.
      * replace (Z.to_nat i + Z.to_nat (i + batchSize - i))%nat
          with (Z.to_nat (i + batchSize)) by lia.
        exact Hsub.
    + intros Hfull. rewrite length_app, Hfull, (Hlen Hfull).
      rewrite length_take, !length_drop.
      subst end_ k. destruct (_ <? i + batchSize) eqn:Hcmp.
      * apply Z.ltb_lt in Hcmp. lia.
      * apply Z.ltb_ge in Hcmp. lia.
Qed.

Lemma batch_loop_total fuel batchSize files rules :
  forall call i results,
  0 < batchSize -> 0 <= i ->
  (List.length files - Z.to_nat i < fuel)%nat ->
  is_Some (batch_loop fuel batchSize files rules call i results).
Proof.
  induction fuel as [|fuel IH]; intros call i results Hb Hi Hfuel; [lia|].
  simpl. destruct (_ <=? i) eqn:Hend; [done|]. apply Z.leb_gt in Hend.
  destruct (_ <? i) eqn:Hneg.
  { apply Z.ltb_lt in Hneg. destruct (_ <? i + batchSize) in Hneg; lia. }
  apply IH; lia.
Qed.

Lemma StronglySorted_sublist {A} (R : A -> A -> Prop) (l1 l2 : list A) :
  StronglySorted R l2 -> l1 `sublist_of` l2 -> StronglySorted R l1.
Proof.
  intros Hs Hsub. revert Hs.
  induction Hsub as [|x l1 l2 Hs IH|x l1 l2 Hs IH]; intros Hfs.
  - constructor.
  - inversion Hfs as [|? ? Hl2 Hall]; subst. constructor; [by apply IH|].
    rewrite Forall_forall in *. intros y Hy. apply Hall.
    eapply elem_of_sublist; eauto.
  - inversion Hfs; subst. by apply IH.
Qed.

Lemma sublist_same_length {A} (l1 l2 : list A) :
  l1 `sublist_of` l2 -> List.length l1 = List.length l2 -> l1 = l2.
Proof.
  induction 1 as [|x l1 l2 Hs IH|x l1 l2 Hs IH]; simpl; intros Hlen; [done| |].
  - f_equal. apply IH. lia.
  - apply sublist_length in Hs. lia.
Qed.

Lemma filter_sublist_impl {A} (P Q : A -> Prop) `{forall x, Decision (P x)}
    `{forall x, Decision (Q x)} (l : list A) :
  (forall x, x ∈ l -> P x -> Q x) -> filter P l `sublist_of` filter Q l.
Proof.
  induction l as [|x l IH]; intros HPQ; [done|].
  rewrite !filter_cons.
  assert (filter P l `sublist_of` filter Q l) as IH'
    by (apply IH; intros y Hy; apply HPQ; by right).
  destruct (decide (P x)) as [Hp|]; destruct (decide (Q x)) as [|Hq].
  - by apply sublist_skip.
  - exfalso. apply Hq, HPQ; [by left | done].
  - by apply sublist_cons.
  - done.
Qed.

(** What [Classify] returns: the results of the two phases, sorted by
    the position of their file. *)
Lemma Classify_results c files elapsed c' results :
  Classify c files elapsed = Some (c', results) ->
  exists memoryResults llmNeeded llmResults,
    memory_phase c files = (memoryResults, llmNeeded) /\
    map FileInfo llmResults `sublist_of` llmNeeded /\
    ((forall call batch rules,
        List.length (batch_results call batch rules) = List.length batch) ->
     map FileInfo llmResults = llmNeeded) /\
    results =
      StableSort.sort
        (fun a b => rank (path_order files) a <? rank (path_order files) b)
        (memoryResults ++ llmResults).
Proof.
  unfold Classify. destruct (memory_phase c files) as [mem need] eqn:Hphase.
  destruct need as [|f need].
  - intros [= <- <-]. exists mem, [], []. done.
  - unfold classifyWithLLM.
    destruct (batch_loop _ _ _ _ _ _ _) as [llm|] eqn:Hloop; [|done].
    intros [= <- <-]. exists mem, (f :: need), llm.
    apply batch_loop_sublist in Hloop as (more & Heq & Hsub & Hlen); [|done].
    simpl in Heq. subst more. split; [done|]. split; [exact Hsub|].
    split; [|done]. intros Hfull. apply sublist_same_length; [exact Hsub|].
    rewrite length_map. by apply Hlen.
Qed.

(** C9.  For input files with pairwise distinct paths, [Classify]
    returns when the batch size is positive, and the files of its results
    are the input files that got a result, in the order of the input; no
    directory is among them.  When every batch gets as many results as it
    has files, they are exactly the input files that are not
    directories. *)
Theorem classify_keeps_input_order (c : Classifier.t)
    (files : list Scanner.FileInfo) (elapsed : Z)
    (Hpaths : NoDup (map Scanner.Path files)) :
  (0 < Config.BatchSize (cfg c) -> is_Some (Classify c files elapsed)) /\
  forall c' results,
    Classify c files elapsed = Some (c', results) ->
    map FileInfo results
      = filter (fun f => f ∈ map FileInfo results) files /\
    map FileInfo results
      `sublist_of` filter (fun f => Scanner.IsDir f = false) files /\
    ((forall call batch rules,
        List.length (batch_results call batch rules) = List.length batch) ->
     map FileInfo results = filter (fun f => Scanner.IsDir f = false) files).
Proof.
  split.
  { intros Hb. unfold Classify.
    destruct (memory_phase c files) as [mem need].
    destruct need as [|f need]; [done|].
    unfold classifyWithLLM.
    destruct (batch_loop_total (S (List.length (f :: need)))
                (Config.BatchSize (cfg c)) (f :: need)
                (Memory.GetLearnedRules (db c) 30) 0%nat 0 []) as [llm Hllm];
      [done | done | simpl; lia |].
    by rewrite Hllm. }
  intros c' results Hc.
  apply Classify_results in Hc as (mem & need & llm & Hphase & Hsub & Hfull & ->).
  apply memory_phase_partition in Hphase.
  assert (Hfiles : NoDup files) by (by apply NoDup_fmap_1 in Hpaths).
  set (sorted := StableSort.sort _ (mem ++ llm)).
  assert (Hperm : Permutation (map FileInfo sorted) (map FileInfo mem ++ map FileInfo llm)).
  { subst sorted. rewrite SortFacts.sort_perm. by rewrite map_app. }
  assert (Hsubl : (map FileInfo mem ++ map FileInfo llm)
                    `sublist_of` (map FileInfo mem ++ need))
    by (by apply sublist_app).
  assert (Hnd : NoDup (map FileInfo sorted)).
  { rewrite Hperm. eapply sublist_NoDup; [|exact Hsubl].
    rewrite Hphase. by apply NoDup_filter. }
  assert (Hin : forall f, f ∈ map FileInfo sorted ->
                  f ∈ files /\ Scanner.IsDir f = false).
  { intros f Hf. rewrite Hperm in Hf.
    eapply elem_of_sublist in Hf; [|exact Hsubl].
    rewrite Hphase in Hf. apply list_elem_of_filter in Hf as [? ?]. done. }
  assert (Hsorted : StronglySorted
            (fun a b => position files a <= position files b)
            (map FileInfo sorted)).
  { apply (StronglySorted_fmap FileInfo
             (fun a b => rank (path_order files) a <= rank (path_order files) b)).
    - done.
    - apply sort_sorted_by_key. }
  assert (Hunique : forall target,
            target `sublist_of` files ->
            Permutation (map FileInfo sorted) target ->
            map FileInfo sorted = target).
  { intros target Ht Hpt.
    apply (StronglySorted_unique_strong
             (fun a b => position files a <= position files b));
      [ | done | | done].
    - intros x1 x2 Hx1 Hx2 H12 H21.
      apply (position_inj files); [done | by apply Hin | | lia].
      eapply elem_of_sublist; eauto.
    - eapply StronglySorted_sublist; [|exact Ht].
      by apply files_sorted_by_position. }
  assert (Heq : map FileInfo sorted
                = filter (fun f => f ∈ map FileInfo sorted) files).
  { apply Hunique; [apply sublist_filter|].
    apply NoDup_Permutation; [done | by apply NoDup_filter |].
    intros f. rewrite list_elem_of_filter. split; [|by intros [? _]].
    intros Hf. split; [done | by apply Hin]. }
  split; [exact Heq | split].
  - rewrite Heq. apply filter_sublist_impl. intros f _ Hf. by apply Hin.
  - intros Hcover. apply Hunique; [apply sublist_filter|].
    rewrite Hperm, (Hfull Hcover). exact Hphase.
Qed.

End Phases.
End OrderFacts.

(* ===================================================================== *)
(** * [Memory.Query]: the three tiers *)
(* ===================================================================== *)

Module MemoryFacts.
Import Storage Memory Notions ModelFacts.

Section Tiers.
Context {U : Unicode} {RT : Runtime} {E : Embedder}.

Lemma accepted_Some cfg o m :
  accepted cfg o = Some m ->
  o = Some m /\ (Config.SimilarityThreshold cfg <= Confidence m)%Q.
Proof.
  unfold accepted, reaches. destruct o as [m'|]; [|done].
  destruct (Qle_bool _ _) eqn:Hle; [|done]. intros [= ->].
  split; [done | by apply Qle_bool_iff].
Qed.

(** The match [Query] returns comes from exactly one tier, the first
    whose match reaches the threshold. *)
Lemma Query_tier cfg db filename m :
  Query cfg db filename = Some m ->
  (Config.SimilarityThreshold cfg <= Confidence m)%Q /\
  (matchRules cfg db filename = Some m \/
   (accepted cfg (matchRules cfg db filename) = None /\
    matchVectors cfg db filename = Some m) \/
   (accepted cfg (matchRules cfg db filename) = None /\
    accepted cfg (matchVectors cfg db filename) = None /\
    matchHistory cfg db filename = Some m)).
Proof.
  unfold Query.
  destruct (accepted cfg (matchRules cfg db filename)) as [m1|] eqn:H1.
  { intros [= ->]. apply accepted_Some in H1 as [? ?]. auto. }
  destruct (accepted cfg (matchVectors cfg db filename)) as [m2|] eqn:H2.
  { intros [= ->]. apply accepted_Some in H2 as [? ?]. auto. }
  intros H3. apply accepted_Some in H3 as [? ?]. auto 6.
Qed.

Lemma matchRules_Some cfg db filename m :
  matchRules cfg db filename = Some m ->
  Source m = "rule" /\ (Confidence m <= 95 # 100)%Q /\
  exists best rest,
    GetMatchingRules db filename (extractKeywords filename)
      (GoStrings.ToLower (Filepath.Ext filename)) = best :: rest /\
    Category m = Rule.Category best /\ Subcategory m = Rule.Subcategory best /\
    (0 <= Rule.HitCount best -> (6 # 10 <= Confidence m)%Q).
Proof.
  unfold matchRules.
  destruct (GetMatchingRules _ _ _ _) as [|best rest] eqn:Hr; [done|].
  intros [= <-]. simpl. split; [done|].
  set (conf := ((6 # 10) + inject_Z (Rule.HitCount best) / 50 * (35 # 100))%Q).
  split.
  - destruct (Qltb (95 # 100) conf) eqn:Hc; [apply Qle_refl|].
    by apply Qltb_false in Hc.
  - exists best, rest. repeat (split; [done|]). intros Hhit.
    assert (6 # 10 <= conf)%Q.
    { subst conf. rewrite <- (Qplus_0_r (6 # 10)) at 1.
      apply Qplus_le_r. apply Qmult_le_0_compat; [|discriminate].
      apply Qle_shift_div_l; [reflexivity|]. rewrite Qmult_0_l.
      change 0%Q with (inject_Z 0). by rewrite <- Zle_Qle. }
    destruct (Qltb (95 # 100) conf); [discriminate | done].
Qed.

Lemma matchVectors_Some cfg db filename m :
  matchVectors cfg db filename = Some m ->
  Source m = "vector" /\
  (Confidence m == 0 \/
   exists v, v ∈ vectors db /\
     Confidence m = Similarity (Embed filename) (Vector.Vector v) /\
     Category m = Vector.Category v /\ Subcategory m = Vector.Subcategory v)%Q.
Proof.
  unfold matchVectors.
  set (pool := match GetCandidateCategories _ _ _ with [] => _ | _ => _ end).
  assert (Hpool : forall v, v ∈ pool -> v ∈ vectors db).
  { intros v. subst pool.
    assert (Hall : forall limit, v ∈ SearchVectors db limit -> v ∈ vectors db).
    { intros limit. unfold SearchVectors, Sql.limit, Sql.order_by.
      destruct (limit <? 0); [|intros ?%subseteq_take; revert H];
        by rewrite SortFacts.sort_perm. }
    assert (Hcat : forall cats limit,
              v ∈ SearchVectorsByCategories db cats limit -> v ∈ vectors db).
    { intros [|cat cats] limit; [apply Hall|].
      unfold SearchVectorsByCategories, Sql.limit, Sql.order_by.
      destruct (limit <? 0); [|intros ?%subseteq_take; revert H];
        rewrite SortFacts.sort_perm; by intros [? ?]%list_elem_of_filter. }
    destruct (GetCandidateCategories _ _ _); [|apply Hcat].
    unfold SearchVectorsByExtension. simpl. apply Hall. }
  destruct pool as [|v0 pool']; [done|]. revert Hpool.
  generalize (v0 :: pool'). intros l Hl.
  match goal with
  | |- context [fold_left ?f l ?b0] =>
    assert (Hbest : (best_Similarity (fold_left f l b0) == 0)%Q \/
              exists v, v ∈ vectors db /\
                fold_left f l b0 =
                {| best_Filename := Vector.Filename v;
                   best_Category := Vector.Category v;
                   best_Subcategory := Vector.Subcategory v;
                   best_Similarity :=
                     Similarity (Embed filename) (Vector.Vector v) |});
    [ assert (Hb0 : (best_Similarity b0 == 0)%Q \/
               exists v, v ∈ vectors db /\
                 b0 =
                 {| best_Filename := Vector.Filename v;
                    best_Category := Vector.Category v;
                    best_Subcategory := Vector.Subcategory v;
                    best_Similarity :=
                      Similarity (Embed filename) (Vector.Vector v) |})
        by (left; reflexivity);
      revert Hb0; generalize b0
    | destruct (Qltb (best_Similarity (fold_left f l b0)) _); [done|] ]
  end.
  - induction l as [|v l IH]; intros b Hb; [done|]. simpl.
    apply IH; [intros ? ?; apply Hl; by right|].
    destruct (Qltb _ _); [|done]. right. exists v. split; [apply Hl; by left | done].
  - intros [= <-]. simpl. split; [done|].
    destruct Hbest as [?|(v & Hv & ->)]; [by left|]. right. exists v. done.
Qed.

Lemma size_intersection_le (w1 w2 : gset string) :
  (size (w1 ∩ w2) <= size w1)%nat /\ (size (w1 ∩ w2) <= size w2)%nat.
Proof.
  split; apply subseteq_size;
    [apply intersection_subseteq_l | apply intersection_subseteq_r].
Qed.

Lemma filenameSimilarity_bounds n1 n2 :
  (0 <= filenameSimilarity n1 n2 <= 1)%Q.
Proof.
  unfold filenameSimilarity.
  destruct (_ || _) eqn:Hz; [split; discriminate|].
  apply orb_false_iff in Hz as [H1 H2].
  apply Nat.eqb_neq in H1, H2.
  pose proof (size_intersection_le (word_set n1) (word_set n2)) as [Hi1 Hi2].
  set (i := size (word_set n1 ∩ word_set n2)) in *.
  assert (Hpos : (0 < inject_Z (Z.of_nat (size (word_set n1))
                               + Z.of_nat (size (word_set n2)) - Z.of_nat i))%Q).
  { change 0%Q with (inject_Z 0). rewrite <- Zlt_Qlt. lia. }
  split.
  - apply Qle_shift_div_l; [done|]. rewrite Qmult_0_l.
    change 0%Q with (inject_Z 0). rewrite <- Zle_Qle. lia.
  - apply Qle_shift_div_r; [done|]. rewrite Qmult_1_l.
    rewrite <- Zle_Qle. lia.
Qed.

Lemma matchHistory_Some cfg db filename m :
  matchHistory cfg db filename = Some m ->
  Source m = "history" /\ (0 <= Confidence m <= 9 # 10)%Q.
Proof.
  unfold matchHistory. destruct (extractKeywords filename) as [|kw kws]; [done|].
  destruct (GetSimilarClassifications _ _ _) as [|best rest]; [done|].
  intros [= <-]. simpl. split; [done|].
  pose proof (filenameSimilarity_bounds filename (History.Filename best)) as [H0 H1].
  split.
  - apply Qmult_le_0_compat; [done | discriminate].
  - rewrite <- (Qmult_1_l (9 # 10)) at 2. apply Qmult_le_compat_r; [done | discriminate].
Qed.

End Tiers.
End MemoryFacts.

(* ===================================================================== *)
(** * [Classify]: where a result comes from *)
(* ===================================================================== *)

Module ClassifierFacts.
Import Storage Classifier Notions ModelFacts MemoryFacts OrderFacts.

Section Origins.
Context {U : Unicode} {RT : Runtime} {E : Embedder} {L : Llm.Client}.

Lemma memory_phase_results c files memoryResults llmNeeded :
  memory_phase c files = (memoryResults, llmNeeded) ->
  forall r, r ∈ memoryResults ->
    exists m,
      Memory.Query (cfg c) (db c) (Scanner.Name (FileInfo r)) = Some m /\
      r = from_memory (FileInfo r) m.
Proof.
  revert memoryResults llmNeeded.
  induction files as [|f files IH]; intros mem need; simpl.
  - intros [= <- <-] r Hr. by apply not_elem_of_nil in Hr.
  - destruct (memory_phase c files) as [mem' need'].
    specialize (IH _ _ eq_refl).
    destruct (Scanner.IsDir f); [by intros [= <- <-]|].
    destruct (Memory.Query _ _ _) as [m|] eqn:Hq; [|by intros [= <- <-]].
    destruct (Qle_bool _ _); intros [= <- <-]; [|done].
    intros r [->|Hr]%elem_of_cons; [|by apply IH].
    exists m. done.
Qed.

Lemma parsed_results_elem batch : forall classifications r,
  r ∈ parsed_results batch classifications ->
  exists clsMap,
    Json.Object clsMap ∈ classifications /\
    Source r = "llm" /\
    Confidence r = getFloat clsMap "confidence" (1 # 2) /\
    Category r = getString clsMap "category" "未分类" /\
    Subcategory r = getString clsMap "subcategory" "其他".
Proof.
  induction batch as [|f batch IH]; intros [|cls classifications] r; simpl;
    try (intros Hr; by apply not_elem_of_nil in Hr).
  assert (Hrest : r ∈ parsed_results batch classifications ->
            exists clsMap,
              Json.Object clsMap ∈ cls :: classifications /\
              Source r = "llm" /\
              Confidence r = getFloat clsMap "confidence" (1 # 2) /\
              Category r = getString clsMap "category" "未分类" /\
              Subcategory r = getString clsMap "subcategory" "其他").
  { intros (clsMap & ? & ?)%IH. exists clsMap. split; [by right | done]. }
  destruct cls; try exact Hrest.
  intros [->|Hr]%elem_of_cons; [|by apply Hrest].
  eexists. split; [by left | done].
Qed.

(** Where a result of one batch comes from: a failed call, or one object
    of the decoded answer. *)
Lemma batch_results_elem call batch rules r :
  r ∈ batch_results call batch rules ->
  (Source r = "error" /\ Confidence r = (0 # 1)%Q /\
   Category r = "未分类" /\ Subcategory r = "其他" /\
   exists err,
     Llm.ClassifyFiles call
       (map (fun f => (Scanner.Name f, Scanner.Extension f, Scanner.Size f))
            batch) rules = Llm.Failed err) \/
  (exists resp classifications clsMap,
     Llm.ClassifyFiles call
       (map (fun f => (Scanner.Name f, Scanner.Extension f, Scanner.Size f))
            batch) rules = Llm.Decoded resp /\
     Json.lookup "classifications" resp = Some (Json.Array classifications) /\
     Json.Object clsMap ∈ classifications /\
     Source r = "llm" /\
     Confidence r = getFloat clsMap "confidence" (1 # 2) /\
     Category r = getString clsMap "category" "未分类" /\
     Subcategory r = getString clsMap "subcategory" "其他").
Proof.
  unfold batch_results.
  destruct (Llm.ClassifyFiles _ _ _) as [err|resp] eqn:Hcall.
  - unfold error_results. intros (f & -> & _)%list_elem_of_fmap. left.
    simpl. repeat (split; [done|]). by exists err.
  - destruct (Json.lookup _ _) as [[| | | |cls|]|] eqn:Hl;
      try (intros Hr; by apply not_elem_of_nil in Hr).
    intros (clsMap & ? & ?)%parsed_results_elem. right.
    exists resp, cls, clsMap. done.
Qed.

Lemma batch_loop_elem fuel batchSize files rules :
  forall call i results out,
  batch_loop fuel batchSize files rules call i results = Some out ->
  forall r, r ∈ out ->
    r ∈ results \/ exists call batch, r ∈ batch_results call batch rules.
Proof.
  induction fuel as [|fuel IH]; intros call i results out; simpl.
  - destruct (_ <=? i); [|done]. intros [= <-]. auto.
  - destruct (_ <=? i); [intros [= <-]; auto|].
    destruct (_ <? i); [done|].
    intros Hloop r Hr. destruct (IH _ _ _ _ Hloop r Hr) as [Hin|?]; [|auto].
    apply elem_of_app in Hin as [?|?]; eauto.
Qed.

(** Every result of [Classify] is the result of a match of the memory or
    a result of one batch of the model. *)
Lemma Classify_elem c files elapsed c' results r :
  Classify c files elapsed = Some (c', results) -> r ∈ results ->
  (exists m,
     Memory.Query (cfg c) (db c) (Scanner.Name (FileInfo r)) = Some m /\
     r = from_memory (FileInfo r) m) \/
  (exists call batch,
     r ∈ batch_results call batch (Memory.GetLearnedRules (db c) 30)).
Proof.
  unfold Classify. destruct (memory_phase c files) as [mem need] eqn:Hphase.
  pose proof (memory_phase_results _ _ _ _ Hphase) as Hmem.
  destruct need as [|f need].
  - intros [= <- <-]. rewrite SortFacts.sort_perm, app_nil_r. auto.
  - unfold classifyWithLLM.
    destruct (batch_loop _ _ _ _ _ _ _) as [llm|] eqn:Hloop; [|done].
    intros [= <- <-]. rewrite SortFacts.sort_perm.
    intros [?|Hr]%elem_of_app; [auto|]. right.
    destruct (batch_loop_elem _ _ _ _ _ _ _ _ Hloop r Hr) as [Hn|?]; [|done].
    by apply not_elem_of_nil in Hn.
Qed.

End Origins.
End ClassifierFacts.

(* ===================================================================== *)
(** * [Classify]: sources, confidences and what is learned *)
(* ===================================================================== *)

Module ResultFacts.
Import Storage Classifier Notions ModelFacts MemoryFacts OrderFacts ClassifierFacts.

(** C2, on one file whose batch call times out, with learning enabled
    and an empty store: the file gets the result of source [error], and
    [Classify] still writes a history row for it (category [未分类],
    subcategory [其他], source [llm], confidence 0, not confirmed) and a
    vector row with the same category. *)
Theorem failed_batch_is_written_to_memory :
  exists c' r row vec,
    @Classify BasicUnicode PlainRuntime BlindEmbedder Llm.TimeoutClient
      Demo.fresh [Demo.zxqfoo] 120000 = Some (c', [r]) /\
    Source r = "error" /\
    classification_history (db Demo.fresh) = [] /\
    vectors (db Demo.fresh) = [] /\
    classification_history (db c') = [row] /\
    History.Filename row = "zxqfoo.bin" /\
    History.Category row = "未分类" /\
    History.Subcategory row = "其他" /\
    History.Source row = "llm" /\
    History.Confidence row = (0 # 1)%Q /\
    History.UserConfirmed row = false /\
    vectors (db c') = [vec] /\
    Vector.Filename vec = "zxqfoo.bin" /\
    Vector.Category vec = "未分类".
Proof.
  do 4 eexists. split; [vm_compute; reflexivity|].
  repeat split.
Qed.

Section Bounds.
Context {U : Unicode} {RT : Runtime} {E : Embedder} {L : Llm.Client}.

(** Phase 1 of [Classify] gives a result to every file that is not a
    directory and for which [Memory.Query] returns a match. *)
Lemma memory_phase_complete c files : forall memoryResults llmNeeded,
  memory_phase c files = (memoryResults, llmNeeded) ->
  forall f m, f ∈ files -> Scanner.IsDir f = false ->
    Memory.Query (cfg c) (db c) (Scanner.Name f) = Some m ->
    from_memory f m ∈ memoryResults.
Proof.
  induction files as [|f0 files IH]; intros memoryResults llmNeeded Hphase f m Hf;
    [by apply not_elem_of_nil in Hf|].
  intros Hdir Hq. cbn [memory_phase] in Hphase.
  destruct (memory_phase c files) as [mem need] eqn:Hrest.
  specialize (IH mem need eq_refl f m).
  apply elem_of_cons in Hf as [->|Hf].
  - rewrite Hdir, Hq in Hphase.
    apply Query_tier in Hq as [Hth _]. apply Qle_bool_iff in Hth.
    rewrite Hth in Hphase. injection Hphase as <- <-. by left.
  - specialize (IH Hf Hdir Hq).
    destruct (Scanner.IsDir f0); [by injection Hphase as <- <-|].
    destruct (Memory.Query (cfg c) (db c) (Scanner.Name f0)) as [m0|].
    + destruct (Qle_bool _ _); injection Hphase as <- <-; [by right | done].
    + by injection Hphase as <- <-.
Qed.

(** C4.  A file that is not a directory and for which [Memory.Query]
    returns a match is decided by the memory: [Classify] emits for it a
    result of source [memory] that carries the category, subcategory,
    confidence and reasoning of that match.  A file for which [Query]
    returns nothing gets no result of source [memory].  Every result of
    [Classify] has source [memory], [llm] or [error], never the name of
    a tier; a result of source [memory] carries the fields of the match
    that [Query] returns for the name of its file, that match reaches
    the similarity threshold, and its own [Source] names the deciding
    tier: [rule] when [matchRules] returned it, [vector] when no rule
    match was accepted and [matchVectors] returned it, [history] when
    neither was accepted and [matchHistory] returned it. *)
Theorem memory_results_are_labelled_memory (c : Classifier.t)
    (files : list Scanner.FileInfo) (elapsed : Z) (c' : Classifier.t)
    (results : list Result)
    (Hc : Classify c files elapsed = Some (c', results)) :
  (forall f m, f ∈ files -> Scanner.IsDir f = false ->
     Memory.Query (cfg c) (db c) (Scanner.Name f) = Some m ->
     exists r, r ∈ results /\ FileInfo r = f /\ Source r = "memory" /\
       Category r = Memory.Category m /\
       Subcategory r = Memory.Subcategory m /\
       Confidence r = Memory.Confidence m /\
       Reasoning r = Memory.Reasoning m) /\
  (forall r, r ∈ results ->
     Memory.Query (cfg c) (db c) (Scanner.Name (FileInfo r)) = None ->
     Source r = "llm" \/ Source r = "error") /\
  forall r, r ∈ results ->
    (Source r = "memory" \/ Source r = "llm" \/ Source r = "error") /\
    (Source r = "memory" ->
     exists m,
       let name := Scanner.Name (FileInfo r) in
       Memory.Query (cfg c) (db c) name = Some m /\
       Category r = Memory.Category m /\
       Subcategory r = Memory.Subcategory m /\
       Confidence r = Memory.Confidence m /\
       Reasoning r = Memory.Reasoning m /\
       (Config.SimilarityThreshold (cfg c) <= Memory.Confidence m)%Q /\
       ((Memory.Source m = "rule" /\
         Memory.matchRules (cfg c) (db c) name = Some m) \/
        (Memory.Source m = "vector" /\
         Memory.accepted (cfg c) (Memory.matchRules (cfg c) (db c) name) = None /\
         Memory.matchVectors (cfg c) (db c) name = Some m) \/
        (Memory.Source m = "history" /\
         Memory.accepted (cfg c) (Memory.matchRules (cfg c) (db c) name) = None /\
         Memory.accepted (cfg c) (Memory.matchVectors (cfg c) (db c) name) = None /\
         Memory.matchHistory (cfg c) (db c) name = Some m))).
Proof.
  assert (Hback : forall r, r ∈ results ->
    (Source r = "memory" \/ Source r = "llm" \/ Source r = "error") /\
    (Source r = "memory" ->
     exists m,
       let name := Scanner.Name (FileInfo r) in
       Memory.Query (cfg c) (db c) name = Some m /\
       Category r = Memory.Category m /\
       Subcategory r = Memory.Subcategory m /\
       Confidence r = Memory.Confidence m /\
       Reasoning r = Memory.Reasoning m /\
       (Config.SimilarityThreshold (cfg c) <= Memory.Confidence m)%Q /\
       ((Memory.Source m = "rule" /\
         Memory.matchRules (cfg c) (db c) name = Some m) \/
        (Memory.Source m = "vector" /\
         Memory.accepted (cfg c) (Memory.matchRules (cfg c) (db c) name) = None /\
         Memory.matchVectors (cfg c) (db c) name = Some m) \/
        (Memory.Source m = "history" /\
         Memory.accepted (cfg c) (Memory.matchRules (cfg c) (db c) name) = None /\
         Memory.accepted (cfg c) (Memory.matchVectors (cfg c) (db c) name) = None /\
         Memory.matchHistory (cfg c) (db c) name = Some m)))).
  { intros r Hr.
    destruct (Classify_elem _ _ _ _ _ _ Hc Hr) as [(m & Hq & Hrm)|(call & batch & Hb)].
    - split; [left; by rewrite Hrm|]. intros _. exists m. simpl.
      split; [done|]. rewrite Hrm. simpl. repeat (split; [done|]).
      apply Query_tier in Hq as [Hth Htier]. split; [done|].
      destruct Htier as [H1|[[H1 H2]|(H1 & H2 & H3)]].
      + left. split; [|done]. by apply matchRules_Some in H1 as [? _].
      + right; left. split; [|done]. by apply matchVectors_Some in H2 as [? _].
      + right; right. split; [|done]. by apply matchHistory_Some in H3 as [? _].
    - apply batch_results_elem in Hb as [(Hs & _)|(? & ? & ? & _ & _ & _ & Hs & _)];
        rewrite Hs; split; auto; discriminate. }
  split; [|split; [|exact Hback]].
  - intros f m Hf Hdir Hq.
    destruct (Classify_results _ _ _ _ _ Hc)
      as (mem & need & llm & Hphase & _ & _ & ->).
    exists (from_memory f m). split; [|done].
    rewrite SortFacts.sort_perm. apply elem_of_app. left.
    by apply (memory_phase_complete _ _ _ _ Hphase).
  - intros r Hr Hnone. destruct (Hback r Hr) as [[Hs|[Hs|Hs]] Hmem]; auto.
    destruct (Hmem Hs) as (m & Hq & _). cbv zeta in Hq. congruence.
Qed.

End Bounds.

(** C4 does not hold as stated: the file [a.pdf], which the learned rule
    [.pdf -> Documents/Finance] decides, gets a result of source [memory],
    not [rule]. *)
Lemma rule_match_is_emitted_as_memory :
  exists c' r m,
    @Classify BasicUnicode PlainRuntime BlindEmbedder Llm.TimeoutClient
      Demo.taught [Demo.a_pdf] 0 = Some (c', [r]) /\
    @Memory.Query BasicUnicode PlainRuntime BlindEmbedder
      Config.defaultConfig Demo.pdf_rules "a.pdf" = Some m /\
    Memory.Source m = "rule" /\
    Category r = "Documents" /\ Subcategory r = "Finance" /\
    Source r = "memory" /\ Source r <> "rule".
Proof.
  do 3 eexists. split; [vm_compute; reflexivity|].
  split; [vm_compute; reflexivity|]. repeat split. discriminate.
Qed.

(** C3 does not hold as stated: a payload that gives the confidence as
    the percentage 95 yields a result of confidence 95. *)
Lemma payload_confidence_is_emitted_unchecked :
  exists c' r,
    @Classify BasicUnicode PlainRuntime BlindEmbedder (Llm.AnswerWith (95 # 1))
      Demo.fresh [Demo.zxqfoo] 0 = Some (c', [r]) /\
    Source r = "llm" /\ Confidence r = (95 # 1)%Q /\
    ~ (0 <= Confidence r <= 1)%Q.
Proof.
  do 2 eexists. split; [vm_compute; reflexivity|].
  repeat split. intros [_ H]. revert H. vm_compute. intros H. by apply H.
Qed.

End ResultFacts.

(* ===================================================================== *)
(** * The search for a free name *)
(* ===================================================================== *)

Module SearchFacts.






Section Search.
Context (fs : Os.FileSystem) (candidate : nat -> string).
Hypothesis candidate_inj : forall i j, candidate i = candidate j -> i = j.




End Search.



End SearchFacts.

(* ===================================================================== *)
(** * [undoBatch] *)
(* ===================================================================== *)

Module UndoFacts.
Import Storage Undo SearchFacts.

Lemma GetBatchLogs_elem db batchID log :
  log ∈ GetBatchLogs db batchID <->
  log ∈ operation_logs db /\ OperationLog.BatchID log = batchID /\
  OperationLog.Status log = "success".
Proof.
  unfold GetBatchLogs, Sql.order_by. rewrite SortFacts.sort_perm.
  rewrite list_elem_of_filter. tauto.
Qed.

Lemma MarkBatchUndone_status db batchID log :
  log ∈ operation_logs (MarkBatchUndone db batchID) ->
  OperationLog.BatchID log = batchID -> OperationLog.Status log = "undone".
Proof.
  unfold MarkBatchUndone. simpl.
  intros (l & -> & _)%list_elem_of_fmap.
  destruct (String.eqb_spec (OperationLog.BatchID l) batchID); [done|].
  intros ?. done.
Qed.

Lemma GetBatchLogs_after_mark db batchID :
  GetBatchLogs (MarkBatchUndone db batchID) batchID = [].
Proof.
  destruct (GetBatchLogs _ _) as [|log logs] eqn:Hl; [done|exfalso].
  assert (Hin : log ∈ GetBatchLogs (MarkBatchUndone db batchID) batchID)
    by (rewrite Hl; by left).
  apply GetBatchLogs_elem in Hin as (Hin & Hb & Hs).
  apply MarkBatchUndone_status in Hin; [|done]. congruence.
Qed.

Section Pass.
Context {RT : Runtime} {FL : Os.Faults}.









End Pass.

(** Undo of a batch whose file is in place: the file goes back, the log
    is marked, the emptied directory goes, and a second undo does nothing. *)
Example undo_moves_the_file_back :
  exists db' fs' rep log,
    @undoBatch PlainRuntime Os.NoFaults UndoScenario.moved UndoScenario.in_place "B1" true
      = Some (db', fs', rep) /\
    renames rep = [("/home/u/out/Documents/a.pdf", "/home/u/in/a.pdf")] /\
    success rep = 1 /\ errors rep = 0 /\
    Os.files fs' = {["/home/u/in/a.pdf"]} /\
    ("/home/u/out/Documents" ∉ Os.dirs fs') /\
    operation_logs db' = [log] /\
    OperationLog.Status log = "undone" /\
    @undoBatch PlainRuntime Os.NoFaults db' fs' "B1" true
      = Some (db', fs', nothing).
Proof.
  do 4 eexists. split; [vm_compute; reflexivity|].
  repeat split; try (vm_compute; reflexivity).
  apply (bool_decide_unpack _). vm_compute. exact I.
Qed.


End UndoFacts.

(* ===================================================================== *)
(** * The exit status *)
(* ===================================================================== *)

Module CmdFacts.
Import Storage Cmd.


End CmdFacts.

(* ===================================================================== *)
(** * The local embedder *)
(* ===================================================================== *)

Module EmbeddingFacts.
Import GoString Embedding Notions.

(** ** Any arithmetic: the two early returns of [Similarity] *)

Section AnyArithmetic.
Context {F : Type} {FO : FloatOps F}.

Lemma Similarity_length_mismatch (e : LocalEmbedder) (v1 v2 : list F) :
  List.length v1 <> List.length v2 -> Similarity e v1 v2 = fzero.
Proof.
  intros H. unfold Similarity.
  destruct (List.length v1 =? List.length v2)%nat eqn:E; [|done].
  by apply Nat.eqb_eq in E.
Qed.

Lemma Similarity_zero_norm (e : LocalEmbedder) (v1 v2 : list F) :
  fis_zero (snd (fst (accumulate v1 v2))) = true \/
  fis_zero (snd (accumulate v1 v2)) = true ->
  Similarity e v1 v2 = fzero.
Proof.
  intros H. unfold Similarity. destruct (negb _); [done|].
  destruct (accumulate v1 v2) as [[dot n1] n2]. simpl in H.
  destruct H as [-> | ->]; [done|]. by rewrite orb_true_r.
Qed.

End AnyArithmetic.

(** ** Exact arithmetic *)

Local Open Scope R_scope.

Local Existing Instance RealOps.

Lemma accumulate_from (l : list (R * R)) : forall d a b,
  fold_left
    (fun '(dot, n1, n2) '(x, y) =>
       (fadd dot (fmul x y), fadd n1 (fmul x x), fadd n2 (fmul y y)))
    l (d, a, b)
  = (d + dot_product l, a + norm2_l l, b + norm2_r l).
Proof.
  induction l as [|[x y] l IH]; intros d a b; simpl.
  - f_equal; [f_equal|]; lra.
  - rewrite IH. f_equal; [f_equal|]; lra.
Qed.

Lemma accumulate_sums (v1 v2 : list R) :
  accumulate v1 v2
  = (dot_product (zip v1 v2), norm2_l (zip v1 v2), norm2_r (zip v1 v2)).
Proof.
  unfold accumulate. rewrite accumulate_from. f_equal; [f_equal|]; simpl; lra.
Qed.

Lemma norm2_l_nonneg l : 0 <= norm2_l l.
Proof. induction l as [|[x y] l IH]; simpl; [lra | nra]. Qed.

Lemma norm2_r_nonneg l : 0 <= norm2_r l.
Proof. induction l as [|[x y] l IH]; simpl; [lra | nra]. Qed.

(** Cauchy-Schwarz. *)
Lemma dot_product_squared l :
  dot_product l * dot_product l <= norm2_l l * norm2_r l.
Proof.
  induction l as [|[x y] l IH]; simpl; [lra|].
  pose proof (norm2_l_nonneg l) as Ha. pose proof (norm2_r_nonneg l) as Hb.
  set (d := dot_product l) in *. set (a := norm2_l l) in *.
  set (b := norm2_r l) in *.
  assert (Hmix : 2 * (x * y) * d <= x * x * b + y * y * a).
  { destruct (Rle_dec (2 * (x * y) * d) 0) as [Hneg|Hpos]; [nra|].
    apply Rnot_le_lt in Hpos.
    assert (Hsq : (2 * (x * y) * d) * (2 * (x * y) * d)
                  <= (x * x * b + y * y * a) * (x * x * b + y * y * a)).
    { assert (4 * (x * x) * (y * y) * (d * d)
              <= 4 * (x * x) * (y * y) * (a * b)).
      { apply Rmult_le_compat_l; [|lra].
        pose proof (Rle_0_sqr (x * y)) as Hxy. unfold Rsqr in Hxy. lra. }
      replace ((2 * (x * y) * d) * (2 * (x * y) * d))
        with (4 * (x * x) * (y * y) * (d * d)) by ring.
      replace ((x * x * b + y * y * a) * (x * x * b + y * y * a))
        with (4 * (x * x) * (y * y) * (a * b)
              + (x * x * b - y * y * a) * (x * x * b - y * y * a)) by ring.
      pose proof (Rle_0_sqr (x * x * b - y * y * a)) as Hs.
      unfold Rsqr in Hs. lra. }
    assert (Hrhs : 0 <= x * x * b + y * y * a).
    { pose proof (Rle_0_sqr x) as Hx. pose proof (Rle_0_sqr y) as Hy.
      unfold Rsqr in *.
      pose proof (Rmult_le_pos _ _ Hx Hb). pose proof (Rmult_le_pos _ _ Hy Ha).
      lra. }
    apply Rsqr_incr_0_var; [|done]. unfold Rsqr. exact Hsq. }
  replace ((x * y + d) * (x * y + d))
    with ((x * y) * (x * y) + 2 * (x * y) * d + d * d) by ring.
  replace ((x * x + a) * (y * y + b))
    with ((x * y) * (x * y) + (x * x * b + y * y * a) + a * b) by ring.
  lra.
Qed.

Lemma dot_product_nonneg l :
  Forall (fun p => 0 <= fst p /\ 0 <= snd p) l -> 0 <= dot_product l.
Proof.
  induction 1 as [|[x y] l [Hx Hy] Hl IH]; simpl in *; [lra | nra].
Qed.

(** The cosine of two vectors lies in [-1, 1]; in [0, 1] when no
    component is negative. *)
Lemma Similarity_le_1 (e : LocalEmbedder) (v1 v2 : list R) :
  Similarity e v1 v2 <= 1.
Proof.
  unfold Similarity. destruct (negb _); [simpl; lra|].
  rewrite accumulate_sums. simpl.
  set (l := zip v1 v2).
  destruct (Req_dec_T (norm2_l l) 0) as [|Ha]; [simpl; lra|].
  destruct (Req_dec_T (norm2_r l) 0) as [|Hb]; [simpl; lra|]. simpl.
  pose proof (norm2_l_nonneg l) as Ha0. pose proof (norm2_r_nonneg l) as Hb0.
  assert (Hsa : 0 < sqrt (norm2_l l)) by (apply sqrt_lt_R0; lra).
  assert (Hsb : 0 < sqrt (norm2_r l)) by (apply sqrt_lt_R0; lra).
  assert (Hden : 0 < sqrt (norm2_l l) * sqrt (norm2_r l)) by nra.
  apply (Rmult_le_reg_r (sqrt (norm2_l l) * sqrt (norm2_r l))); [done|].
  unfold Rdiv. rewrite Rmult_assoc, Rinv_l by lra. rewrite Rmult_1_r, Rmult_1_l.
  rewrite <- sqrt_mult by lra.
  destruct (Rle_dec (dot_product l) 0) as [Hneg|Hpos].
  - eapply Rle_trans; [exact Hneg | apply sqrt_pos].
  - apply Rnot_le_lt in Hpos. rewrite <- (sqrt_Rsqr (dot_product l)) by lra.
    apply sqrt_le_1_alt. unfold Rsqr. apply dot_product_squared.
Qed.

Lemma Similarity_nonneg (e : LocalEmbedder) (v1 v2 : list R) :
  Forall (fun x => 0 <= x) v1 -> Forall (fun x => 0 <= x) v2 ->
  0 <= Similarity e v1 v2.
Proof.
  intros H1 H2. unfold Similarity. destruct (negb _); [simpl; lra|].
  rewrite accumulate_sums. simpl.
  set (l := zip v1 v2).
  destruct (Req_dec_T (norm2_l l) 0) as [|Ha]; [simpl; lra|].
  destruct (Req_dec_T (norm2_r l) 0) as [|Hb]; [simpl; lra|]. simpl.
  pose proof (norm2_l_nonneg l) as Ha0. pose proof (norm2_r_nonneg l) as Hb0.
  assert (Hsa : 0 < sqrt (norm2_l l)) by (apply sqrt_lt_R0; lra).
  assert (Hsb : 0 < sqrt (norm2_r l)) by (apply sqrt_lt_R0; lra).
  assert (Hdot : 0 <= dot_product l).
  { apply dot_product_nonneg. subst l. clear - H1 H2.
    revert v2 H2. induction H1 as [|x v1 Hx H1 IH]; intros v2 H2; [constructor|].
    destruct H2 as [|y v2 Hy H2]; [constructor|]. simpl.
    constructor; [done | by apply IH]. }
  apply Rmult_le_pos; [done|]. apply Rlt_le, Rinv_0_lt_compat. nra.
Qed.

(** ** Every component of an embedding is non-negative *)

Lemma bump_nonneg (vec : list R) idx w :
  0 <= w -> Forall (fun x => 0 <= x) vec -> Forall (fun x => 0 <= x) (bump vec idx w).
Proof.
  intros Hw Hv. unfold bump. apply Forall_alter; [done|].
  intros x _ Hx. simpl. lra.
Qed.

Lemma features_nonneg {A} (step : list R -> A -> list R) (items : list A) :
  Forall
    (fun a => forall v, Forall (fun x => 0 <= x) v ->
                Forall (fun x => 0 <= x) (step v a)) items ->
  forall vec, Forall (fun x => 0 <= x) vec ->
    Forall (fun x => 0 <= x) (fold_left step items vec).
Proof.
  induction 1 as [|a items Ha Hitems IH]; intros vec Hv; simpl; [done|].
  by apply IH, Ha.
Qed.

Lemma range_from_offsets fuel : forall off bs,
  Forall (fun p => (off <= fst p)%Z) (range_from fuel off bs).
Proof.
  induction fuel as [|fuel IH]; intros off bs; simpl; [constructor|].
  destruct bs as [|b bs]; [constructor|].
  destruct (decode_rune (b :: bs)) as [r w]. constructor; [simpl; lia|].
  eapply Forall_impl; [apply IH|]. simpl. intros p Hp. lia.
Qed.

Lemma inverse_weight_nonneg (k n : Z) :
  (0 <= k)%Z -> (0 <= n)%Z -> 0 <= fdiv (fof_int k) (fof_int (n + 1)).
Proof.
  intros Hk Hn. simpl. apply Rmult_le_pos; [by apply IZR_le|].
  apply Rlt_le, Rinv_0_lt_compat. apply IZR_lt. lia.
Qed.

Section Embed.
Context {U : Unicode}.

Lemma Embed_nonneg (e : LocalEmbedder) (text : string) :
  Forall (fun x => 0 <= x) (Embed (F := R) e text).
Proof.
  unfold Embed, normalize.
  set (text' := GoStrings.ToLower text).
  assert (Hvec : Forall (fun x => 0 <= x)
            (ngram_features e text'
               (word_features e text'
                  (char_features e text'
                     (replicate (Z.to_nat (dimension e)) fzero))))).
  { unfold ngram_features, word_features, char_features.
    apply features_nonneg.
    { apply Forall_forall. intros i _ v Hv. apply bump_nonneg; [|done].
      apply (inverse_weight_nonneg 1 1); lia. }
    apply features_nonneg.
    { apply Forall_forall. intros [i w] _ v Hv. apply bump_nonneg; [|done].
      apply inverse_weight_nonneg; lia. }
    apply features_nonneg.
    { eapply Forall_impl; [apply range_from_offsets|].
      intros [i r] Hi v Hv. apply bump_nonneg; [|done].
      apply inverse_weight_nonneg; simpl in *; lia. }
    apply Forall_replicate. simpl. lra. }
  revert Hvec. generalize (ngram_features e text'
               (word_features e text'
                  (char_features e text'
                     (replicate (Z.to_nat (dimension e)) fzero)))).
  intros vec Hvec. simpl.
  destruct (Req_dec_T (sqrt (sum_squares vec)) 0) as [|Hn]; [done|].
  assert (0 < sqrt (sum_squares vec)).
  { pose proof (sqrt_pos (sum_squares vec)). lra. }
  apply Forall_fmap. eapply Forall_impl; [exact Hvec|].
  intros x Hx. simpl. apply Rmult_le_pos; [done|].
  by apply Rlt_le, Rinv_0_lt_compat.
Qed.

(** In exact arithmetic: every component of an embedding is non-negative
    and the similarity of two embeddings is in [0, 1]; [Similarity] is 0
    on vectors of different lengths and on a vector of norm 0. *)
Theorem similarity_of_embeddings_in_unit_interval (e : LocalEmbedder) :
  (forall a b : string,
     Forall (fun x => 0 <= x) (Embed (F := R) e a) /\
     0 <= Similarity e (Embed (F := R) e a) (Embed (F := R) e b) <= 1) /\
  (forall v1 v2 : list R,
     List.length v1 <> List.length v2 -> Similarity e v1 v2 = 0) /\
  (forall v1 v2 : list R,
     sum_squares v1 = 0 \/ sum_squares v2 = 0 ->
     List.length v1 = List.length v2 -> Similarity e v1 v2 = 0).
Proof.
  split; [|split].
  - intros a b. split; [apply Embed_nonneg|]. split.
    + apply Similarity_nonneg; apply Embed_nonneg.
    + apply Similarity_le_1.
  - intros v1 v2. apply (@Similarity_length_mismatch R RealOps).
  - intros v1 v2 Hz Hlen. apply (@Similarity_zero_norm R RealOps).
    rewrite accumulate_sums. simpl.
    assert (Hl : forall v w : list R, List.length v = List.length w ->
              norm2_l (zip v w) = sum_squares v /\
              norm2_r (zip v w) = sum_squares w).
    { clear. intros v w Hlen.
      assert (Hfold : forall (u : list R) s,
                fold_left (fun sum x : R => sum + x * x) u s
                = s + fold_left (fun sum x : R => sum + x * x) u 0).
      { induction u as [|x u IH]; intros s; simpl; [lra|].
        rewrite IH, (IH (0 + x * x)). lra. }
      revert w Hlen. induction v as [|x v IH]; intros [|y w] Hlen;
        simpl in *; try done.
      injection Hlen as Hlen. destruct (IH w Hlen) as [Hv Hw].
      unfold sum_squares in *. simpl in *.
      rewrite (Hfold v (0 + x * x)), (Hfold w (0 + y * y)), Hv, Hw.
      split; lra. }
    destruct (Hl v1 v2 Hlen) as [-> ->].
    destruct Hz as [-> | ->]; [left|right];
      by destruct (Req_dec_T 0 0).
Qed.

End Embed.
End EmbeddingFacts.

Module Binary64Facts.

(** C10, on [a = b = "x1"] in binary64 arithmetic: the similarity of the
    embedding of [x1] with itself is [1 + 2^-52], which is above 1. *)
Lemma similarity_exceeds_1_in_binary64 :
  let v := @Embedding.Embed BasicUnicode PrimFloat.float Binary64Ops
             Embedding.NewLocalEmbedder "x1" in
  let s := @Embedding.Similarity PrimFloat.float Binary64Ops
             Embedding.NewLocalEmbedder v v in
  PrimFloat.ltb PrimFloat.one s = true /\
  PrimFloat.eqb s
    (PrimFloat.add PrimFloat.one
       (PrimFloat.ldshiftexp PrimFloat.one (Uint63.of_Z (2101 - 52)))) = true.
Proof. vm_compute. split; reflexivity. Qed.

End Binary64Facts.

(* ===================================================================== *)
(** * The theorems at concrete inputs *)
(* ===================================================================== *)

Module Instances.
Import Storage Classifier.

(** C9 on a taught store and the files [a.pdf], the directory [old] and
    [zxqfoo.bin], with a model that times out. *)
Lemma classify_keeps_input_order_witness :
  NoDup (map Scanner.Path [Demo.a_pdf; Demo.folder; Demo.zxqfoo]) /\
  ((0 < Config.BatchSize (cfg Demo.taught) ->
    is_Some
      (@Classify BasicUnicode PlainRuntime BlindEmbedder Llm.TimeoutClient
         Demo.taught [Demo.a_pdf; Demo.folder; Demo.zxqfoo] 0)) /\
   forall c' results,
     @Classify BasicUnicode PlainRuntime BlindEmbedder Llm.TimeoutClient
       Demo.taught [Demo.a_pdf; Demo.folder; Demo.zxqfoo] 0
     = Some (c', results) ->
     map FileInfo results
       = filter (fun f => f ∈ map FileInfo results)
           [Demo.a_pdf; Demo.folder; Demo.zxqfoo] /\
     map FileInfo results
       `sublist_of` filter (fun f => Scanner.IsDir f = false)
                      [Demo.a_pdf; Demo.folder; Demo.zxqfoo] /\
     ((forall call batch rules,
         List.length
           (@batch_results Llm.TimeoutClient call batch rules)
         = List.length batch) ->
      map FileInfo results
      = filter (fun f => Scanner.IsDir f = false)
          [Demo.a_pdf; Demo.folder; Demo.zxqfoo])).
Proof.
  assert (Hpaths : NoDup (map Scanner.Path [Demo.a_pdf; Demo.folder; Demo.zxqfoo])).
  { apply (bool_decide_unpack _). vm_compute. exact I. }
  split; [exact Hpaths|].
  exact (@OrderFacts.classify_keeps_input_order BasicUnicode PlainRuntime
           BlindEmbedder Llm.TimeoutClient Demo.taught
           [Demo.a_pdf; Demo.folder; Demo.zxqfoo] 0 Hpaths).
Defined.

(** C4 on the same store: [a.pdf] is decided by the rule, [zxqfoo.bin]
    by no tier. *)
Lemma memory_results_are_labelled_memory_witness :
  exists c' results,
    @Classify BasicUnicode PlainRuntime BlindEmbedder Llm.TimeoutClient
      Demo.taught [Demo.a_pdf; Demo.zxqfoo] 0 = Some (c', results) /\
    List.length results = 2%nat /\
    (forall f m, f ∈ [Demo.a_pdf; Demo.zxqfoo] -> Scanner.IsDir f = false ->
       @Memory.Query BasicUnicode PlainRuntime BlindEmbedder
         (cfg Demo.taught) (db Demo.taught) (Scanner.Name f) = Some m ->
       exists r, r ∈ results /\ FileInfo r = f /\ Source r = "memory" /\
         Category r = Memory.Category m /\
         Subcategory r = Memory.Subcategory m /\
         Confidence r = Memory.Confidence m /\
         Reasoning r = Memory.Reasoning m) /\
    (forall r, r ∈ results ->
       @Memory.Query BasicUnicode PlainRuntime BlindEmbedder
         (cfg Demo.taught) (db Demo.taught) (Scanner.Name (FileInfo r)) = None ->
       Source r = "llm" \/ Source r = "error") /\
    forall r, r ∈ results ->
      (Source r = "memory" \/ Source r = "llm" \/ Source r = "error") /\
      (Source r = "memory" ->
       exists m,
         let name := Scanner.Name (FileInfo r) in
         @Memory.Query BasicUnicode PlainRuntime BlindEmbedder
           (cfg Demo.taught) (db Demo.taught) name = Some m /\
         Category r = Memory.Category m /\
         Subcategory r = Memory.Subcategory m /\
         Confidence r = Memory.Confidence m /\
         Reasoning r = Memory.Reasoning m /\
         (Config.SimilarityThreshold (cfg Demo.taught) <= Memory.Confidence m)%Q /\
         ((Memory.Source m = "rule" /\
           @Memory.matchRules BasicUnicode (cfg Demo.taught) (db Demo.taught)
             name = Some m) \/
          (Memory.Source m = "vector" /\
           Memory.accepted (cfg Demo.taught)
             (@Memory.matchRules BasicUnicode (cfg Demo.taught)
                (db Demo.taught) name) = None /\
           @Memory.matchVectors BasicUnicode PlainRuntime BlindEmbedder
             (cfg Demo.taught) (db Demo.taught) name = Some m) \/
          (Memory.Source m = "history" /\
           Memory.accepted (cfg Demo.taught)
             (@Memory.matchRules BasicUnicode (cfg Demo.taught)
                (db Demo.taught) name) = None /\
           Memory.accepted (cfg Demo.taught)
             (@Memory.matchVectors BasicUnicode PlainRuntime BlindEmbedder
                (cfg Demo.taught) (db Demo.taught) name) = None /\
           @Memory.matchHistory BasicUnicode (cfg Demo.taught)
             (db Demo.taught) name = Some m))).
Proof.
  eexists _, _. split; [vm_compute; reflexivity|]. split; [reflexivity|].
  eapply (@ResultFacts.memory_results_are_labelled_memory BasicUnicode
           PlainRuntime BlindEmbedder Llm.TimeoutClient Demo.taught
           [Demo.a_pdf; Demo.zxqfoo] 0).
  vm_compute. reflexivity.
Defined.

End Instances.

(* ===================================================================== *)
(** * [ORDER BY] and [LIMIT] *)
(* ===================================================================== *)

Module QueryFacts.

(** ** [ORDER BY] and [LIMIT] *)

Section SortedBy.
Context {A : Type} (before : A -> A -> bool) (R : A -> A -> Prop).
Hypothesis R_trans : forall a b c, R a b -> R b c -> R a c.
Hypothesis before_R : forall a b, before a b = true -> R a b.
Hypothesis not_before_R : forall a b, before a b = false -> R b a.

Lemma insert_sorted x l :
  StronglySorted R l -> StronglySorted R (StableSort.insert before x l).
Proof.
  induction 1 as [|y l Hl IH Hall]; simpl.
  - repeat constructor.
  - destruct (before y x) eqn:E.
    + constructor; [done|]. rewrite Forall_forall in *. intros z Hz.
      rewrite (SortFacts.insert_perm before x l) in Hz.
      apply elem_of_cons in Hz as [->|Hz]; [by apply before_R | by apply Hall].
    + apply not_before_R in E. constructor; [by constructor|].
      constructor; [done|]. rewrite Forall_forall in *. intros z Hz.
      eapply R_trans; [exact E | by apply Hall].
Qed.

Lemma order_by_sorted l : StronglySorted R (Sql.order_by before l).
Proof.
  unfold Sql.order_by. induction l as [|x l IH]; simpl; [constructor|].
  by apply insert_sorted.
Qed.

End SortedBy.

Lemma order_by_elem {A} (before : A -> A -> bool) (l : list A) (x : A) :
  x ∈ Sql.order_by before l <-> x ∈ l.
Proof. unfold Sql.order_by. by rewrite SortFacts.sort_perm. Qed.

Lemma order_by_length {A} (before : A -> A -> bool) (l : list A) :
  List.length (Sql.order_by before l) = List.length l.
Proof. unfold Sql.order_by. by rewrite SortFacts.sort_perm. Qed.

Lemma limit_sublist {A} (n : Z) (l : list A) : Sql.limit n l `sublist_of` l.
Proof.
  unfold Sql.limit. destruct (n <? 0); [done|]. apply sublist_take.
Qed.

Lemma limit_length {A} (n : Z) (l : list A) :
  0 <= n -> Z.of_nat (List.length (Sql.limit n l)) <= n.
Proof.
  intros Hn. unfold Sql.limit. destruct (n <? 0) eqn:E; [lia|].
  rewrite length_take. lia.
Qed.

Lemma limit_elem {A} (n : Z) (l : list A) (x : A) :
  x ∈ Sql.limit n l -> x ∈ l.
Proof. intros H. eapply sublist_subseteq; [apply limit_sublist | exact H]. Qed.

Lemma limit_sorted {A} (R : A -> A -> Prop) (n : Z) (l : list A) :
  StronglySorted R l -> StronglySorted R (Sql.limit n l).
Proof.
  intros H. eapply OrderFacts.StronglySorted_sublist; [exact H | apply limit_sublist].
Qed.

(** [ORDER BY ... LIMIT n]: the rows returned are sorted, and no row left
    out goes before a row returned. *)
Lemma top_rows {A} (before : A -> A -> bool) (R : A -> A -> Prop)
    (n : Z) (l : list A) :
  (forall a b c, R a b -> R b c -> R a c) ->
  (forall a b, before a b = true -> R a b) ->
  (forall a b, before a b = false -> R b a) ->
  let rows := Sql.limit n (Sql.order_by before l) in
  StronglySorted R rows /\
  (0 <= n -> Z.of_nat (List.length rows) <= n) /\
  exists rest,
    Permutation l (rows ++ rest) /\
    (forall x y, x ∈ rows -> y ∈ rest -> R x y) /\
    (n < 0 \/ Z.of_nat (List.length l) <= n -> rest = []).
Proof.
  intros Ht Hb Hnb rows.
  pose proof (order_by_sorted before R Ht Hb Hnb l) as Hs.
  split; [by apply limit_sorted|]. split; [apply limit_length|].
  subst rows. unfold Sql.limit. destruct (n <? 0) eqn:E.
  - exists []. rewrite app_nil_r. split.
    { unfold Sql.order_by. by rewrite SortFacts.sort_perm. }
    split; [|done]. intros x y _ Hy. by apply not_elem_of_nil in Hy.
  - apply Z.ltb_ge in E. exists (drop (Z.to_nat n) (Sql.order_by before l)).
    rewrite take_drop. split.
    { unfold Sql.order_by. by rewrite SortFacts.sort_perm. }
    split.
    + intros x y Hx Hy. rewrite <- (take_drop (Z.to_nat n)) in Hs.
      by eapply StronglySorted_app_1_elem_of.
    + intros [?|Hlen]; [lia|]. apply drop_ge. rewrite order_by_length. lia.
Qed.

(** An UPDATE that leaves the rows a SELECT reads as they are does not
    change what the SELECT returns. *)
Lemma filter_map_fixed {A} (P : A -> Prop) `{forall x, Decision (P x)}
    (f : A -> A) (l : list A) :
  (forall x, P (f x) -> P x) -> (forall x, P x -> f x = x) ->
  filter P (map f l) = filter P l.
Proof.
  intros Hback Hfix. induction l as [|x l IH]; [done|].
  simpl. rewrite !filter_cons, IH.
  destruct (decide (P x)) as [Hx|Hx].
  - rewrite (Hfix x Hx). by destruct (decide (P x)).
  - destruct (decide (P (f x))) as [Hfx|]; [|done]. by apply Hback in Hfx.
Qed.

End QueryFacts.

(* ===================================================================== *)
(** * The operation log *)
(* ===================================================================== *)

Module LogFacts.
Import Storage QueryFacts.

(** X1.  [MarkBatchUndone] rewrites the status of every row of the batch,
    failed rows too, and nothing else: the rows keep their place and every
    other column, the rows of other batches are the same rows, the other
    five tables, the counters and the clock are as before; the other batches
    read as before, the batch itself has nothing left to undo, and a second
    call changes nothing. *)
Theorem mark_batch_undone_touches_only_its_batch (d : Database)
    (batchID : string) :
  let d' := MarkBatchUndone d batchID in
  List.length (operation_logs d') = List.length (operation_logs d) /\
  (forall i l, operation_logs d !! i = Some l ->
     exists l', operation_logs d' !! i = Some l' /\
       OperationLog.ID l' = OperationLog.ID l /\
       OperationLog.BatchID l' = OperationLog.BatchID l /\
       OperationLog.SourcePath l' = OperationLog.SourcePath l /\
       OperationLog.DestPath l' = OperationLog.DestPath l /\
       OperationLog.Filename l' = OperationLog.Filename l /\
       OperationLog.Category l' = OperationLog.Category l /\
       OperationLog.Subcategory l' = OperationLog.Subcategory l /\
       OperationLog.CreatedAt l' = OperationLog.CreatedAt l /\
       OperationLog.Status l' =
         (if String.eqb (OperationLog.BatchID l) batchID
          then "undone" else OperationLog.Status l) /\
       (OperationLog.BatchID l <> batchID -> l' = l)) /\
  (forall other, other <> batchID ->
     GetBatchLogs d' other = GetBatchLogs d other) /\
  GetBatchLogs d' batchID = [] /\
  MarkBatchUndone d' batchID = d' /\
  classification_history d' = classification_history d /\
  learned_rules d' = learned_rules d /\
  user_feedback d' = user_feedback d /\
  vectors d' = vectors d /\
  model_stats d' = model_stats d /\
  history_seq d' = history_seq d /\ rules_seq d' = rules_seq d /\
  logs_seq d' = logs_seq d /\ now d' = now d.
Proof.
  intros d'. subst d'. split; [|split; [|split; [|split; [|split]]]].
  - unfold MarkBatchUndone. simpl. by rewrite length_map.
  - intros i l Hl. unfold MarkBatchUndone. simpl.
    rewrite list_lookup_fmap, Hl. simpl. eexists. split; [reflexivity|].
    destruct (String.eqb_spec (OperationLog.BatchID l) batchID);
      repeat (split; [done|]); [by intros ? | done].
  - intros other Hother. unfold GetBatchLogs, MarkBatchUndone. simpl.
    f_equal. apply filter_map_fixed.
    + intros l. destruct (String.eqb_spec (OperationLog.BatchID l) batchID) as [->|];
        [|done]. simpl. intros [_ H]. discriminate H.
    + intros l [Hb _].
      destruct (String.eqb_spec (OperationLog.BatchID l) batchID); [congruence | done].
  - apply UndoFacts.GetBatchLogs_after_mark.
  - unfold MarkBatchUndone. simpl. unfold set_logs. simpl. f_equal.
    rewrite <- list_fmap_compose. apply list_fmap_ext. intros _ l _. simpl.
    destruct (String.eqb_spec (OperationLog.BatchID l) batchID) as [E|E]; simpl.
    + by rewrite E, String.eqb_refl.
    + destruct (String.eqb_spec (OperationLog.BatchID l) batchID); done.
  - done.
Qed.

(** X2.  [GetLatestBatch] is empty when no row has status [success]; else it
    is the batch of a [success] row that no other [success] row is newer
    than.  Once a batch (of a non-empty name) is marked undone it is not the
    latest batch any more. *)
Theorem latest_batch_is_a_newest_success (d : Database) :
  ((forall l, l ∈ operation_logs d -> OperationLog.Status l <> "success") ->
   GetLatestBatch d = EmptyString) /\
  (forall l0, l0 ∈ operation_logs d -> OperationLog.Status l0 = "success" ->
     exists l, l ∈ operation_logs d /\ OperationLog.Status l = "success" /\
       GetLatestBatch d = OperationLog.BatchID l /\
       forall l', l' ∈ operation_logs d ->
         OperationLog.Status l' = "success" ->
         OperationLog.CreatedAt l' <= OperationLog.CreatedAt l) /\
  (forall batchID, batchID <> EmptyString ->
     GetLatestBatch (MarkBatchUndone d batchID) <> batchID).
Proof.
  assert (Hhead : forall d,
    match Sql.order_by
            (fun a b => OperationLog.CreatedAt b <? OperationLog.CreatedAt a)
            (filter (fun l => OperationLog.Status l = "success") (operation_logs d))
    with
    | [] => forall l, l ∈ operation_logs d -> OperationLog.Status l <> "success"
    | l :: _ =>
      l ∈ operation_logs d /\ OperationLog.Status l = "success" /\
      forall l', l' ∈ operation_logs d -> OperationLog.Status l' = "success" ->
        OperationLog.CreatedAt l' <= OperationLog.CreatedAt l
    end).
  { clear d. intros d.
    pose proof (order_by_sorted
      (fun a b => OperationLog.CreatedAt b <? OperationLog.CreatedAt a)
      (fun a b => OperationLog.CreatedAt b <= OperationLog.CreatedAt a)) as Hs.
    specialize (Hs ltac:(cbv beta; intros; lia)
                   ltac:(cbv beta; intros a b H; apply Z.ltb_lt in H; lia)
                   ltac:(cbv beta; intros a b H; apply Z.ltb_ge in H; lia)
                   (filter (fun l => OperationLog.Status l = "success") (operation_logs d))).
    pose proof (order_by_elem
      (fun a b => OperationLog.CreatedAt b <? OperationLog.CreatedAt a)
      (filter (fun l => OperationLog.Status l = "success") (operation_logs d))) as He.
    destruct (Sql.order_by _ _) as [|l rest].
    - intros l Hl Hst. apply (not_elem_of_nil l). apply He.
      by apply list_elem_of_filter.
    - assert (Hl : l ∈ l :: rest) by (by left).
      apply He, list_elem_of_filter in Hl as [Hst Hl].
      split; [done|]. split; [done|]. intros l' Hl' Hst'.
      assert (Hin : l' ∈ l :: rest) by (apply He; by apply list_elem_of_filter).
      apply elem_of_cons in Hin as [->|Hin]; [lia|].
      inversion Hs as [|? ? _ Hall]; subst. rewrite Forall_forall in Hall.
      by apply Hall. }
  split; [|split].
  - intros Hnone. unfold GetLatestBatch. specialize (Hhead d).
    destruct (Sql.order_by _ _) as [|l rest]; [done|].
    destruct Hhead as (Hl & Hst & _). by apply Hnone in Hl.
  - intros l0 Hl0 Hst0. unfold GetLatestBatch. specialize (Hhead d).
    destruct (Sql.order_by _ _) as [|l rest].
    + by apply Hhead in Hl0.
    + destruct Hhead as (Hl & Hst & Hmax). by exists l.
  - intros batchID Hne Heq. unfold GetLatestBatch in Heq.
    specialize (Hhead (MarkBatchUndone d batchID)).
    destruct (Sql.order_by _ _) as [|l rest]; [congruence|].
    destruct Hhead as (Hl & Hst & _).
    apply UndoFacts.MarkBatchUndone_status in Hl; [|done]. congruence.
Qed.

End LogFacts.

(* ===================================================================== *)
(** * The queries on rules and history *)
(* ===================================================================== *)

Module RuleQueryFacts.
Import Storage GoString GoStrings QueryFacts.

Section Rules.
Context {U : Unicode}.

(** What [AddOrUpdateRule] does to the table, row by row. *)
Lemma AddOrUpdateRule_rows (d : Database)
    (pattern patternType category subcategory : string) (priority : Z)
    (Hunique :
       NoDup (map (fun r => (Rule.Pattern r, Rule.PatternType r, Rule.Category r))
                  (learned_rules d))) :
  let d' := AddOrUpdateRule d pattern patternType category subcategory priority in
  NoDup (map (fun r => (Rule.Pattern r, Rule.PatternType r, Rule.Category r))
             (learned_rules d')) /\
  (List.length (learned_rules d) <= List.length (learned_rules d')
   <= S (List.length (learned_rules d)))%nat /\
  (exists r', r' ∈ learned_rules d' /\
     Rule.Pattern r' = ToLower pattern /\ Rule.PatternType r' = patternType /\
     Rule.Category r' = category) /\
  ((forall r, r ∈ learned_rules d -> 1 <= Rule.HitCount r) ->
   forall r', r' ∈ learned_rules d' -> 1 <= Rule.HitCount r') /\
  (forall i r, learned_rules d !! i = Some r ->
     exists r', learned_rules d' !! i = Some r' /\
       Rule.ID r' = Rule.ID r /\ Rule.Pattern r' = Rule.Pattern r /\
       Rule.PatternType r' = Rule.PatternType r /\
       Rule.Category r' = Rule.Category r /\
       Rule.Subcategory r' = Rule.Subcategory r /\
       Rule.HitCount r <= Rule.HitCount r' /\
       Rule.Priority r <= Rule.Priority r').
Proof.
  intros d'. subst d'. unfold AddOrUpdateRule.
  set (hit := rule_key (ToLower pattern) patternType category).
  set (f := fun r => if hit r then bump_rule (now d) priority r else r).
  assert (Hkeys :
    map (fun r => (Rule.Pattern r, Rule.PatternType r, Rule.Category r))
        (map f (learned_rules d))
    = map (fun r => (Rule.Pattern r, Rule.PatternType r, Rule.Category r))
          (learned_rules d)).
  { rewrite map_map. apply map_ext. intros r. unfold f. by destruct (hit r). }
  assert (Hrow : forall i r, learned_rules d !! i = Some r ->
     exists r', map f (learned_rules d) !! i = Some r' /\
       Rule.ID r' = Rule.ID r /\ Rule.Pattern r' = Rule.Pattern r /\
       Rule.PatternType r' = Rule.PatternType r /\
       Rule.Category r' = Rule.Category r /\
       Rule.Subcategory r' = Rule.Subcategory r /\
       Rule.HitCount r <= Rule.HitCount r' /\
       Rule.Priority r <= Rule.Priority r').
  { intros i r Hr. exists (f r). split.
    { change (map f (learned_rules d)) with (f <$> learned_rules d).
      by rewrite list_lookup_fmap, Hr. }
    unfold f. destruct (hit r); simpl; repeat split; lia. }
  destruct (filter (fun r => hit r = true) (learned_rules d)) as [|r0 l0] eqn:Hf;
    simpl.
  - (* miss: the INSERT *)
    assert (Hno : forall r, r ∈ learned_rules d -> hit r = false).
    { intros r Hr. destruct (hit r) eqn:E; [|done].
      assert (r ∈ filter (fun r => hit r = true) (learned_rules d))
        by (by apply list_elem_of_filter).
      rewrite Hf in H. by apply not_elem_of_nil in H. }
    split; [|split; [|split; [|split]]].
    + rewrite map_app, Hkeys. simpl. apply NoDup_app. split; [done|]. split.
      * intros k Hk Hin. apply list_elem_of_singleton in Hin. subst k.
        apply list_elem_of_fmap in Hk as (r & Hk & Hr). injection Hk as H1 H2 H3.
        specialize (Hno r Hr). unfold hit, rule_key in Hno.
        rewrite <- H1, <- H2, <- H3, !String.eqb_refl in Hno. discriminate.
      * apply NoDup_singleton.
    + rewrite length_app, length_map. simpl. lia.
    + eexists. split; [apply elem_of_app; right; by left|]. done.
    + intros Hpos r' Hr'. apply elem_of_app in Hr' as [Hr'|Hr'].
      * apply list_elem_of_fmap in Hr' as (r & -> & Hr). specialize (Hpos r Hr).
        unfold f. destruct (hit r); simpl; lia.
      * apply list_elem_of_singleton in Hr'. subst r'. simpl. lia.
    + intros i r Hr. destruct (Hrow i r Hr) as (r' & Hr' & ?).
      exists r'. split; [|done]. by apply lookup_app_l_Some.
  - (* hit: the UPDATE *)
    split; [|split; [|split; [|split]]].
    + by rewrite Hkeys.
    + rewrite length_map. lia.
    + assert (Hin : r0 ∈ filter (fun r => hit r = true) (learned_rules d))
        by (rewrite Hf; by left).
      apply list_elem_of_filter in Hin as [Hhit Hin].
      exists (f r0). split.
      { change (map f (learned_rules d)) with (f <$> learned_rules d).
        by apply list_elem_of_fmap_2. }
      unfold f. rewrite Hhit. simpl. unfold hit, rule_key in Hhit.
      apply andb_true_iff in Hhit as [Hhit H3].
      apply andb_true_iff in Hhit as [H1 H2].
      by apply String.eqb_eq in H1, H2, H3.
    + intros Hpos r' Hr'.
      apply list_elem_of_fmap in Hr' as (r & -> & Hr). specialize (Hpos r Hr).
      unfold f. destruct (hit r); simpl; lia.
    + exact Hrow.
Qed.

(** [AddOrUpdateRule] writes to [learned_rules] only. *)
Lemma AddOrUpdateRule_other_tables (d : Database)
    (pattern patternType category subcategory : string) (priority : Z) :
  let d' := AddOrUpdateRule d pattern patternType category subcategory priority in
  classification_history d' = classification_history d /\
  vectors d' = vectors d /\ user_feedback d' = user_feedback d /\
  operation_logs d' = operation_logs d /\ model_stats d' = model_stats d /\
  history_seq d' = history_seq d /\ logs_seq d' = logs_seq d /\ now d' = now d.
Proof. unfold AddOrUpdateRule. by destruct (_ =? _)%nat. Qed.

(** X3.  The UNIQUE constraint of [learned_rules] on (pattern, pattern_type,
    category) holds after [AddOrUpdateRule] when it held before: the INSERT
    is only reached when no row has the key.  A row with the key is there
    afterwards; no row is lost and at most one is added; a row keeps its id,
    key and subcategory, and its hit count and priority do not go down; hit
    counts that were all positive stay so. *)
Theorem add_or_update_rule_keeps_the_key_unique (d : Database)
    (pattern patternType category subcategory : string) (priority : Z)
    (Hunique :
       NoDup (map (fun r => (Rule.Pattern r, Rule.PatternType r, Rule.Category r))
                  (learned_rules d))) :
  let d' := AddOrUpdateRule d pattern patternType category subcategory priority in
  NoDup (map (fun r => (Rule.Pattern r, Rule.PatternType r, Rule.Category r))
             (learned_rules d')) /\
  (List.length (learned_rules d) <= List.length (learned_rules d')
   <= S (List.length (learned_rules d)))%nat /\
  (exists r', r' ∈ learned_rules d' /\
     Rule.Pattern r' = ToLower pattern /\ Rule.PatternType r' = patternType /\
     Rule.Category r' = category) /\
  ((forall r, r ∈ learned_rules d -> 1 <= Rule.HitCount r) ->
   forall r', r' ∈ learned_rules d' -> 1 <= Rule.HitCount r') /\
  (forall i r, learned_rules d !! i = Some r ->
     exists r', learned_rules d' !! i = Some r' /\
       Rule.ID r' = Rule.ID r /\ Rule.Pattern r' = Rule.Pattern r /\
       Rule.PatternType r' = Rule.PatternType r /\
       Rule.Category r' = Rule.Category r /\
       Rule.Subcategory r' = Rule.Subcategory r /\
       Rule.HitCount r <= Rule.HitCount r' /\
       Rule.Priority r <= Rule.Priority r').
Proof.
  intros d'.
  destruct (AddOrUpdateRule_rows d pattern patternType category subcategory
              priority Hunique) as (Hnd & Hlen & Hkey & Hpos & Hrows).
  split; [exact Hnd|]. split; [exact Hlen|]. split; [exact Hkey|].
  split; [exact Hpos | exact Hrows].
Qed.

(** The loop that drops repeats keeps the first rule of every key. *)
Lemma dedup_rules_spec rules : forall seen,
  (forall r, r ∈ dedup_rules seen rules -> r ∈ rules) /\
  NoDup (map (fun r => Rule.Pattern r +:+ "|" +:+ Rule.Category r)
             (dedup_rules seen rules)) /\
  (forall r, r ∈ dedup_rules seen rules ->
     Rule.Pattern r +:+ "|" +:+ Rule.Category r ∉ seen).
Proof.
  induction rules as [|r rules IH]; intros seen; simpl.
  - split; [done|]. split; [constructor|]. intros r Hr. by apply not_elem_of_nil in Hr.
  - destruct (decide _) as [Hin|Hnin].
    + destruct (IH seen) as (H1 & H2 & H3). split; [|done].
      intros r' Hr'. right. by apply H1.
    + destruct (IH ({[Rule.Pattern r +:+ "|" +:+ Rule.Category r]} ∪ seen))
        as (H1 & H2 & H3).
      split; [|split].
      * intros r' Hr'. apply elem_of_cons in Hr' as [->|Hr']; [by left|].
        right. by apply H1.
      * simpl. apply NoDup_cons. split; [|done]. intros Hk.
        apply list_elem_of_fmap in Hk as (r' & Hk & Hr').
        apply H3 in Hr'. apply Hr'. rewrite <- Hk.
        by apply elem_of_union_l, elem_of_singleton.
      * intros r' Hr'. apply elem_of_cons in Hr' as [->|Hr']; [done|].
        apply H3 in Hr'. intros Hs. apply Hr'. by apply elem_of_union_r.
Qed.

(** X4.  [GetMatchingRules] returns rules of the table that do match: an
    extension rule for the lower-cased extension, or a keyword rule whose
    pattern the lower-cased file name contains (and then some keyword has
    two bytes or more).  No two of them share pattern and category.  When
    the extension has a rule, the first rule returned is an extension rule
    of the highest priority among them, whatever the keyword rules are: it
    is the one [matchRules] takes. *)
Theorem matching_rules_match_and_the_extension_goes_first (d : Database)
    (filename : string) (keywords : list string) (ext : string) :
  let rules := GetMatchingRules d filename keywords ext in
  (forall r, r ∈ rules ->
     r ∈ learned_rules d /\
     ((Rule.PatternType r = "extension" /\ Rule.Pattern r = ToLower ext /\
       ToLower ext <> EmptyString) \/
      (Rule.PatternType r = "keyword" /\
       Sql.like (ToLower filename) ("%" +:+ Rule.Pattern r +:+ "%") = true /\
       exists kw, kw ∈ keywords /\ 2 <= len kw))) /\
  NoDup (map (fun r => Rule.Pattern r +:+ "|" +:+ Rule.Category r) rules) /\
  (forall r0, r0 ∈ learned_rules d ->
     Rule.PatternType r0 = "extension" -> Rule.Pattern r0 = ToLower ext ->
     ToLower ext <> EmptyString ->
     exists best rest,
       rules = best :: rest /\
       Rule.PatternType best = "extension" /\ Rule.Pattern best = ToLower ext /\
       forall r, r ∈ learned_rules d ->
         Rule.PatternType r = "extension" -> Rule.Pattern r = ToLower ext ->
         Rule.Priority r <= Rule.Priority best).
Proof.
  intros rules. subst rules. unfold GetMatchingRules.
  set (P_ext := fun r : Rule.t =>
         String.eqb (Rule.PatternType r) "extension"
         && String.eqb (Rule.Pattern r) (ToLower ext) = true).
  set (P_kw := fun r : Rule.t =>
         String.eqb (Rule.PatternType r) "keyword"
         && Sql.like (ToLower filename) ("%" ++ Rule.Pattern r ++ "%")%string = true).
  set (by_ext := if String.eqb (ToLower ext) EmptyString then []
                 else Sql.limit 3 (Sql.order_by rule_before (filter P_ext (learned_rules d)))).
  set (by_keyword := Sql.limit 3 (Sql.order_by rule_before (filter P_kw (learned_rules d)))).
  set (all := by_ext ++ concat (map (fun kw => if len kw <? 2 then [] else by_keyword) keywords)).
  destruct (dedup_rules_spec all ∅) as (Hsub & Hnd & _).
  assert (Hext : forall r, r ∈ by_ext ->
            r ∈ learned_rules d /\ Rule.PatternType r = "extension" /\
            Rule.Pattern r = ToLower ext /\ ToLower ext <> EmptyString).
  { intros r Hr. subst by_ext.
    destruct (String.eqb_spec (ToLower ext) EmptyString) as [|Hne];
      [by apply not_elem_of_nil in Hr|].
    apply limit_elem, order_by_elem, list_elem_of_filter in Hr as [Hp Hr].
    unfold P_ext in Hp. apply andb_true_iff in Hp as [H1 H2].
    apply String.eqb_eq in H1, H2. done. }
  assert (Hkw : forall r, r ∈ by_keyword ->
            r ∈ learned_rules d /\ Rule.PatternType r = "keyword" /\
            Sql.like (ToLower filename) ("%" +:+ Rule.Pattern r +:+ "%") = true).
  { intros r Hr. subst by_keyword.
    apply limit_elem, order_by_elem, list_elem_of_filter in Hr as [Hp Hr].
    unfold P_kw in Hp. apply andb_true_iff in Hp as [H1 H2].
    apply String.eqb_eq in H1. done. }
  split; [|split; [done|]].
  - intros r Hr. apply Hsub in Hr. subst all.
    apply elem_of_app in Hr as [Hr|Hr].
    + apply Hext in Hr as (? & ? & ? & ?). split; [done|]. by left.
    + apply list_elem_of_In, in_concat in Hr as (l & Hl & Hr).
      apply in_map_iff in Hl as (kw & <- & Hkwin).
      destruct (len kw <? 2) eqn:E; [done|]. apply Z.ltb_ge in E.
      apply list_elem_of_In, Hkw in Hr as (? & ? & ?). split; [done|].
      right. split; [done|]. split; [done|]. exists kw.
      split; [by apply list_elem_of_In | done].
  - intros r0 Hr0 Ht0 Hp0 Hne.
    assert (HP0 : P_ext r0).
    { unfold P_ext. rewrite Ht0, Hp0. by rewrite !String.eqb_refl. }
    pose proof (order_by_sorted rule_before
                  (fun a b => Rule.Priority b <= Rule.Priority a)) as Hs.
    specialize (Hs ltac:(cbv beta; intros; lia)).
    specialize (Hs ltac:(cbv beta; unfold rule_before; intros a b H;
                         apply orb_true_iff in H as [H|H];
                         [apply Z.ltb_lt in H; lia|];
                         apply andb_true_iff in H as [H _];
                         apply Z.eqb_eq in H; lia)).
    specialize (Hs ltac:(cbv beta; unfold rule_before; intros a b H;
                         apply orb_false_iff in H as [H _];
                         apply Z.ltb_ge in H; lia)).
    specialize (Hs (filter P_ext (learned_rules d))).
    pose proof (order_by_elem rule_before (filter P_ext (learned_rules d))) as He.
    assert (Hby : by_ext = Sql.limit 3 (Sql.order_by rule_before
                                          (filter P_ext (learned_rules d)))).
    { subst by_ext. by destruct (String.eqb_spec (ToLower ext) EmptyString). }
    destruct (Sql.order_by rule_before (filter P_ext (learned_rules d)))
      as [|best tl] eqn:Hsorted.
    { exfalso. apply (not_elem_of_nil r0). apply He. by apply list_elem_of_filter. }
    assert (Hbest : best ∈ by_ext) by (rewrite Hby; by left).
    apply Hext in Hbest as (_ & Hbt & Hbp & _).
    eexists best, _. split.
    { subst all. rewrite Hby. unfold Sql.limit. simpl.
      destruct (decide _) as [Hin|_]; [by apply not_elem_of_empty in Hin|].
      reflexivity. }
    split; [done|]. split; [done|].
    intros r Hr Ht Hp.
    assert (Hin : r ∈ best :: tl).
    { apply He, list_elem_of_filter. split; [|done].
      unfold P_ext. rewrite Ht, Hp. by rewrite !String.eqb_refl. }
    apply elem_of_cons in Hin as [->|Hin]; [lia|].
    inversion Hs as [|? ? _ Hall]; subst. rewrite Forall_forall in Hall.
    by apply Hall.
Qed.

(** X5.  [GetTopRules]: rules with at least one hit, most hit first, at most
    [limit] of them; a rule with a hit that is left out has no more hits
    than any rule returned.  A negative limit is no limit. *)
Theorem top_rules_are_the_most_hit (d : Database) (limit : Z) :
  let rules := GetTopRules d limit in
  (forall r, r ∈ rules -> r ∈ learned_rules d /\ 1 <= Rule.HitCount r) /\
  StronglySorted (fun a b => Rule.HitCount b <= Rule.HitCount a) rules /\
  (0 <= limit -> Z.of_nat (List.length rules) <= limit) /\
  exists rest,
    Permutation (filter (fun r => 1 <= Rule.HitCount r) (learned_rules d))
                (rules ++ rest) /\
    (forall r r', r ∈ rules -> r' ∈ rest -> Rule.HitCount r' <= Rule.HitCount r) /\
    (limit < 0 \/ Z.of_nat (List.length (learned_rules d)) <= limit -> rest = []).
Proof.
  intros rules. subst rules. unfold GetTopRules.
  set (before := fun a b : Rule.t =>
         (Rule.HitCount b <? Rule.HitCount a)
         || ((Rule.HitCount a =? Rule.HitCount b)
             && (Rule.Priority b <? Rule.Priority a))).
  destruct (top_rows before (fun a b => Rule.HitCount b <= Rule.HitCount a) limit
              (filter (fun r => 1 <= Rule.HitCount r) (learned_rules d)))
    as (Hs & Hlen & rest & Hperm & Hrest & Hnil).
  - cbv beta. intros. lia.
  - unfold before. intros a b H. apply orb_true_iff in H as [H|H].
    + apply Z.ltb_lt in H. lia.
    + apply andb_true_iff in H as [H _]. apply Z.eqb_eq in H. lia.
  - unfold before. intros a b H. apply orb_false_iff in H as [H _].
    apply Z.ltb_ge in H. lia.
  - split; [|split; [done|split; [done|]]].
    + intros r Hr. apply limit_elem, order_by_elem, list_elem_of_filter in Hr.
      tauto.
    + exists rest. split; [done|]. split; [done|].
      intros Hl. apply Hnil. destruct Hl as [?|Hl]; [by left|right].
      pose proof (length_filter (fun r => 1 <= Rule.HitCount r) (learned_rules d)).
      lia.
Qed.

(** X6.  [GetSimilarClassifications] returns confirmed rows only, each with
    a file name that contains a keyword of two bytes or more, newest first
    and at most [limit] of them; nothing when no keyword is that long. *)
Theorem similar_classifications_are_confirmed_and_recent (d : Database)
    (keywords : list string) (limit : Z) :
  let rows := GetSimilarClassifications d keywords limit in
  (forall r, r ∈ rows ->
     r ∈ classification_history d /\ History.UserConfirmed r = true /\
     exists kw, kw ∈ keywords /\ 2 <= len kw /\
       Sql.like (sql_lower (History.Filename r)) ("%" +:+ ToLower kw +:+ "%")
       = true) /\
  StronglySorted (fun a b => History.CreatedAt b <= History.CreatedAt a) rows /\
  (0 <= limit -> Z.of_nat (List.length rows) <= limit) /\
  ((forall kw, kw ∈ keywords -> len kw < 2) -> rows = []).
Proof.
  intros rows. subst rows. unfold GetSimilarClassifications.
  destruct keywords as [|kw0 kws].
  { split; [intros r Hr; by apply not_elem_of_nil in Hr|].
    split; [constructor|]. split; [simpl; lia | done]. }
  set (keywords := kw0 :: kws).
  remember (map (fun kw => ("%" ++ ToLower kw ++ "%")%string)
                (filter (fun kw => 2 <= len kw) keywords)) as args eqn:Hargs.
  destruct args as [|a0 args'].
  { split; [intros r Hr; by apply not_elem_of_nil in Hr|].
    split; [constructor|]. split; [simpl; lia | done]. }
  assert (Hlong : ~ forall kw, kw ∈ keywords -> len kw < 2).
  { intros Hshort. rewrite (RuleFacts.filter_none _ keywords) in Hargs; [done|].
    intros kw Hkw. specialize (Hshort kw Hkw). lia. }
  set (before := fun a b : History.t => History.CreatedAt b <? History.CreatedAt a).
  set (hit := fun r : History.t =>
         History.UserConfirmed r = true /\
         existsb (Sql.like (sql_lower (History.Filename r))) (a0 :: args') = true).
  destruct (top_rows before (fun a b => History.CreatedAt b <= History.CreatedAt a)
              limit (filter hit (classification_history d)))
    as (Hs & Hlen & _).
  - cbv beta. intros. lia.
  - unfold before. intros a b H. apply Z.ltb_lt in H. lia.
  - unfold before. intros a b H. apply Z.ltb_ge in H. lia.
  - split; [|split; [done|split; [done|]]].
    + intros r Hr. apply limit_elem, order_by_elem, list_elem_of_filter in Hr
        as [[Hc Hex] Hr].
      split; [done|]. split; [done|].
      apply existsb_exists in Hex as (pat & Hpat & Hlike).
      rewrite Hargs in Hpat. apply in_map_iff in Hpat as (kw & <- & Hkw).
      apply list_elem_of_In, list_elem_of_filter in Hkw as [Hlen2 Hkw].
      by exists kw.
    + intros Hshort. by apply Hlong in Hshort.
Qed.

End Rules.
End RuleQueryFacts.

(* ===================================================================== *)
(** * The counters of the model statistics *)
(* ===================================================================== *)

Module CounterFacts.
Import Storage QueryFacts.

(** X7.  What the two counters of [model_stats] hold after any run of
    [UpdateModelAccuracy] calls on one batch: what they held before plus the
    sum of the arguments.  The rows of other batches are not touched, and no
    column but the two counters and the rate changes. *)
Theorem update_model_accuracy_accumulates_the_counts (d : Database)
    (batchID : string) (updates : list (Z * Z)) :
  let d' :=
    fold_left (fun d '(confirmed, corrected) =>
                 UpdateModelAccuracy d batchID confirmed corrected)
              updates d in
  List.length (model_stats d') = List.length (model_stats d) /\
  forall i s, model_stats d !! i = Some s ->
    exists s', model_stats d' !! i = Some s' /\
      ModelStats.ModelName s' = ModelStats.ModelName s /\
      ModelStats.BatchID s' = ModelStats.BatchID s /\
      ModelStats.FileCount s' = ModelStats.FileCount s /\
      ModelStats.TotalTimeMs s' = ModelStats.TotalTimeMs s /\
      ModelStats.AvgTimePerFileMs s' = ModelStats.AvgTimePerFileMs s /\
      ModelStats.AvgConfidence s' = ModelStats.AvgConfidence s /\
      ModelStats.CreatedAt s' = ModelStats.CreatedAt s /\
      (ModelStats.BatchID s = batchID ->
       ModelStats.ConfirmedCount s'
         = ModelStats.ConfirmedCount s + Sql.sumZ (map fst updates) /\
       ModelStats.CorrectedCount s'
         = ModelStats.CorrectedCount s + Sql.sumZ (map snd updates)) /\
      (ModelStats.BatchID s <> batchID -> s' = s).
Proof.
  revert d. induction updates as [|[confirmed corrected] updates IH]; intros d.
  - simpl. split; [done|]. intros i s Hs. exists s. split; [done|].
    repeat split; lia.
  - cbn [fold_left]. specialize (IH (UpdateModelAccuracy d batchID confirmed corrected)).
    destruct IH as [Hlen Hrows]. split.
    { rewrite Hlen. unfold UpdateModelAccuracy. simpl. by rewrite length_map. }
    intros i s Hs.
    set (s1 := if String.eqb (ModelStats.BatchID s) batchID
               then update_accuracy confirmed corrected
                      (if 0 <? confirmed + corrected
                       then (inject_Z confirmed / inject_Z (confirmed + corrected))%Q
                       else (0 # 1)%Q) s
               else s).
    assert (H1 : model_stats (UpdateModelAccuracy d batchID confirmed corrected) !! i
                 = Some s1).
    { unfold UpdateModelAccuracy. simpl.
      change (map ?f ?l) with (f <$> l). by rewrite list_lookup_fmap, Hs. }
    destruct (Hrows i s1 H1) as (s' & Hs' & Hn & Hb & Hf & Ht & Ha & Hc & Hcr & Hin & Hout).
    exists s'. split; [done|]. subst s1.
    unfold Sql.sumZ. cbn [map fst snd fold_right]. fold (Sql.sumZ (map fst updates)).
    fold (Sql.sumZ (map snd updates)).
    destruct (String.eqb_spec (ModelStats.BatchID s) batchID) as [Heq|Hne];
      simpl in Hn, Hb, Hf, Ht, Ha, Hc, Hcr, Hin, Hout.
    + repeat (split; [done|]). split; [|done]. intros _.
      destruct (Hin Heq) as [-> ->]. lia.
    + repeat (split; [done|]). exact Hout.
Qed.

End CounterFacts.

(* ===================================================================== *)
(** * The local embedder *)
(* ===================================================================== *)

Module VectorFacts.
Import GoString Embedding Notions EmbeddingFacts.

(** ** Any arithmetic: the length of an embedding *)

Section AnyArithmetic.
Context {U : Unicode} {F : Type} {FO : FloatOps F}.

Lemma bump_length (vec : list F) idx w :
  List.length (bump vec idx w) = List.length vec.
Proof. unfold bump. apply length_alter. Qed.

Lemma features_length {A} (step : list F -> A -> list F) (items : list A) :
  (forall v a, List.length (step v a) = List.length v) ->
  forall vec, List.length (fold_left step items vec) = List.length vec.
Proof.
  intros Hstep. induction items as [|a items IH]; intros vec; simpl; [done|].
  by rewrite IH, Hstep.
Qed.

Lemma normalize_length (vec : list F) :
  List.length (normalize vec) = List.length vec.
Proof.
  unfold normalize. destruct (fis_zero _); [done|]. apply length_map.
Qed.

(** X8.  [Embed] returns a vector of [dimension] components whatever the
    text and the arithmetic, 256 for the embedder [NewLocalEmbedder] makes;
    so [Similarity] never takes its branch for vectors of different lengths
    on two embeddings. *)
Theorem embedding_has_the_dimension_of_the_embedder (e : LocalEmbedder)
    (a b : string) :
  List.length (Embed e a) = Z.to_nat (dimension e) /\
  List.length (Embed NewLocalEmbedder a) = 256%nat /\
  (List.length (Embed e a) =? List.length (Embed e b))%nat = true.
Proof.
  assert (Hlen : forall e t, List.length (Embed e t) = Z.to_nat (dimension e)).
  { intros e' t. unfold Embed. rewrite normalize_length.
    unfold ngram_features, word_features, char_features.
    rewrite !features_length.
    - apply length_replicate.
    - intros v [i r]. apply bump_length.
    - intros v [i w]. apply bump_length.
    - intros v i. apply bump_length. }
  split; [apply Hlen|]. split; [by rewrite Hlen|].
  rewrite !Hlen. apply Nat.eqb_refl.
Qed.

End AnyArithmetic.

(** ** Symmetry of [Similarity] *)

Section Commutative.
Context {F : Type} {FO : FloatOps F}.
Hypothesis fmul_comm : forall x y : F, fmul x y = fmul y x.

(** Exchanging the two vectors exchanges the two squared norms and keeps
    the dot product. *)
Lemma accumulate_swap (v1 : list F) : forall (v2 : list F) (dot n1 n2 : F),
  fold_left
    (fun '(dot, n1, n2) '(x, y) =>
       (fadd dot (fmul x y), fadd n1 (fmul x x), fadd n2 (fmul y y)))
    (zip v2 v1) (dot, n2, n1)
  = (let '(dot', n1', n2') :=
       fold_left
         (fun '(dot, n1, n2) '(x, y) =>
            (fadd dot (fmul x y), fadd n1 (fmul x x), fadd n2 (fmul y y)))
         (zip v1 v2) (dot, n1, n2) in
     (dot', n2', n1')).
Proof.
  induction v1 as [|x v1 IH]; intros [|y v2] dot n1 n2; try done.
  cbn [zip zip_with fold_left]. rewrite (fmul_comm y x). apply IH.
Qed.

Lemma Similarity_swap (e : LocalEmbedder) (v1 v2 : list F) :
  Similarity e v1 v2 = Similarity e v2 v1.
Proof.
  unfold Similarity. rewrite (Nat.eqb_sym (List.length v2)).
  destruct (negb _); [done|]. unfold accumulate.
  rewrite (accumulate_swap v1 v2 fzero fzero fzero).
  destruct (fold_left _ (zip v1 v2) _) as [[dot n1] n2].
  rewrite (orb_comm (fis_zero n2)). destruct (_ || _); [done|].
  by rewrite (fmul_comm (fsqrt n2)).
Qed.

End Commutative.

(** The product of two binary64 numbers does not depend on their
    order. *)
Lemma SFmul_comm (prec emax : Z) (x y : SpecFloat.spec_float) :
  SpecFloat.SFmul prec emax x y = SpecFloat.SFmul prec emax y x.
Proof.
  destruct x as [sx|sx| |sx mx ex], y as [sy|sy| |sy my ey]; simpl;
    try reflexivity; rewrite ?(xorb_comm sy sx); try reflexivity.
  by rewrite (Pos.mul_comm my mx), (Z.add_comm ey ex).
Qed.

Lemma binary64_mul_comm (x y : PrimFloat.float) :
  PrimFloat.mul x y = PrimFloat.mul y x.
Proof.
  rewrite <- (FloatAxioms.SF2Prim_Prim2SF (PrimFloat.mul x y)),
          <- (FloatAxioms.SF2Prim_Prim2SF (PrimFloat.mul y x)).
  rewrite !FloatAxioms.mul_spec. unfold FloatAxioms.SF64mul.
  by rewrite SFmul_comm.
Qed.

(** X10.  In binary64 arithmetic, with every rounding of the program,
    [Similarity] is symmetric: it returns the same number for [v1, v2] and
    for [v2, v1], whatever the vectors hold and whether their lengths agree
    or not; so it is for two embeddings. *)
Theorem similarity_is_symmetric_in_binary64 {U : Unicode}
    (e : LocalEmbedder) :
  (forall v1 v2 : list PrimFloat.float,
     Similarity (FO := Binary64Ops) e v1 v2
     = Similarity (FO := Binary64Ops) e v2 v1) /\
  (forall a b : string,
     Similarity (FO := Binary64Ops) e
       (Embed (FO := Binary64Ops) e a) (Embed (FO := Binary64Ops) e b)
     = Similarity (FO := Binary64Ops) e
         (Embed (FO := Binary64Ops) e b) (Embed (FO := Binary64Ops) e a)).
Proof.
  assert (Hswap : forall v1 v2 : list PrimFloat.float,
     Similarity (FO := Binary64Ops) e v1 v2
     = Similarity (FO := Binary64Ops) e v2 v1).
  { intros v1 v2. apply (Similarity_swap (FO := Binary64Ops)).
    intros x y. apply binary64_mul_comm. }
  split; [exact Hswap|]. intros a b. apply Hswap.
Qed.

End VectorFacts.

(* ===================================================================== *)
(** * The tiers of the memory *)
(* ===================================================================== *)

Module TierFacts.
Import Storage Memory GoString GoStrings ModelFacts MemoryFacts QueryFacts.

Section Tiers.
Context {U : Unicode} {RT : Runtime} {E : Embedder}.

Lemma GetMatchingRules_nil (d : Database) filename keywords ext :
  learned_rules d = [] -> GetMatchingRules d filename keywords ext = [].
Proof.
  intros Hr. unfold GetMatchingRules. rewrite Hr. simpl.
  assert (Hk : concat (map (fun kw : string =>
                 if len kw <? 2 then [] else @nil Rule.t) keywords) = []).
  { induction keywords as [|kw kws IH]; [done|]. simpl. rewrite IH.
    by destruct (len kw <? 2). }
  destruct (String.eqb _ _); simpl; unfold Sql.limit, Sql.order_by; simpl;
    by rewrite Hk.
Qed.

Lemma matchVectors_nil cfg (d : Database) filename :
  vectors d = [] -> matchVectors cfg d filename = None.
Proof.
  intros Hv. unfold matchVectors.
  destruct (GetCandidateCategories _ _ _) as [|c cs].
  - unfold SearchVectorsByExtension. simpl. unfold SearchVectors.
    by rewrite Hv.
  - unfold SearchVectorsByCategories. by rewrite Hv.
Qed.

Lemma GetSimilarClassifications_nil (d : Database) keywords limit :
  (forall r, r ∈ classification_history d -> History.UserConfirmed r = false) ->
  GetSimilarClassifications d keywords limit = [].
Proof.
  intros Hc. unfold GetSimilarClassifications.
  destruct keywords as [|kw kws]; [done|].
  destruct (map _ _) as [|a args]; [done|].
  rewrite RuleFacts.filter_none.
  { unfold Sql.limit, Sql.order_by. simpl. destruct (limit <? 0); [done | apply take_nil]. }
  intros r Hr [Hconf _]. rewrite (Hc r Hr) in Hconf. discriminate.
Qed.

Lemma Query_of_empty_memory (cfg : Config.t) (d : Database) :
  learned_rules d = [] -> vectors d = [] ->
  (forall r, r ∈ classification_history d -> History.UserConfirmed r = false) ->
  forall filename, Query cfg d filename = None.
Proof.
  intros Hrules Hvectors Hhistory filename.
  assert (Hr : matchRules cfg d filename = None).
  { unfold matchRules. by rewrite GetMatchingRules_nil. }
  assert (Hh : matchHistory cfg d filename = None).
  { unfold matchHistory. destruct (extractKeywords filename); [done|].
    by rewrite GetSimilarClassifications_nil. }
  unfold Query. by rewrite Hr, matchVectors_nil, Hh.
Qed.

(** X11.  A store without rules, vectors and confirmed history rows answers
    no query:  [Classify] then queues every file that is not a directory for
    the model. *)
Theorem untrained_store_sends_every_file_to_the_model (cfg : Config.t)
    (d : Database)
    (Hrules : learned_rules d = [])
    (Hvectors : vectors d = [])
    (Hhistory : forall r, r ∈ classification_history d ->
                  History.UserConfirmed r = false) :
  (forall filename, Query cfg d filename = None) /\
  forall (c : Classifier.t) (files : list Scanner.FileInfo),
    Classifier.db c = d -> Classifier.cfg c = cfg ->
    Classifier.memory_phase c files
    = ([], filter (fun f => Scanner.IsDir f = false) files).
Proof.
  pose proof (Query_of_empty_memory cfg d Hrules Hvectors Hhistory) as Hq.
  split; [exact Hq|].
  intros c files Hd Hc. induction files as [|f files IH]; [done|].
  simpl. rewrite IH, filter_cons.
  destruct (Scanner.IsDir f) eqn:Hdir.
  - by destruct (decide (true = false)).
  - destruct (decide (false = false)); [|done].
    by rewrite Hd, Hc, Hq.
Qed.

(** X12.  [filenameSimilarity] is the Jaccard index of the two word sets: in
    [0, 1], symmetric, 1 on names with the same words (when there is one), 0
    on names without a common word. *)
Theorem filename_similarity_is_a_jaccard_index (n1 n2 : string) :
  (0 <= filenameSimilarity n1 n2 <= 1)%Q /\
  filenameSimilarity n1 n2 = filenameSimilarity n2 n1 /\
  (word_set n1 = word_set n2 -> word_set n1 <> ∅ ->
   (filenameSimilarity n1 n2 == 1)%Q) /\
  (word_set n1 ∩ word_set n2 = ∅ -> (filenameSimilarity n1 n2 == 0)%Q).
Proof.
  split; [apply filenameSimilarity_bounds|]. split; [|split].
  - unfold filenameSimilarity.
    rewrite (orb_comm (size (word_set n2) =? 0)%nat).
    destruct (_ || _); [done|].
    rewrite (comm_L (∩) (word_set n2)). f_equal. f_equal. lia.
  - intros Heq Hne. unfold filenameSimilarity. rewrite <- Heq.
    assert (Hs : size (word_set n1) <> 0%nat).
    { intros Hz. by apply size_empty_iff, leibniz_equiv in Hz. }
    apply Nat.eqb_neq in Hs as Hb. rewrite Hb. simpl.
    rewrite (idemp_L (∩)).
    replace (Z.of_nat (size (word_set n1)) + Z.of_nat (size (word_set n1))
             - Z.of_nat (size (word_set n1)))
      with (Z.of_nat (size (word_set n1))) by lia.
    unfold Qdiv. apply Qmult_inv_r. unfold Qeq. simpl. lia.
  - intros Hdisj. unfold filenameSimilarity. destruct (_ || _); [reflexivity|].
    rewrite Hdisj, size_empty. simpl. unfold Qdiv. apply Qmult_0_l.
Qed.

(** X13.  The confidence of a rule match is [min 0.95 (0.6 + 0.007 * hits)]
    of the first matching rule.  With the default threshold of 0.85 the rule
    tier therefore answers exactly when that rule has 36 hits or more. *)
Theorem rule_match_reaches_the_default_threshold_at_36_hits (cfg : Config.t)
    (d : Database) (filename : string) (m : Match)
    (Hm : matchRules cfg d filename = Some m) :
  exists best rest,
    GetMatchingRules d filename (extractKeywords filename)
      (ToLower (Filepath.Ext filename)) = best :: rest /\
    Category m = Rule.Category best /\
    Subcategory m = Rule.Subcategory best /\
    (Confidence m ==
     Qmin (95 # 100) ((6 # 10) + (7 # 1000) * inject_Z (Rule.HitCount best)))%Q /\
    (reaches Config.defaultConfig m = true <-> 36 <= Rule.HitCount best).
Proof.
  unfold matchRules in Hm.
  destruct (GetMatchingRules _ _ _ _) as [|best rest] eqn:Hr; [done|].
  injection Hm as <-. exists best, rest. simpl.
  split; [done|]. split; [done|]. split; [done|].
  set (h := Rule.HitCount best).
  set (conf := ((6 # 10) + inject_Z h / 50 * (35 # 100))%Q).
  assert (Hconf : (conf == inject_Z (600 + 7 * h) / 1000)%Q).
  { subst conf. rewrite inject_Z_plus, inject_Z_mult. field. }
  assert (Hcmp : forall k : Z, (k # 1000 <= conf)%Q <-> k <= 600 + 7 * h).
  { intros k. rewrite Hconf. unfold Qdiv, Qle. simpl. lia. }
  assert (Hcmp' : forall k : Z, (conf <= k # 1000)%Q <-> 600 + 7 * h <= k).
  { intros k. rewrite Hconf. unfold Qdiv, Qle. simpl. lia. }
  split.
  - assert (Heq : ((6 # 10) + (7 # 1000) * inject_Z h == conf)%Q).
    { subst conf. field. }
    rewrite Heq.
    destruct (Qltb (95 # 100) conf) eqn:Hc.
    + apply Qltb_true in Hc. symmetry. apply Q.min_l. by apply Qlt_le_weak.
    + apply Qltb_false in Hc. symmetry. by apply Q.min_r.
  - unfold reaches. simpl. rewrite Qle_bool_iff.
    destruct (Qltb (95 # 100) conf) eqn:Hc.
    + apply Qltb_true in Hc.
      assert (Hlt : 950 < 600 + 7 * h).
      { destruct (Z_lt_dec 950 (600 + 7 * h)) as [|Hn]; [done|].
        exfalso. apply (Qlt_not_le _ _ Hc).
        assert (95 # 100 == 950 # 1000)%Q as -> by reflexivity.
        apply Hcmp'. lia. }
      split; [intros _; lia | intros _; discriminate].
    + assert (85 # 100 == 850 # 1000)%Q as -> by reflexivity.
      rewrite Hcmp. lia.
Qed.

(** X14.  Two tiers cannot answer above their ceilings: the rule tier when
    the threshold is above 0.95, the history tier when it is above 0.9.
    With a threshold above 0.95 a match of [Query] is a vector match. *)
Theorem rule_and_history_tiers_have_ceilings (cfg : Config.t) (d : Database)
    (filename : string) :
  ((95 # 100 < Config.SimilarityThreshold cfg)%Q ->
   accepted cfg (matchRules cfg d filename) = None) /\
  ((9 # 10 < Config.SimilarityThreshold cfg)%Q ->
   accepted cfg (matchHistory cfg d filename) = None) /\
  ((95 # 100 < Config.SimilarityThreshold cfg)%Q ->
   forall m, Query cfg d filename = Some m -> Source m = "vector").
Proof.
  assert (Hrule : (95 # 100 < Config.SimilarityThreshold cfg)%Q ->
                  accepted cfg (matchRules cfg d filename) = None).
  { intros Hth. destruct (accepted _ _) as [m|] eqn:Ha; [|done].
    apply accepted_Some in Ha as [Hm Hle].
    apply matchRules_Some in Hm as (_ & Hc & _).
    exfalso. apply (Qlt_not_le _ _ Hth). by eapply Qle_trans. }
  assert (Hhist : (9 # 10 < Config.SimilarityThreshold cfg)%Q ->
                  accepted cfg (matchHistory cfg d filename) = None).
  { intros Hth.
    destruct (accepted cfg (matchHistory cfg d filename)) as [m|] eqn:Ha; [|done].
    apply accepted_Some in Ha as [Hm Hle].
    apply matchHistory_Some in Hm as (_ & _ & Hc).
    exfalso. apply (Qlt_not_le _ _ Hth). by eapply Qle_trans. }
  split; [exact Hrule|]. split; [exact Hhist|].
  intros Hth m Hq. apply Query_tier in Hq as [Hle [H1|[[_ H2]|(_ & _ & H3)]]].
  - apply matchRules_Some in H1 as (_ & Hc & _). exfalso.
    apply (Qlt_not_le _ _ Hth). by eapply Qle_trans.
  - by apply matchVectors_Some in H2 as [? _].
  - apply matchHistory_Some in H3 as (_ & _ & Hc). exfalso.
    apply (Qlt_not_le _ _ Hth). eapply Qle_trans; [exact Hle|].
    eapply Qle_trans; [exact Hc | discriminate].
Qed.

End Tiers.
End TierFacts.

(* ===================================================================== *)
(** * What the memory learns *)
(* ===================================================================== *)

Module LearnFacts.
Import Storage Memory GoString GoStrings Growth QueryFacts RuleQueryFacts.

Section Learning.
Context {U : Unicode} {RT : Runtime} {E : Embedder}.

Lemma rules_grow_refl P (d : Database) : rules_grow P d d.
Proof.
  split; [done|]. split; [|split; [|done]].
  - intros i r Hr. exists r. split; [done|]. repeat split; lia.
  - intros i r' Hi Hr'. apply lookup_lt_Some in Hr'. lia.
Qed.

Lemma rules_grow_trans P (d d1 d2 : Database) :
  rules_grow P d d1 -> rules_grow P d1 d2 -> rules_grow P d d2.
Proof.
  intros (Ht1 & Hp1 & Hn1 & Hu1) (Ht2 & Hp2 & Hn2 & Hu2).
  split; [|split; [|split]].
  - destruct Ht2 as (-> & -> & -> & -> & -> & -> & -> & ->).
    destruct Ht1 as (-> & -> & -> & -> & -> & -> & -> & ->). done.
  - intros i r Hr. destruct (Hp1 i r Hr) as (r1 & Hr1 & ? & ? & ? & ? & ? & ? & ?).
    destruct (Hp2 i r1 Hr1) as (r2 & Hr2 & ? & ? & ? & ? & ? & ? & ?).
    exists r2. split; [done|]. repeat split; try congruence; lia.
  - intros i r2 Hi Hr2.
    destruct (learned_rules d1 !! i) as [r1|] eqn:Hr1.
    + destruct (Hp2 i r1 Hr1) as (r2' & Hr2' & _ & E1 & E2 & E3 & E4 & Hh & _).
      rewrite Hr2 in Hr2'. injection Hr2' as <-.
      destruct (Hn1 i r1 Hi Hr1) as [HP Hhit].
      rewrite E1, E2, E3, E4. split; [done | lia].
    + apply (Hn2 i); [by apply lookup_ge_None | done].
  - auto.
Qed.

(** One call of [AddOrUpdateRule] is a step of growth. *)
Lemma AddOrUpdateRule_grows (P : string -> string -> string -> string -> Prop)
    (d : Database) pattern patternType category subcategory priority :
  P (ToLower pattern) patternType category subcategory ->
  rules_grow P d
    (AddOrUpdateRule d pattern patternType category subcategory priority).
Proof.
  intros HP. split; [apply AddOrUpdateRule_other_tables|].
  split; [|split].
  - unfold AddOrUpdateRule.
    set (hit := rule_key (ToLower pattern) patternType category).
    set (f := fun r => if hit r then bump_rule (now d) priority r else r).
    assert (Hrow : forall i r, learned_rules d !! i = Some r ->
       exists r', map f (learned_rules d) !! i = Some r' /\
         Rule.ID r' = Rule.ID r /\ Rule.Pattern r' = Rule.Pattern r /\
         Rule.PatternType r' = Rule.PatternType r /\
         Rule.Category r' = Rule.Category r /\
         Rule.Subcategory r' = Rule.Subcategory r /\
         Rule.HitCount r <= Rule.HitCount r' /\
         Rule.Priority r <= Rule.Priority r').
    { intros i r Hr. exists (f r). split.
      { change (map f (learned_rules d)) with (f <$> learned_rules d).
        by rewrite list_lookup_fmap, Hr. }
      unfold f. destruct (hit r); simpl; repeat split; lia. }
    destruct (_ =? _)%nat; simpl; [|exact Hrow].
    intros i r Hr. destruct (Hrow i r Hr) as (r' & Hr' & ?).
    exists r'. split; [|done]. by apply lookup_app_l_Some.
  - unfold AddOrUpdateRule. destruct (_ =? _)%nat; simpl.
    + intros i r' Hi Hr'.
      rewrite lookup_app_r in Hr' by (by rewrite length_map).
      rewrite length_map in Hr'.
      destruct (i - List.length (learned_rules d))%nat; [|done].
      injection Hr' as <-. simpl. split; [done | lia].
    + intros i r' Hi Hr'. apply lookup_lt_Some in Hr'.
      rewrite length_map in Hr'. lia.
  - intros Hu.
    by destruct (AddOrUpdateRule_rows d pattern patternType category subcategory
                   priority Hu) as [? _].
Qed.

(** A loop that calls [AddOrUpdateRule] for some of its items. *)
Lemma rule_loop_grows {A} (P : string -> string -> string -> string -> Prop)
    (step : Database -> A -> Database) (items : list A) :
  (forall d a, rules_grow P d (step d a)) ->
  forall d, rules_grow P d (fold_left step items d).
Proof.
  intros Hstep. induction items as [|a items IH]; intros d; simpl.
  - apply rules_grow_refl.
  - eapply rules_grow_trans; [apply Hstep | apply IH].
Qed.

Lemma learnRules_grows (d : Database) filename category subcategory :
  rules_grow
    (fun pattern patternType cat sub =>
       cat = category /\ sub = subcategory /\
       ((patternType = "extension" /\
         pattern = ToLower (ToLower (Filepath.Ext filename))) \/
        (patternType = "keyword" /\
         exists kw, kw ∈ extractKeywords filename /\
           pattern = ToLower (ToLower kw))))
    d (learnRules d filename category subcategory).
Proof.
  unfold learnRules.
  set (d0 := if String.eqb (ToLower (Filepath.Ext filename)) EmptyString then d
             else AddOrUpdateRule d (ToLower (Filepath.Ext filename)) "extension"
                    category subcategory 5).
  eapply (rules_grow_trans _ d d0).
  { subst d0. destruct (String.eqb _ _); [apply rules_grow_refl|].
    apply AddOrUpdateRule_grows. split; [done|]. split; [done|]. by left. }
  clearbody d0.
  assert (Hloop : forall kws,
    (forall kw, kw ∈ kws -> kw ∈ extractKeywords filename) ->
    forall d0,
      rules_grow
        (fun pattern patternType cat sub =>
           cat = category /\ sub = subcategory /\
           ((patternType = "extension" /\
             pattern = ToLower (ToLower (Filepath.Ext filename))) \/
            (patternType = "keyword" /\
             exists kw, kw ∈ extractKeywords filename /\
               pattern = ToLower (ToLower kw))))
        d0
        (fold_left
           (fun db kw =>
              if MinKeywordLength <=? len kw
              then AddOrUpdateRule db (ToLower kw) "keyword" category subcategory 10
              else db)
           kws d0)).
  { clear d0. intros kws Hkws.
    induction kws as [|kw kws IH]; intros d0; simpl; [apply rules_grow_refl|].
    eapply rules_grow_trans; [|apply IH; intros ? ?; apply Hkws; by right].
    destruct (MinKeywordLength <=? len kw); [|apply rules_grow_refl].
    apply AddOrUpdateRule_grows. split; [done|]. split; [done|]. right.
    split; [done|]. exists kw. split; [apply Hkws; by left | done]. }
  by apply Hloop.
Qed.

(** X15.  [Learn] appends one history row and one vector row, whatever the
    labels and the source are.  It leaves feedback, operation logs and model
    statistics alone.  Without confirmation it leaves the rules alone too;
    with it, the rules grow: no rule is lost or relabelled, the key stays
    unique, and a rule that is added is the extension rule or a keyword rule
    of the file name, with the labels learned. *)
Theorem learn_appends_history_and_vector_and_grows_rules (d : Database)
    (filename category subcategory source : string) (confidence : Q)
    (userConfirmed : bool) :
  let d' := Learn d filename category subcategory source confidence
              userConfirmed in
  classification_history d'
  = classification_history d ++
    [{| History.ID := history_seq d + 1; History.Filename := filename;
        History.Extension := ToLower (Filepath.Ext filename);
        History.Category := category; History.Subcategory := subcategory;
        History.Confidence := confidence;
        History.Keywords := extractKeywords filename;
        History.UserConfirmed := userConfirmed;
        History.Source := source; History.CreatedAt := now d |}] /\
  vectors d'
  = vectors d ++
    [{| Vector.Filename := filename; Vector.Category := category;
        Vector.Subcategory := subcategory; Vector.Vector := Embed filename;
        Vector.CreatedAt := now d |}] /\
  user_feedback d' = user_feedback d /\
  operation_logs d' = operation_logs d /\
  model_stats d' = model_stats d /\
  (userConfirmed = false -> learned_rules d' = learned_rules d) /\
  rules_grow
    (fun pattern patternType cat sub =>
       cat = category /\ sub = subcategory /\
       ((patternType = "extension" /\
         pattern = ToLower (ToLower (Filepath.Ext filename))) \/
        (patternType = "keyword" /\
         exists kw, kw ∈ extractKeywords filename /\
           pattern = ToLower (ToLower kw))))
    (SaveVector
       (fst (AddClassification d filename (ToLower (Filepath.Ext filename))
               category subcategory source confidence
               (extractKeywords filename) userConfirmed))
       filename category subcategory (Embed filename))
    d'.
Proof.
  intros d'. subst d'. unfold Learn.
  set (d1 := SaveVector _ _ _ _ _).
  destruct userConfirmed.
  - pose proof (learnRules_grows d1 filename category subcategory) as Hg.
    pose proof Hg as ((H1 & H2 & H3 & H4 & H5 & _) & _).
    rewrite H1, H2, H3, H4, H5. do 6 (split; [done|]). exact Hg.
  - do 6 (split; [done|]). apply rules_grow_refl.
Qed.

Lemma LearnFromCorrection_grows (d : Database)
    (filename origCat corrCat origSub corrSub : string) :
  rules_grow
    (fun pattern patternType cat sub =>
       patternType = "keyword" /\ cat = corrCat /\ sub = corrSub /\
       exists kw, kw ∈ extractKeywords filename /\ MinKeywordLength <= len kw /\
         pattern = ToLower (ToLower kw))
    (AddFeedback d filename origCat corrCat origSub corrSub)
    (LearnFromCorrection d filename origCat corrCat origSub corrSub).
Proof.
  unfold LearnFromCorrection.
  generalize (AddFeedback d filename origCat corrCat origSub corrSub).
  assert (Hloop : forall kws,
    (forall kw, kw ∈ kws -> kw ∈ extractKeywords filename) ->
    forall d0,
      rules_grow
        (fun pattern patternType cat sub =>
           patternType = "keyword" /\ cat = corrCat /\ sub = corrSub /\
           exists kw, kw ∈ extractKeywords filename /\
             MinKeywordLength <= len kw /\ pattern = ToLower (ToLower kw))
        d0
        (fold_left
           (fun db kw =>
              if MinKeywordLength <=? len kw
              then AddOrUpdateRule db (ToLower kw) "keyword" corrCat corrSub 20
              else db)
           kws d0)).
  { intros kws Hkws.
    induction kws as [|kw kws IH]; intros d0; simpl; [apply rules_grow_refl|].
    eapply rules_grow_trans; [|apply IH; intros ? ?; apply Hkws; by right].
    destruct (MinKeywordLength <=? len kw) eqn:Hlen; [|apply rules_grow_refl].
    apply Z.leb_le in Hlen.
    apply AddOrUpdateRule_grows. repeat (split; [done|]).
    exists kw. split; [apply Hkws; by left | done]. }
  by apply Hloop.
Qed.

(** X16.  [LearnFromCorrection] appends one feedback row and grows the rules
    by keyword rules with the corrected labels.  It writes no history row
    and no vector, and it does not remove or relabel the rules that were
    there: the rule behind the corrected answer keeps its labels and its
    hits. *)
Theorem correction_adds_rules_and_keeps_the_old_ones (d : Database)
    (filename origCat corrCat origSub corrSub : string) :
  let d' := LearnFromCorrection d filename origCat corrCat origSub corrSub in
  user_feedback d'
  = user_feedback d ++
    [{| Feedback.Filename := filename; Feedback.OriginalCategory := origCat;
        Feedback.CorrectedCategory := corrCat;
        Feedback.OriginalSubcategory := origSub;
        Feedback.CorrectedSubcategory := corrSub |}] /\
  classification_history d' = classification_history d /\
  vectors d' = vectors d /\
  operation_logs d' = operation_logs d /\
  model_stats d' = model_stats d /\
  rules_grow
    (fun pattern patternType cat sub =>
       patternType = "keyword" /\ cat = corrCat /\ sub = corrSub /\
       exists kw, kw ∈ extractKeywords filename /\ MinKeywordLength <= len kw /\
         pattern = ToLower (ToLower kw))
    (AddFeedback d filename origCat corrCat origSub corrSub) d'.
Proof.
  intros d'. subst d'.
  pose proof (LearnFromCorrection_grows d filename origCat corrCat origSub corrSub)
    as Hg.
  pose proof Hg as ((H1 & H2 & H3 & H4 & H5 & _) & _).
  rewrite H1, H2, H3, H4, H5. do 5 (split; [done|]). exact Hg.
Qed.

End Learning.
End LearnFacts.

(* ===================================================================== *)
(** * What classification and feedback write *)
(* ===================================================================== *)

Module EffectFacts.
Import Storage Classifier GoString GoStrings Notions Growth.
Import QueryFacts OrderFacts ClassifierFacts LearnFacts.

Lemma filter_all {A} (P : A -> Prop) `{forall x, Decision (P x)} (l : list A) :
  (forall x, x ∈ l -> P x) -> filter P l = l.
Proof.
  induction l as [|x l IH]; intros Hall; [done|].
  rewrite filter_cons. destruct (decide (P x)) as [_|Hn].
  - f_equal. apply IH. intros y Hy. apply Hall. by right.
  - exfalso. apply Hn, Hall. by left.
Qed.

(** ** The answers of the model *)

(** X17.  The answers of the model are matched with the files of the batch
    by position: answer [j] labels file [j], whatever file name the answer
    carries; answers beyond the batch are dropped; an answer that is not an
    object leaves its file without a result.  Labels that are missing or of
    the wrong type get the defaults. *)
Theorem model_answers_are_matched_by_position (batch : list Scanner.FileInfo)
    (classifications : list Json.value) :
  let results := parsed_results batch classifications in
  (List.length results <= List.length batch)%nat /\
  (List.length results <= List.length classifications)%nat /\
  (forall r, r ∈ results ->
     exists j f clsMap,
       batch !! j = Some f /\ classifications !! j = Some (Json.Object clsMap) /\
       FileInfo r = f /\ Source r = "llm" /\
       Category r = getString clsMap "category" "未分类" /\
       Subcategory r = getString clsMap "subcategory" "其他" /\
       Confidence r = getFloat clsMap "confidence" (1 # 2) /\
       Reasoning r = getString clsMap "reasoning" EmptyString /\
       Keywords r = getStringSlice clsMap "keywords") /\
  ((forall cls, cls ∈ classifications -> exists clsMap, cls = Json.Object clsMap) ->
   map FileInfo results = take (List.length classifications) batch).
Proof.
  intros results. subst results. revert classifications.
  induction batch as [|f batch IH]; intros [|cls classifications]; simpl.
  - split; [lia|]. split; [lia|]. split; [|done].
    intros r Hr. by apply not_elem_of_nil in Hr.
  - split; [lia|]. split; [lia|]. split; [|done].
    intros r Hr. by apply not_elem_of_nil in Hr.
  - split; [lia|]. split; [lia|]. split; [|done].
    intros r Hr. by apply not_elem_of_nil in Hr.
  - destruct (IH classifications) as (H1 & H2 & H3 & H4).
    assert (Hrest : forall r, r ∈ parsed_results batch classifications ->
      exists j f0 clsMap,
        (f :: batch) !! j = Some f0 /\
        (cls :: classifications) !! j = Some (Json.Object clsMap) /\
        FileInfo r = f0 /\ Source r = "llm" /\
        Category r = getString clsMap "category" "未分类" /\
        Subcategory r = getString clsMap "subcategory" "其他" /\
        Confidence r = getFloat clsMap "confidence" (1 # 2) /\
        Reasoning r = getString clsMap "reasoning" EmptyString /\
        Keywords r = getStringSlice clsMap "keywords").
    { intros r Hr. destruct (H3 r Hr) as (j & f0 & clsMap & ?).
      by exists (S j), f0, clsMap. }
    destruct cls as [| | | | |clsMap]; simpl;
      try (split; [lia|]; split; [lia|]; split; [exact Hrest|];
           intros Hobj; exfalso;
           destruct (Hobj _ ltac:(by left)) as [? ?]; discriminate).
    split; [lia|]. split; [lia|]. split.
    + intros r Hr. apply elem_of_cons in Hr as [->|Hr]; [|by apply Hrest].
      by exists 0%nat, f, clsMap.
    + intros Hobj. f_equal. apply H4. intros c Hc'. apply Hobj. by right.
Qed.

Section Effects.
Context {U : Unicode} {RT : Runtime} {E : Embedder} {L : Llm.Client}.

(** ** What [Classify] writes *)

Lemma learn_results_rows (llmResults : list Result) : forall d,
  let d' := learn_results d llmResults in
  learned_rules d' = learned_rules d /\
  user_feedback d' = user_feedback d /\
  operation_logs d' = operation_logs d /\
  model_stats d' = model_stats d /\
  map (fun h => (History.Filename h, History.Category h, History.Subcategory h,
                 History.Confidence h, History.Source h, History.UserConfirmed h))
      (classification_history d')
  = map (fun h => (History.Filename h, History.Category h, History.Subcategory h,
                   History.Confidence h, History.Source h, History.UserConfirmed h))
        (classification_history d)
    ++ map (fun r => (Scanner.Name (FileInfo r), Category r, Subcategory r,
                      Confidence r, "llm", false)) llmResults /\
  map (fun v => (Vector.Filename v, Vector.Category v, Vector.Subcategory v,
                 Vector.Vector v)) (vectors d')
  = map (fun v => (Vector.Filename v, Vector.Category v, Vector.Subcategory v,
                   Vector.Vector v)) (vectors d)
    ++ map (fun r => (Scanner.Name (FileInfo r), Category r, Subcategory r,
                      Embed (Scanner.Name (FileInfo r)))) llmResults.
Proof.
  induction llmResults as [|r l IH]; intros d; cbv zeta.
  - unfold learn_results. simpl. by rewrite !app_nil_r.
  - change (learn_results d (r :: l))
      with (learn_results
              (Memory.Learn d (Scanner.Name (FileInfo r)) (Category r)
                 (Subcategory r) "llm" (Confidence r) false) l).
    destruct (IH (Memory.Learn d (Scanner.Name (FileInfo r)) (Category r)
                    (Subcategory r) "llm" (Confidence r) false))
      as (-> & -> & -> & -> & -> & ->).
    unfold Memory.Learn. simpl. rewrite !map_app. simpl.
    by rewrite <- !app_assoc.
Qed.

(** X18.  [Classify] leaves the rules, the feedback, the operation logs and
    the model statistics as they are, and with learning off the whole
    database.  With learning on it appends to the history and to the vectors
    one row per result that did not come from memory, failed ones included,
    each as an unconfirmed answer of source [llm]. *)
Theorem classify_writes_one_unconfirmed_row_per_model_result (c : Classifier.t)
    (files : list Scanner.FileInfo) (elapsed : Z) (c' : Classifier.t)
    (results : list Result)
    (Hc : Classify c files elapsed = Some (c', results)) :
  cfg c' = cfg c /\ batchID c' = batchID c /\
  learned_rules (db c') = learned_rules (db c) /\
  user_feedback (db c') = user_feedback (db c) /\
  operation_logs (db c') = operation_logs (db c) /\
  model_stats (db c') = model_stats (db c) /\
  (Config.EnableLearning (cfg c) = false -> db c' = db c) /\
  exists llmResults,
    Permutation (filter (fun r => Source r <> "memory") results) llmResults /\
    (Config.EnableLearning (cfg c) = true ->
     map (fun h => (History.Filename h, History.Category h,
                    History.Subcategory h, History.Confidence h,
                    History.Source h, History.UserConfirmed h))
         (classification_history (db c'))
     = map (fun h => (History.Filename h, History.Category h,
                      History.Subcategory h, History.Confidence h,
                      History.Source h, History.UserConfirmed h))
           (classification_history (db c))
       ++ map (fun r => (Scanner.Name (FileInfo r), Category r, Subcategory r,
                         Confidence r, "llm", false)) llmResults /\
     map (fun v => (Vector.Filename v, Vector.Category v, Vector.Subcategory v,
                    Vector.Vector v)) (vectors (db c'))
     = map (fun v => (Vector.Filename v, Vector.Category v,
                      Vector.Subcategory v, Vector.Vector v)) (vectors (db c))
       ++ map (fun r => (Scanner.Name (FileInfo r), Category r, Subcategory r,
                         Embed (Scanner.Name (FileInfo r)))) llmResults).
Proof.
  unfold Classify in Hc.
  destruct (memory_phase c files) as [mem need] eqn:Hphase.
  assert (Hmem : filter (fun r => Source r <> "memory") mem = []).
  { apply RuleFacts.filter_none. intros r Hr Hs.
    destruct (memory_phase_results _ _ _ _ Hphase r Hr) as (m & _ & Hrm).
    apply Hs. by rewrite Hrm. }
  destruct need as [|f need].
  - injection Hc as <- <-. repeat (split; [done|]). exists [].
    split; [|intros _; by rewrite !app_nil_r].
    rewrite (SortFacts.sort_perm _ (mem ++ [])), app_nil_r. by rewrite Hmem.
  - destruct (classifyWithLLM c (f :: need) _) as [llm|] eqn:Hllm; [|done].
    injection Hc as <- <-. simpl.
    pose proof (learn_results_rows llm (db c)) as (Hr & Hf & Hl & Hs & Hh & Hv).
    assert (Hsrc : filter (fun r => Source r <> "memory") llm = llm).
    { apply filter_all. intros r Hr'. unfold classifyWithLLM in Hllm.
      destruct (batch_loop_elem _ _ _ _ _ _ _ _ Hllm r Hr')
        as [Hin|(call & batch & Hb)]; [by apply not_elem_of_nil in Hin|].
      apply batch_results_elem in Hb
        as [(-> & _)|(? & ? & ? & _ & _ & _ & -> & _)]; discriminate. }
    destruct (Config.EnableLearning (cfg c)).
    + repeat (split; [done|]). exists llm. split; [|done].
      rewrite (SortFacts.sort_perm _ (mem ++ llm)), filter_app, Hmem, Hsrc. done.
    + repeat (split; [done|]). exists llm. split; [|done].
      rewrite (SortFacts.sort_perm _ (mem ++ llm)), filter_app, Hmem, Hsrc. done.
Qed.

(** X19.  When every call of the model fails, [classifyWithLLM] still
    returns one result for every file, in the order of the files: the
    default labels with confidence 0 and source [error]. *)
Theorem failing_model_gives_every_file_the_default_labels (c : Classifier.t)
    (files : list Scanner.FileInfo) (rules : list (string * string * string))
    (Hsize : 0 < Config.BatchSize (cfg c))
    (Hfail : forall call batch rules, exists err,
               Llm.ClassifyFiles call batch rules = Llm.Failed err) :
  exists results,
    classifyWithLLM c files rules = Some results /\
    map FileInfo results = files /\
    forall r, r ∈ results ->
      Source r = "error" /\ Category r = "未分类" /\ Subcategory r = "其他" /\
      Confidence r = (0 # 1)%Q.
Proof.
  unfold classifyWithLLM.
  destruct (batch_loop_total (S (List.length files)) (Config.BatchSize (cfg c))
              files rules 0%nat 0 []) as [results Hloop]; [done | done | simpl; lia |].
  exists results. split; [done|].
  assert (Hlen : forall call batch rules,
            List.length (batch_results call batch rules) = List.length batch).
  { intros call batch rules'. unfold batch_results.
    destruct (Hfail call
                (map (fun f => (Scanner.Name f, Scanner.Extension f, Scanner.Size f))
                     batch) rules') as [err ->].
    unfold error_results. apply length_map. }
  split.
  - destruct (batch_loop_sublist _ _ _ _ 0%nat 0 [] results ltac:(lia) Hloop)
      as (more & -> & Hsub & Hfull).
    simpl in *. rewrite drop_0 in *. apply sublist_same_length; [done|].
    rewrite length_map. by apply Hfull.
  - intros r Hr.
    destruct (batch_loop_elem _ _ _ _ _ _ _ _ Hloop r Hr)
      as [Hin|(call & batch & Hb)]; [by apply not_elem_of_nil in Hin|].
    apply batch_results_elem in Hb
      as [(? & ? & ? & ? & _)|(resp & ? & ? & Hcall & _)]; [done|].
    destruct (Hfail call
                (map (fun f => (Scanner.Name f, Scanner.Extension f, Scanner.Size f))
                     batch) rules) as [err Herr].
    congruence.
Qed.

(** X20.  [Confirm] and [Correct] report to the model statistics only for a
    result of source [llm]: a result from memory or a failed one changes no
    counter.  [Confirm] records the result as a confirmed history row under
    the source of the result; [Correct] writes no history row. *)
Theorem feedback_reaches_model_stats_only_for_llm_results (c : Classifier.t)
    (r : Result) (newCat newSub : string) :
  (Source r <> "llm" ->
   model_stats (db (Confirm c r)) = model_stats (db c) /\
   model_stats (db (Correct c r newCat newSub)) = model_stats (db c)) /\
  (Source r = "llm" ->
   model_stats (db (Confirm c r))
     = model_stats (UpdateModelAccuracy (db c) (batchID c) 1 0) /\
   model_stats (db (Correct c r newCat newSub))
     = model_stats (UpdateModelAccuracy (db c) (batchID c) 0 1)) /\
  (exists row,
     classification_history (db (Confirm c r))
       = classification_history (db c) ++ [row] /\
     History.Filename row = Scanner.Name (FileInfo r) /\
     History.Category row = Category r /\
     History.Subcategory row = Subcategory r /\
     History.Source row = Source r /\ History.UserConfirmed row = true) /\
  classification_history (db (Correct c r newCat newSub))
    = classification_history (db c) /\
  vectors (db (Correct c r newCat newSub)) = vectors (db c).
Proof.
  pose proof (learnRules_grows
                (SaveVector
                   (fst (AddClassification (db c) (Scanner.Name (FileInfo r))
                           (ToLower (Filepath.Ext (Scanner.Name (FileInfo r))))
                           (Category r) (Subcategory r) (Source r) (Confidence r)
                           (Memory.extractKeywords (Scanner.Name (FileInfo r)))
                           true))
                   (Scanner.Name (FileInfo r)) (Category r) (Subcategory r)
                   (Embed (Scanner.Name (FileInfo r))))
                (Scanner.Name (FileInfo r)) (Category r) (Subcategory r))
    as ((Hh & _ & _ & _ & Hs & _) & _).
  pose proof (LearnFromCorrection_grows (db c) (Scanner.Name (FileInfo r))
                (Category r) newCat (Subcategory r) newSub)
    as ((Hh' & Hv' & _ & _ & Hs' & _) & _).
  assert (Hlearn : forall src conf,
    Memory.Learn (db c) (Scanner.Name (FileInfo r)) (Category r) (Subcategory r)
      src conf true
    = Memory.learnRules
        (SaveVector
           (fst (AddClassification (db c) (Scanner.Name (FileInfo r))
                   (ToLower (Filepath.Ext (Scanner.Name (FileInfo r))))
                   (Category r) (Subcategory r) src conf
                   (Memory.extractKeywords (Scanner.Name (FileInfo r))) true))
           (Scanner.Name (FileInfo r)) (Category r) (Subcategory r)
           (Embed (Scanner.Name (FileInfo r))))
        (Scanner.Name (FileInfo r)) (Category r) (Subcategory r)) by done.
  unfold Confirm, Correct. rewrite Hlearn.
  split; [|split; [|split; [|split]]].
  - intros Hsrc. apply String.eqb_neq in Hsrc. rewrite Hsrc.
    unfold with_db. cbn [db]. by rewrite Hs, Hs'.
  - intros Hsrc. apply String.eqb_eq in Hsrc. rewrite Hsrc.
    unfold with_db, UpdateModelAccuracy. cbn [db model_stats set_model_stats].
    by rewrite Hs, Hs'.
  - eexists. split.
    { unfold with_db. cbn [db].
      destruct (String.eqb _ _); [unfold UpdateModelAccuracy; cbn [classification_history set_model_stats]|];
        rewrite Hh; reflexivity. }
    done.
  - unfold with_db. cbn [db].
    destruct (String.eqb _ _); [unfold UpdateModelAccuracy; cbn [classification_history set_model_stats]|];
      by rewrite Hh'.
  - unfold with_db. cbn [db].
    destruct (String.eqb _ _); [unfold UpdateModelAccuracy; cbn [vectors set_model_stats]|];
      by rewrite Hv'.
Qed.

End Effects.
End EffectFacts.

(* ===================================================================== *)
(** * Joined paths *)
(* ===================================================================== *)

Module PathFacts.
Import Filepath SearchFacts.

(** ** Bytes that are not the separator *)


Lemma append_cons (x : ascii) (a b : string) :
  String x a +:+ b = String x (a +:+ b).
Proof. reflexivity. Qed.














(** ** [filepath.Join] of a directory and a name *)



End PathFacts.

(* ===================================================================== *)
(** * Plans, moves and the review *)
(* ===================================================================== *)

Module PlanFacts.
Import Storage Organizer GoString GoStrings Growth.
Import QueryFacts SearchFacts LearnFacts EffectFacts PathFacts.

(** ** [GeneratePlan] *)

Lemma plan_loop_lookup (results : list Classifier.Result) (folder : string) :
  forall acc : gmap string (list Classifier.Result),
  fold_left
    (fun actions r =>
       <[folder_of r := default [] (actions !! folder_of r) ++ [r]]> actions)
    results acc !! folder
  = match filter (fun r => folder_of r = folder) results with
    | [] => acc !! folder
    | l => Some (default [] (acc !! folder) ++ l)
    end.
Proof.
  induction results as [|r results IH]; intros acc; [done|].
  cbn [fold_left]. rewrite IH, filter_cons.
  destruct (decide (folder_of r = folder)) as [Heq|Hne].
  - rewrite Heq, lookup_insert_eq. simpl.
    destruct (filter _ results) as [|r' l]; [done|].
    by rewrite <- app_assoc.
  - by rewrite lookup_insert_ne.
Qed.

(** X21.  [GeneratePlan] puts every result in the folder of its labels and
    in no other, and keeps the order of the results inside a folder; the
    plan has no empty folder.  The folder is [category/subcategory], or the
    category alone when the subcategory is empty, [其他] or [未知]. *)
Theorem generate_plan_groups_the_results_by_folder
    (results : list Classifier.Result) (targetDir : string) :
  let plan := GeneratePlan results targetDir in
  TargetDir plan = targetDir /\
  (forall folder,
     Actions plan !! folder
     = match filter (fun r => folder_of r = folder) results with
       | [] => None
       | l => Some l
       end) /\
  (forall r, r ∈ results ->
     exists l, Actions plan !! folder_of r = Some l /\ r ∈ l) /\
  (forall r,
     let sub := Classifier.Subcategory r in
     (sub = EmptyString \/ sub = "其他" \/ sub = "未知" ->
      folder_of r = Classifier.Category r) /\
     (sub <> EmptyString -> sub <> "其他" -> sub <> "未知" ->
      folder_of r = Filepath.Join [Classifier.Category r; sub])).
Proof.
  intros plan. subst plan.
  assert (Hlookup : forall folder,
     Actions (GeneratePlan results targetDir) !! folder
     = match filter (fun r => folder_of r = folder) results with
       | [] => None
       | l => Some l
       end).
  { intros folder. unfold GeneratePlan. cbn [Actions].
    rewrite plan_loop_lookup, lookup_empty. simpl.
    by destruct (filter _ results). }
  split; [done|]. split; [exact Hlookup|]. split.
  - intros r Hr. rewrite Hlookup.
    assert (Hin : r ∈ filter (fun r' => folder_of r' = folder_of r) results)
      by (by apply list_elem_of_filter).
    destruct (filter _ results) as [|r0 l]; [by apply not_elem_of_nil in Hin|].
    by eexists.
  - intros r sub. subst sub. unfold folder_of. split.
    + intros [-> | [-> | ->]]; done.
    + intros H1 H2 H3. apply String.eqb_neq in H1, H2, H3.
      by rewrite H1, H2, H3.
Qed.

(** ** [handleDuplicate] *)



(** ** [Execute] *)

Section Moves.
Context {U : Unicode} {RT : Runtime} {E : Embedder} {L : Llm.Client}
        {FL : Os.Faults}.

Lemma Confirm_keeps_the_logs (c : Classifier.t) (r : Classifier.Result) :
  operation_logs (Classifier.db (Classifier.Confirm c r))
  = operation_logs (Classifier.db c) /\
  logs_seq (Classifier.db (Classifier.Confirm c r)) = logs_seq (Classifier.db c).
Proof.
  unfold Classifier.Confirm, Classifier.with_db. cbn [Classifier.db].
  assert (Hl : forall src conf,
    operation_logs
      (Memory.Learn (Classifier.db c) (Scanner.Name (Classifier.FileInfo r))
         (Classifier.Category r) (Classifier.Subcategory r) src conf true)
    = operation_logs (Classifier.db c) /\
    logs_seq
      (Memory.Learn (Classifier.db c) (Scanner.Name (Classifier.FileInfo r))
         (Classifier.Category r) (Classifier.Subcategory r) src conf true)
    = logs_seq (Classifier.db c)).
  { intros src conf. unfold Memory.Learn.
    match goal with |- context [Memory.learnRules ?d1 ?f ?c ?s] =>
      pose proof (learnRules_grows d1 f c s)
        as ((_ & _ & _ & Hlog & _ & _ & Hseq & _) & _)
    end.
    by rewrite Hlog, Hseq. }
  destruct (String.eqb _ _); [unfold UpdateModelAccuracy;
    cbn [operation_logs logs_seq set_model_stats]|]; apply Hl.
Qed.

(** What one move adds to the log and to the counters. *)
Lemma move_is_logged batchID targetFolder (r : Classifier.Result) w w1 :
  move_file batchID targetFolder (Some w) r = Some w1 ->
  exists l,
    operation_logs (Classifier.db (clf w1))
      = operation_logs (Classifier.db (clf w)) ++ [l] /\
    (OperationLog.BatchID l, OperationLog.SourcePath l,
     OperationLog.Filename l, OperationLog.Category l,
     OperationLog.Subcategory l)
    = (batchID, Scanner.Path (Classifier.FileInfo r),
       Scanner.Name (Classifier.FileInfo r),
       Classifier.Category r, Classifier.Subcategory r) /\
    ((OperationLog.Status l = "success" /\
      Success (result w1) = Success (result w) + 1 /\
      Errors (result w1) = Errors (result w)) \/
     (OperationLog.Status l = "failed" /\
      Success (result w1) = Success (result w) /\
      Errors (result w1) = Errors (result w) + 1)).
Proof.
  unfold move_file.
  destruct (handleDuplicate (fs w) _) as [dst|]; [|done].
  pose proof (Confirm_keeps_the_logs (clf w) r) as [Hkeep _].
  revert Hkeep. generalize (Classifier.Confirm (clf w) r). intros c1 Hkeep.
  destruct (Os.Rename (fs w) _ dst) as [fs'|]; intros [= <-];
    cbn [clf result Success Errors]; unfold Classifier.with_db, AddOperationLog;
    cbn [Classifier.db]; unfold set_logs; cbn [operation_logs].
  - rewrite Hkeep. eexists. split; [done|]. split; [done|]. by left.
  - eexists. split; [done|]. split; [done|]. by right.
Qed.

Lemma moves_are_logged batchID targetFolder (results : list Classifier.Result) :
  forall w w',
  fold_left (move_file batchID targetFolder) results (Some w) = Some w' ->
  exists logs,
    operation_logs (Classifier.db (clf w'))
      = operation_logs (Classifier.db (clf w)) ++ logs /\
    map (fun l => (OperationLog.BatchID l, OperationLog.SourcePath l,
                   OperationLog.Filename l, OperationLog.Category l,
                   OperationLog.Subcategory l)) logs
    = map (fun r => (batchID, Scanner.Path (Classifier.FileInfo r),
                     Scanner.Name (Classifier.FileInfo r),
                     Classifier.Category r, Classifier.Subcategory r)) results /\
    Forall (fun l => OperationLog.Status l = "success" \/
                     OperationLog.Status l = "failed") logs /\
    Success (result w')
      = Success (result w)
        + Z.of_nat (List.length
                      (filter (fun l => OperationLog.Status l = "success") logs)) /\
    Errors (result w')
      = Errors (result w)
        + Z.of_nat (List.length
                      (filter (fun l => OperationLog.Status l = "failed") logs)).
Proof.
  induction results as [|r results IH]; intros w w'; cbn [fold_left].
  - intros [= <-]. exists []. rewrite app_nil_r. simpl.
    repeat split; [constructor | lia | lia].
  - destruct (move_file batchID targetFolder (Some w) r) as [w1|] eqn:Hmove.
    2:{ intros Hnone. exfalso. clear -Hnone.
        induction results as [|r' results IH]; [done | exact (IH Hnone)]. }
    intros Hrest.
    destruct (IH w1 w' Hrest) as (logs & Hlogs & Hmap & Hst & Hsu & Her).
    destruct (move_is_logged _ _ _ _ _ Hmove) as (l & Hl & Hfields & Hstatus).
    exists (l :: logs). rewrite Hlogs, Hl, <- app_assoc.
    split; [done|]. cbn [map]. rewrite Hmap, Hfields.
    split; [done|]. rewrite !filter_cons.
    destruct Hstatus as [(Hs & H1 & H2)|(Hs & H1 & H2)]; rewrite Hs.
    + split; [constructor; [by left | done]|].
      destruct (decide ("success" = "success")); [|done].
      destruct (decide ("success" = "failed")); [done|].
      cbn [List.length]. lia.
    + split; [constructor; [by right | done]|].
      destruct (decide ("failed" = "success")); [done|].
      destruct (decide ("failed" = "failed")); [|done].
      cbn [List.length]. lia.
Qed.

(** What the moves of a list of folders add to the log and to the
    counters. *)
Lemma folders_are_logged (plan : Plan) batchID
    (folders : list (string * list Classifier.Result)) :
  forall w0 w,
  fold_left
    (fun w '(folder, results) =>
       match w with
       | None => None
       | Some w =>
         let targetFolder := Filepath.Join [TargetDir plan; folder] in
         let fs' :=
           match Os.MkdirAll (fs w) targetFolder with
           | Some fs' => fs'
           | None => fs w
           end in
         fold_left (move_file batchID targetFolder) results
           (Some {| clf := clf w; fs := fs'; result := result w |})
       end)
    folders (Some w0) = Some w ->
  exists logs,
    operation_logs (Classifier.db (clf w))
      = operation_logs (Classifier.db (clf w0)) ++ logs /\
    map (fun l => (OperationLog.BatchID l, OperationLog.SourcePath l,
                   OperationLog.Filename l, OperationLog.Category l,
                   OperationLog.Subcategory l)) logs
    = map (fun r => (batchID, Scanner.Path (Classifier.FileInfo r),
                     Scanner.Name (Classifier.FileInfo r),
                     Classifier.Category r, Classifier.Subcategory r))
          (concat (map snd folders)) /\
    Forall (fun l => OperationLog.Status l = "success" \/
                     OperationLog.Status l = "failed") logs /\
    Success (result w)
      = Success (result w0)
        + Z.of_nat (List.length
                      (filter (fun l => OperationLog.Status l = "success") logs)) /\
    Errors (result w)
      = Errors (result w0)
        + Z.of_nat (List.length
                      (filter (fun l => OperationLog.Status l = "failed") logs)).
Proof.
  induction folders as [|[folder results] folders IH]; intros w0 w1;
    cbn [fold_left].
  - intros [= <-]. exists []. rewrite app_nil_r. simpl.
    repeat split; [constructor | lia | lia].
  - destruct (fold_left (move_file batchID _) results _) as [w2|] eqn:Hfolder.
    2:{ intros Hnone. exfalso. clear -Hnone.
        induction folders as [|[? ?] folders IH]; [done | exact (IH Hnone)]. }
    intros Hrest.
    destruct (moves_are_logged _ _ _ _ _ Hfolder)
      as (logs1 & Hl1 & Hm1 & Hs1 & Hsu1 & He1).
    destruct (IH w2 w1 Hrest) as (logs2 & Hl2 & Hm2 & Hs2 & Hsu2 & He2).
    cbn [clf result] in *.
    exists (logs1 ++ logs2). rewrite Hl2, Hl1, <- app_assoc.
    split; [done|]. cbn [map concat snd]. rewrite !map_app, Hm1, Hm2.
    split; [done|]. split; [by apply Forall_app|].
    rewrite !filter_app, !length_app. lia.
Qed.




Lemma statuses_partition (logs : list OperationLog.t) :
  Forall (fun l => OperationLog.Status l = "success" \/
                   OperationLog.Status l = "failed") logs ->
  (List.length (filter (fun l => OperationLog.Status l = "success") logs)
   + List.length (filter (fun l => OperationLog.Status l = "failed") logs)
   = List.length logs)%nat.
Proof.
  induction 1 as [|l ls [Hst|Hst] _ IH]; [done|..];
    rewrite !filter_cons, Hst;
    repeat (destruct (decide _); try done); simpl; lia.
Qed.


(** ** The totals of a plan *)








(** ** [InteractiveReview] *)

Lemma ToLower_empty : ToLower EmptyString = EmptyString.
Proof. reflexivity. Qed.

Lemma review_plan_eta (plan : Plan) :
  {| TargetDir := TargetDir plan; Actions := Actions plan |} = plan.
Proof. by destruct plan. Qed.

(** X25.  The review asks about no result whose confidence is 0.7 or more:
    on a plan without another result it reads no line, and the plan and the
    classifier come back as they were. *)
Theorem review_asks_nothing_about_a_confident_plan (plan : Plan)
    (c : Classifier.t) (stdin : list string)
    (Hconfident :
       Forall (fun r => (LowConfidenceThreshold <= Classifier.Confidence r)%Q)
         (concat (map snd (map_range (map_to_list (Actions plan)))))) :
  InteractiveReview plan c stdin = (plan, c, stdin).
Proof.
  unfold InteractiveReview.
  assert (Hone : forall folder st ir,
    (LowConfidenceThreshold <= Classifier.Confidence ir.2)%Q ->
    review_one folder st ir = st).
  { intros folder st [i r] Hr. unfold review_one. cbn [snd] in Hr.
    unfold Qltb. apply Qle_bool_iff in Hr. rewrite Hr.
    cbn [negb]. by rewrite orb_true_r. }
  assert (Hfolder : forall folder (irs : list (nat * Classifier.Result)) st,
    Forall (fun ir =>
              (LowConfidenceThreshold <= Classifier.Confidence ir.2)%Q) irs ->
    fold_left (review_one folder) irs st = st).
  { intros folder irs st. induction 1 as [|ir irs Hir _ IH]; [done|].
    cbn [fold_left]. by rewrite Hone. }
  assert (Hall : forall (folders : list (string * list Classifier.Result)) st,
    Forall (fun r => (LowConfidenceThreshold <= Classifier.Confidence r)%Q)
      (concat (map snd folders)) ->
    fold_left
      (fun st '(folder, results) =>
         fold_left (review_one folder) (imap (fun i r => (i, r)) results) st)
      folders st = st).
  { intros folders. induction folders as [|[folder results] folders IH];
      intros st Hf; [done|].
    cbn [map concat snd] in Hf. apply Forall_app in Hf as [Hhere Hrest].
    cbn [fold_left]. rewrite Hfolder; [by apply IH|].
    apply Forall_lookup. intros i [j r] Hi.
    rewrite list_lookup_imap in Hi.
    destruct (results !! i) as [r'|] eqn:Hri; [|done].
    injection Hi as <- <-. cbn [snd].
    by apply (Forall_lookup_1 _ _ _ _ Hhere Hri). }
  rewrite Hall by done. cbn [rv_modified rv_actions rv_clf rv_stdin].
  by rewrite review_plan_eta.
Qed.

(** X26.  Only the answers [y] and [c] have an effect: when no line of the
    input is one of them (whatever the case of its letters), the review
    returns the plan and the classifier as they were, and what it leaves of
    the input is an end of it. *)
Theorem review_changes_nothing_without_y_or_c (plan : Plan)
    (c : Classifier.t) (stdin : list string)
    (Hlines : forall line, line ∈ stdin ->
                ToLower line <> "y" /\ ToLower line <> "c") :
  exists rest,
    InteractiveReview plan c stdin = (plan, c, rest) /\ rest `suffix_of` stdin.
Proof.
  unfold InteractiveReview.
  set (Inv := fun st : Review =>
    rv_clf st = c /\ rv_actions st = Actions plan /\
    rv_modified st = false /\ rv_stdin st `suffix_of` stdin).
  assert (Hone : forall folder st ir, Inv st -> Inv (review_one folder st ir)).
  { intros folder st [i r] (Hc & Ha & Hm & Hs). unfold review_one.
    destruct (rv_done st || _); [done|].
    destruct (rv_stdin st) as [|line rest] eqn:Hin; cbn [read_line]; cbv zeta.
    - rewrite ToLower_empty. cbn [String.eqb Ascii.eqb Bool.eqb].
      unfold Inv. cbn [rv_clf rv_actions rv_modified rv_stdin].
      done.
    - assert (Hrest : rest `suffix_of` stdin).
      { etransitivity; [|exact Hs]. by apply suffix_cons_r. }
      destruct (Hlines line) as [Hy Hcc].
      { destruct Hs as [k ->]. apply elem_of_app. right. apply list_elem_of_here. }
      apply String.eqb_neq in Hy, Hcc. rewrite Hy, Hcc.
      by destruct (String.eqb (ToLower line) "q"). }
  assert (Hfolder : forall folder (irs : list (nat * Classifier.Result)) st,
    Inv st -> Inv (fold_left (review_one folder) irs st)).
  { intros folder irs. induction irs as [|ir irs IH]; intros st Hst; [done|].
    cbn [fold_left]. by apply IH, Hone. }
  assert (Hall : forall (folders : list (string * list Classifier.Result)) st,
    Inv st ->
    Inv (fold_left
           (fun st '(folder, results) =>
              fold_left (review_one folder) (imap (fun i r => (i, r)) results)
                st)
           folders st)).
  { intros folders. induction folders as [|[folder results] folders IH];
      intros st Hst; [done|].
    cbn [fold_left]. by apply IH, Hfolder. }
  match goal with |- context [fold_left ?f ?l ?st0] =>
    destruct (Hall l st0) as (Hc & Ha & Hm & Hs)
  end.
  { by unfold Inv. }
  eexists. rewrite Hm, Ha, Hc, review_plan_eta. split; [done | exact Hs].
Qed.

End Moves.
End PlanFacts.

(* ===================================================================== *)
(** * Runs, cleaning, reset and statistics *)
(* ===================================================================== *)

Module RunFacts.
Import Storage Organizer Cmd GoString GoStrings Growth.
Import LearnFacts EffectFacts PlanFacts.

Section Runs.
Context {U : Unicode} {RT : Runtime} {E : Embedder} {L : Llm.Client}
        {FL : Os.Faults}.

Lemma Correct_keeps_the_logs (c : Classifier.t) (r : Classifier.Result)
    (newCat newSub : string) :
  operation_logs (Classifier.db (Classifier.Correct c r newCat newSub))
  = operation_logs (Classifier.db c).
Proof.
  unfold Classifier.Correct, Classifier.with_db. cbn [Classifier.db].
  match goal with |- context [Memory.LearnFromCorrection ?d ?f ?oc ?nc ?os ?ns] =>
    pose proof (LearnFromCorrection_grows d f oc nc os ns)
      as ((_ & _ & _ & Hlog & _) & _)
  end.
  destruct (String.eqb _ _); [unfold UpdateModelAccuracy;
    cbn [operation_logs set_model_stats]|]; by rewrite Hlog.
Qed.

Lemma Classify_keeps_the_logs (c c' : Classifier.t)
    (files : list Scanner.FileInfo) (elapsed : Z)
    (results : list Classifier.Result) :
  Classifier.Classify c files elapsed = Some (c', results) ->
  operation_logs (Classifier.db c') = operation_logs (Classifier.db c).
Proof.
  unfold Classifier.Classify.
  destruct (Classifier.memory_phase c files) as [mem need].
  destruct need as [|f need].
  - by intros [= <- <-].
  - destruct (Classifier.classifyWithLLM c (f :: need) _) as [llm|]; [|done].
    intros [= <- <-]. cbn [Classifier.db].
    destruct (Config.EnableLearning _); [|done].
    by destruct (learn_results_rows llm (Classifier.db c)) as (_ & _ & Hl & _).
Qed.

Lemma Close_keeps_the_logs (c : Classifier.t) :
  operation_logs (Classifier.Close c) = operation_logs (Classifier.db c).
Proof. unfold Classifier.Close. by destruct (0 <? _). Qed.

Lemma review_keeps_the_logs (plan : Plan) (c : Classifier.t)
    (stdin : list string) :
  operation_logs (Classifier.db (InteractiveReview plan c stdin).1.2)
  = operation_logs (Classifier.db c).
Proof.
  unfold InteractiveReview. cbn [fst snd].
  set (Inv := fun st : Review =>
    operation_logs (Classifier.db (rv_clf st))
    = operation_logs (Classifier.db c)).
  assert (Hone : forall folder st ir, Inv st -> Inv (review_one folder st ir)).
  { intros folder st [i r] Hst. unfold review_one.
    destruct (rv_done st || _); [done|].
    destruct (read_line (rv_stdin st)) as [input rest]. cbv zeta.
    destruct (String.eqb (ToLower input) "q"); [done|].
    destruct (String.eqb (ToLower input) "y").
    { unfold Inv. cbn [rv_clf].
      by destruct (Confirm_keeps_the_logs (rv_clf st) r) as [-> _]. }
    destruct (String.eqb (ToLower input) "c"); [|done].
    destruct (read_line rest) as [newCat rest1].
    destruct (read_line rest1) as [newSub rest2].
    unfold Inv. cbn [rv_clf]. by rewrite Correct_keeps_the_logs. }
  assert (Hfolder : forall folder (irs : list (nat * Classifier.Result)) st,
    Inv st -> Inv (fold_left (review_one folder) irs st)).
  { intros folder irs. induction irs as [|ir irs IH]; intros st Hst; [done|].
    cbn [fold_left]. by apply IH, Hone. }
  assert (Hall : forall (folders : list (string * list Classifier.Result)) st,
    Inv st ->
    Inv (fold_left
           (fun st '(folder, results) =>
              fold_left (review_one folder) (imap (fun i r => (i, r)) results)
                st)
           folders st)).
  { intros folders. induction folders as [|[folder results] folders IH];
      intros st Hst; [done|].
    cbn [fold_left]. by apply IH, Hfolder. }
  apply Hall. by unfold Inv.
Qed.

(** X27.  [runOrganize] leaves the files where they are unless it executes
    the plan, and writes the operation log only then: one row per counted
    move or failure, under the batch id of the execution.  A run that stops
    before the classification leaves the database as it was; a dry run ends
    as a preview. *)
Theorem run_organize_logs_exactly_what_it_executes (env : Environment)
    (cfg : Config.t) (db : Database) (files : Os.FileSystem) (flags : Flags)
    (args : list string) (db' : Database) (fs' : Os.FileSystem)
    (out : Outcome)
    (Hrun : runOrganize env cfg db files flags args = Some (db', fs', out)) :
  match out with
  | Executed r =>
    dryRun flags = false /\
    exists logs,
      operation_logs db' = operation_logs db ++ logs /\
      Forall (fun l => OperationLog.BatchID l = execute_time env) logs /\
      Success r
      = Z.of_nat (List.length
                    (filter (fun l => OperationLog.Status l = "success") logs)) /\
      Success r + Errors r = Z.of_nat (List.length logs)
  | Preview =>
    dryRun flags = true /\ fs' = files /\
    operation_logs db' = operation_logs db
  | Cancelled =>
    dryRun flags = false /\ fs' = files /\
    operation_logs db' = operation_logs db
  | _ => fs' = files /\ db' = db
  end.
Proof.
  unfold runOrganize in Hrun.
  destruct args as [|sourceDir args]; [by injection Hrun as <- <- <-|].
  cbv zeta in Hrun.
  destruct (negb (Os.Stat files sourceDir)); [by injection Hrun as <- <- <-|].
  destruct (negb (service_available env)); [by injection Hrun as <- <- <-|].
  destruct (negb (existsb _ _)); [by injection Hrun as <- <- <-|].
  destruct (scan env sourceDir (recursive flags)) as [found|];
    [|by injection Hrun as <- <- <-].
  destruct (_ =? 0)%nat; [by injection Hrun as <- <- <-|].
  destruct (Classifier.Classify _ found (elapsed env)) as [[c results]|] eqn:Hc;
    [|done].
  apply Classify_keeps_the_logs in Hc. cbn [Classifier.db] in Hc.
  change (Classifier.db (Classifier.NewClassifier db _ _)) with db in Hc.
  assert (Hreview : exists plan c1 input,
    (if interactive flags
     then InteractiveReview (GeneratePlan results
            (if String.eqb (targetDir flags) EmptyString
             then Filepath.Join [sourceDir; "已整理"] else targetDir flags))
            c (stdin env)
     else (GeneratePlan results
            (if String.eqb (targetDir flags) EmptyString
             then Filepath.Join [sourceDir; "已整理"] else targetDir flags),
           c, stdin env)) = (plan, c1, input) /\
    operation_logs (Classifier.db c1) = operation_logs db).
  { destruct (interactive flags).
    - pose proof (review_keeps_the_logs
        (GeneratePlan results
           (if String.eqb (targetDir flags) EmptyString
            then Filepath.Join [sourceDir; "已整理"] else targetDir flags))
        c (stdin env)) as Hr.
      destruct (InteractiveReview _ c (stdin env)) as [[plan c1] input].
      exists plan, c1, input. split; [done|]. cbn [fst snd] in Hr. congruence.
    - by eexists _, _, _. }
  destruct Hreview as (plan & c1 & input & Heq & Hlogs).
  rewrite Heq in Hrun.
  destruct (dryRun flags).
  { injection Hrun as <- <- <-. by rewrite Close_keeps_the_logs. }
  destruct (Organizer.Confirm input) as [yes rest].
  destruct yes.
  2:{ injection Hrun as <- <- <-. by rewrite Close_keeps_the_logs. }
  destruct (Organizer.Execute plan c1 files (execute_time env)) as [w|] eqn:Hw;
    [|done].
  injection Hrun as <- <- <-. split; [done|].
  unfold Organizer.Execute in Hw.
  destruct (folders_are_logged _ _ _ _ _ Hw) as (logs & Hl & Hm & Hs & Hsu & He).
  cbn [clf result Success Errors] in *.
  exists logs. rewrite Close_keeps_the_logs, Hl, Hlogs.
  split; [done|]. split.
  - apply Forall_forall. intros l Hin.
    assert (Hb : OperationLog.BatchID l
                 ∈ map (fun t : string * string * string * string * string =>
                          t.1.1.1.1)
                     (map (fun l => (OperationLog.BatchID l,
                             OperationLog.SourcePath l, OperationLog.Filename l,
                             OperationLog.Category l,
                             OperationLog.Subcategory l)) logs)).
    { rewrite map_map. cbn [fst].
      apply list_elem_of_fmap. by exists l. }
    rewrite Hm, map_map in Hb. cbn [fst] in Hb.
    apply list_elem_of_fmap in Hb as (r & -> & _). done.
  - pose proof (statuses_partition logs Hs). lia.
Qed.

End Runs.
End RunFacts.

Module CleanFacts.
Import Storage Pruning.

Section Clean.
Context {RT : Runtime}.

Lemma pruned_refl fs : pruned fs fs.
Proof. split; [done|]. split; [reflexivity|]. by intros p _ _ H. Qed.

Lemma pruned_trans fs fs1 fs2 : pruned fs fs1 -> pruned fs1 fs2 -> pruned fs fs2.
Proof.
  intros (Hf1 & Hd1 & Hp1) (Hf2 & Hd2 & Hp2). split; [congruence|].
  split; [by etransitivity|].
  intros p Hp Hne Hdir. apply Hp2; [done..|]. apply Hp1; [|done..].
  rewrite Hf2 in Hp. apply elem_of_union in Hp as [Hp|Hp].
  - by apply elem_of_union_l.
  - apply elem_of_union_r. by apply Hd2.
Qed.

Lemma RemoveDir_pruned fs dir : pruned fs (Os.RemoveDir fs dir).
Proof.
  unfold Os.RemoveDir. destruct (Os.entries fs dir) eqn:Hempty;
    [|apply pruned_refl].
  split; [done|]. cbn [Os.files Os.dirs]. split.
  - intros p Hp. by apply elem_of_difference in Hp as [Hp _].
  - intros p Hp Hne Hdir. apply elem_of_difference. split; [done|].
    intros Hd%elem_of_singleton.
    assert (Hin : p ∈ Os.entries fs dir).
    { unfold Os.entries. apply list_elem_of_filter. split.
      - split; [done|]. intros ->. by apply Hne.
      - apply elem_of_elements.
        apply elem_of_union in Hp as [Hp|Hp];
          [by apply elem_of_union_l|].
        apply elem_of_union_r. by apply elem_of_difference in Hp as [Hp _]. }
    rewrite Hempty in Hin. by apply not_elem_of_nil in Hin.
Qed.

(** X28.  [cleanEmptyDirs] deletes no file and adds no directory, and it
    never removes a directory in which a path is left: whatever remains
    still lies in the directory it lay in. *)
Theorem clean_empty_dirs_keeps_the_files_and_their_directories
    (fs : Os.FileSystem) (logs : list OperationLog.t) :
  let fs' := Undo.cleanEmptyDirs fs logs in
  Os.files fs' = Os.files fs /\
  Os.dirs fs' ⊆ Os.dirs fs /\
  forall p, p ∈ Os.files fs' ∪ Os.dirs fs' ->
    Filepath.Dir p <> p -> Filepath.Dir p ∈ Os.dirs fs ->
    Filepath.Dir p ∈ Os.dirs fs'.
Proof.
  intros fs'. subst fs'. change (pruned fs (Undo.cleanEmptyDirs fs logs)).
  unfold Undo.cleanEmptyDirs. generalize (map_range (map_to_list
    (list_to_map (map (fun l => (Filepath.Dir (OperationLog.DestPath l), true))
                      logs) : gmap string bool))).
  intros visited.
  assert (Hgen : forall fs0, pruned fs fs0 ->
    pruned fs
      (fold_left
         (fun (fs : Os.FileSystem) '(dir, _) =>
            if bool_decide (dir ∈ Os.dirs fs)
               && bool_decide (Os.entries fs dir = [])
            then Os.RemoveDir (Os.RemoveDir fs dir) (Filepath.Dir dir)
            else fs)
         visited fs0)).
  { induction visited as [|[dir b] visited IH]; intros fs0 H0; [done|].
    cbn [fold_left]. apply IH.
    destruct (_ && _); [|done].
    eapply pruned_trans; [exact H0|].
    eapply pruned_trans; apply RemoveDir_pruned. }
  apply Hgen, pruned_refl.
Qed.

End Clean.
End CleanFacts.

Module ResetFacts.
Import Storage StorageReset.

Section Resets.
Context {U : Unicode} {RT : Runtime} {E : Embedder}.

(** X29.  [ResetAll] empties the history, the rules, the feedback, the
    vectors and the operation log, so that the memory answers no query and
    there is no batch to undo; it keeps the statistics of the models and
    their ranking, and the AUTOINCREMENT counters, so that no id is given
    twice. *)
Theorem reset_all_forgets_the_memory_and_keeps_the_model_statistics
    (cfg : Config.t) (d : Database) :
  let d' := ResetAll d in
  (classification_history d' = [] /\ learned_rules d' = [] /\
   user_feedback d' = [] /\ vectors d' = [] /\ operation_logs d' = []) /\
  (model_stats d' = model_stats d /\
   GetModelSummaries d' = GetModelSummaries d /\
   GetBestModel d' = GetBestModel d) /\
  (history_seq d' = history_seq d /\ rules_seq d' = rules_seq d /\
   logs_seq d' = logs_seq d) /\
  (forall filename, Memory.Query cfg d' filename = None) /\
  GetLatestBatch d' = EmptyString /\
  (forall batchID, GetBatchLogs d' batchID = []).
Proof.
  intros d'. subst d'.
  split; [done|]. split; [done|]. split; [done|]. split.
  - apply TierFacts.Query_of_empty_memory; [done..|].
    intros r Hr. by apply not_elem_of_nil in Hr.
  - done.
Qed.

End Resets.
End ResetFacts.

Module StatsFacts.
Import ScannerStats.

Lemma count_loop (files : list Scanner.FileInfo) : forall acc : Statistics,
  let stats := fold_left count_file files acc in
  let regular := filter (fun f => Scanner.IsDir f = false) files in
  TotalDirs stats
  = TotalDirs acc
    + Z.of_nat (List.length (filter (fun f => Scanner.IsDir f = true) files)) /\
  TotalFiles stats = TotalFiles acc + Z.of_nat (List.length regular) /\
  TotalSize stats = TotalSize acc + Sql.sumZ (map Scanner.Size regular) /\
  forall ext,
    ExtStats stats !! ext
    = match filter (fun f => ext_key f = ext) regular with
      | [] => ExtStats acc !! ext
      | l =>
        let es := default {| Count := 0; Size := 0 |} (ExtStats acc !! ext) in
        Some {| Count := Count es + Z.of_nat (List.length l);
                Size := Size es + Sql.sumZ (map Scanner.Size l) |}
      end.
Proof.
  induction files as [|f files IH]; intros acc; cbv zeta; cbn [fold_left].
  - simpl. repeat split; lia.
  - destruct (IH (count_file acc f)) as (Hd & Hf & Hs & He). cbv zeta in *.
    rewrite Hd, Hf, Hs. rewrite !filter_cons. unfold count_file in *.
    destruct (Scanner.IsDir f) eqn:Hdir.
    + destruct (decide (true = true)); [|done].
      destruct (decide (true = false)); [done|].
      cbn [TotalDirs TotalFiles TotalSize ExtStats List.length] in *.
      split; [lia|]. split; [lia|]. split; [lia|]. exact He.
    + destruct (decide (false = true)); [done|].
      destruct (decide (false = false)); [|done].
      cbn [TotalDirs TotalFiles TotalSize ExtStats List.length map] in *.
      unfold Sql.sumZ in *. cbn [fold_right].
      split; [lia|]. split; [lia|]. split; [lia|].
      intros ext. rewrite He, filter_cons.
      destruct (decide (ext_key f = ext)) as [Heq|Hne].
      * rewrite Heq, lookup_insert_eq. cbn [default Count Size].
        destruct (filter _ (filter _ files)) as [|f' l].
        -- cbn [List.length map fold_right]. f_equal. f_equal; lia.
        -- unfold Datatypes.id. cbn [List.length map fold_right Count Size].
           f_equal. f_equal; lia.
      * by rewrite lookup_insert_ne.
Qed.

(** X30.  [GetStatistics] counts every entry of the scan once, as a
    directory or as a file, and every file under one extension: the entry of
    an extension holds the number and the total size of the files that have
    it (the files without one under a label of their own), and there is no
    entry for an extension that no file has. *)
Theorem scan_statistics_count_every_entry_once
    (files : list Scanner.FileInfo) :
  let stats := GetStatistics files in
  let regular := filter (fun f => Scanner.IsDir f = false) files in
  TotalFiles stats = Z.of_nat (List.length regular) /\
  TotalFiles stats + TotalDirs stats = Z.of_nat (List.length files) /\
  TotalSize stats = Sql.sumZ (map Scanner.Size regular) /\
  forall ext,
    ExtStats stats !! ext
    = match filter (fun f => ext_key f = ext) regular with
      | [] => None
      | l => Some {| Count := Z.of_nat (List.length l);
                     Size := Sql.sumZ (map Scanner.Size l) |}
      end.
Proof.
  intros stats regular. subst stats regular. unfold GetStatistics.
  destruct (count_loop files
              {| TotalFiles := 0; TotalDirs := 0; TotalSize := 0;
                 ExtStats := ∅ |}) as (Hd & Hf & Hs & He).
  cbv zeta in *. cbn [TotalDirs TotalFiles TotalSize ExtStats] in *.
  split; [lia|]. split.
  - rewrite Hd, Hf.
    assert (Hpart : forall l : list Scanner.FileInfo,
      (List.length (filter (fun f => Scanner.IsDir f = false) l)
       + List.length (filter (fun f => Scanner.IsDir f = true) l)
       = List.length l)%nat).
    { induction l as [|f l IH]; [done|]. rewrite !filter_cons.
      destruct (Scanner.IsDir f);
        repeat (destruct (decide _); try done); simpl; lia. }
    specialize (Hpart files). lia.
  - split; [lia|]. intros ext. rewrite He, lookup_empty.
    destruct (filter _ (filter _ files)); [done|].
    done.
Qed.

End StatsFacts.

(* ===================================================================== *)
(** * Exit statuses and the confidence of the model *)
(* ===================================================================== *)

Module ExitFacts.
Import Storage Cmd GoString GoStrings RunNotions.
Import MemoryFacts OrderFacts PlanFacts.

Section Exit.
Context {U : Unicode} {RT : Runtime} {E : Embedder} {L : Llm.Client}
        {FL : Os.Faults}.

(** ** Which files wait for the model *)


(** ** The loop of [classifyWithLLM], by the sign of the batch size *)




(** ** [Classify] *)


(** ** [runOrganize] *)




End Exit.

(** C6 with the batch size -1 in the configuration: the run asks the
    model for [zxqfoo.bin], panics and exits with 2; with the batch size
    0 it does not end. *)
Lemma a_negative_batch_size_exits_with_2 :
  let run batchSize :=
    @Execute BasicUnicode PlainRuntime BlindEmbedder
      (Llm.AnswerWith (9 # 10)) Os.NoFaults CmdScenario.ready
      {| Config.LLMModel := "qwen3:8b"; Config.EnableLearning := true;
         Config.SimilarityThreshold := (85 # 100)%Q;
         Config.ConfidenceThreshold := (7 # 10)%Q;
         Config.BatchSize := batchSize |}
      (empty 0) CmdScenario.home
      (Parsed CmdScenario.flags ["/home/u/in"]) in
  run (-1) = Some (2, None) /\ run 0 = None /\
  exists done, run 1 = Some (0, Some done).
Proof.
  cbv zeta. split; [vm_compute; reflexivity|].
  split; [vm_compute; reflexivity|]. eexists. vm_compute. reflexivity.
Qed.

End ExitFacts.

Module RangeFacts.
Import Storage Classifier.

Section Range.
Context {U : Unicode} {RT : Runtime} {E : Embedder}.

(** C3.  The confidence that the payload of the model gives is emitted
    and stored as it is, whatever the embedder and the runtime: for the
    file [zxqfoo.bin] on an empty store, a model that answers with the
    confidence [q] yields the result of source [llm] with confidence [q],
    and [Classify] writes the history row with confidence [q].  With
    [q = 95] (a percentage) neither is in [0, 1]. *)
Theorem model_confidence_is_emitted_unchecked (q : Q) :
  exists c' r row,
    Classify (L := Llm.AnswerWith q) Demo.fresh [Demo.zxqfoo] 0
    = Some (c', [r]) /\
    FileInfo r = Demo.zxqfoo /\ Source r = "llm" /\ Confidence r = q /\
    classification_history (db c') = [row] /\
    History.Filename row = "zxqfoo.bin" /\ History.Confidence row = q /\
    (~ (0 <= q <= 1)%Q ->
     ~ (0 <= Confidence r <= 1)%Q /\ ~ (0 <= History.Confidence row <= 1)%Q).
Proof.
  assert (Hphase : memory_phase Demo.fresh [Demo.zxqfoo] = ([], [Demo.zxqfoo])).
  { cbn [memory_phase Scanner.IsDir Demo.zxqfoo Demo.file].
    by rewrite (TierFacts.Query_of_empty_memory _ (db Demo.fresh)) by
      (try done; intros r Hr; by apply not_elem_of_nil in Hr). }
  unfold Classify. rewrite Hphase.
  do 3 eexists. split; [reflexivity|].
  split; [reflexivity|]. split; [reflexivity|]. split; [reflexivity|].
  split; [reflexivity|]. split; [reflexivity|]. split; [reflexivity|].
  intros Hq. split; exact Hq.
Qed.

End Range.
End RangeFacts.

(* ===================================================================== *)
(** * Instances of the statements above *)
(* ===================================================================== *)

Module MoreInstances.
Import Storage Classifier.

#[local] Existing Instance BasicUnicode.
#[local] Existing Instance PlainRuntime.
#[local] Existing Instance BlindEmbedder.
#[local] Existing Instance Os.NoFaults.

(** X3 on an example.  The key of the forty-times confirmed rule stays
    unique when [.PDF] is confirmed once more. *)
Lemma add_or_update_rule_keeps_the_key_unique_witness :
  NoDup (map (fun r => (Rule.Pattern r, Rule.PatternType r, Rule.Category r))
             (learned_rules Demo.pdf_rules)) /\
  let d' :=
    AddOrUpdateRule Demo.pdf_rules ".PDF" "extension" "Documents" "Finance" 5 in
  NoDup (map (fun r => (Rule.Pattern r, Rule.PatternType r, Rule.Category r))
             (learned_rules d')) /\
  (List.length (learned_rules Demo.pdf_rules) <= List.length (learned_rules d')
   <= S (List.length (learned_rules Demo.pdf_rules)))%nat /\
  (exists r', r' ∈ learned_rules d' /\
     Rule.Pattern r' = GoStrings.ToLower ".PDF" /\
     Rule.PatternType r' = "extension" /\
     Rule.Category r' = "Documents") /\
  ((forall r, r ∈ learned_rules Demo.pdf_rules -> 1 <= Rule.HitCount r) ->
   forall r', r' ∈ learned_rules d' -> 1 <= Rule.HitCount r') /\
  (forall i r, learned_rules Demo.pdf_rules !! i = Some r ->
     exists r', learned_rules d' !! i = Some r' /\
       Rule.ID r' = Rule.ID r /\ Rule.Pattern r' = Rule.Pattern r /\
       Rule.PatternType r' = Rule.PatternType r /\
       Rule.Category r' = Rule.Category r /\
       Rule.Subcategory r' = Rule.Subcategory r /\
       Rule.HitCount r <= Rule.HitCount r' /\
       Rule.Priority r <= Rule.Priority r').
Proof.
  assert (Hunique :
    NoDup (map (fun r => (Rule.Pattern r, Rule.PatternType r, Rule.Category r))
               (learned_rules Demo.pdf_rules))).
  { apply (bool_decide_unpack _). vm_compute. exact I. }
  split; [exact Hunique|].
  exact (RuleQueryFacts.add_or_update_rule_keeps_the_key_unique Demo.pdf_rules
           ".PDF" "extension" "Documents" "Finance" 5 Hunique).
Defined.

(** X11 on an example.  A store with one unconfirmed history row answers no
    query. *)
Lemma untrained_store_sends_every_file_to_the_model_witness :
  learned_rules PlanScenario.unconfirmed = [] /\
  vectors PlanScenario.unconfirmed = [] /\
  (forall r, r ∈ classification_history PlanScenario.unconfirmed ->
     History.UserConfirmed r = false) /\
  (forall filename,
     Memory.Query Config.defaultConfig PlanScenario.unconfirmed filename
     = None) /\
  forall (c : Classifier.t) (files : list Scanner.FileInfo),
    Classifier.db c = PlanScenario.unconfirmed ->
    Classifier.cfg c = Config.defaultConfig ->
    Classifier.memory_phase c files
    = ([], filter (fun f => Scanner.IsDir f = false) files).
Proof.
  assert (Hhistory : forall r,
    r ∈ classification_history PlanScenario.unconfirmed ->
    History.UserConfirmed r = false).
  { intros r Hr. apply list_elem_of_singleton in Hr. by rewrite Hr. }
  split; [reflexivity|]. split; [reflexivity|]. split; [exact Hhistory|].
  exact (TierFacts.untrained_store_sends_every_file_to_the_model
           Config.defaultConfig PlanScenario.unconfirmed eq_refl eq_refl
           Hhistory).
Defined.

(** X13 on an example.  The rule of the taught store has 40 hits: its match
    of [a.pdf] reaches the default threshold. *)
Lemma rule_match_reaches_the_default_threshold_at_36_hits_witness :
  exists m,
    Memory.matchRules Config.defaultConfig Demo.pdf_rules "a.pdf" = Some m /\
    exists best rest,
      GetMatchingRules Demo.pdf_rules "a.pdf" (Memory.extractKeywords "a.pdf")
        (GoStrings.ToLower (Filepath.Ext "a.pdf")) = best :: rest /\
      Memory.Category m = Rule.Category best /\
      Memory.Subcategory m = Rule.Subcategory best /\
      (Memory.Confidence m ==
       Qmin (95 # 100)
            ((6 # 10) + (7 # 1000) * inject_Z (Rule.HitCount best)))%Q /\
      (Memory.reaches Config.defaultConfig m = true
       <-> 36 <= Rule.HitCount best).
Proof.
  eexists. split; [vm_compute; reflexivity|].
  eapply (TierFacts.rule_match_reaches_the_default_threshold_at_36_hits
            Config.defaultConfig Demo.pdf_rules "a.pdf").
  vm_compute. reflexivity.
Defined.

(** X19 on an example.  A model that times out on the two files of the
    inbox. *)
Lemma failing_model_gives_every_file_the_default_labels_witness :
  0 < Config.BatchSize (cfg Demo.fresh) /\
  (forall call batch rules, exists err,
     Llm.ClassifyFiles (Client := Llm.TimeoutClient) call batch rules
     = Llm.Failed err) /\
  exists results,
    classifyWithLLM (L := Llm.TimeoutClient) Demo.fresh
      [Demo.zxqfoo; Demo.a_pdf] [] = Some results /\
    map FileInfo results = [Demo.zxqfoo; Demo.a_pdf] /\
    forall r, r ∈ results ->
      Source r = "error" /\ Category r = "未分类" /\ Subcategory r = "其他" /\
      Confidence r = (0 # 1)%Q.
Proof.
  assert (Hsize : 0 < Config.BatchSize (cfg Demo.fresh)) by (vm_compute; done).
  assert (Hfail : forall call batch rules, exists err,
     Llm.ClassifyFiles (Client := Llm.TimeoutClient) call batch rules
     = Llm.Failed err) by (intros; eexists; reflexivity).
  split; [exact Hsize|]. split; [exact Hfail|].
  exact (EffectFacts.failing_model_gives_every_file_the_default_labels
           (L := Llm.TimeoutClient) Demo.fresh [Demo.zxqfoo; Demo.a_pdf] []
           Hsize Hfail).
Defined.

(** X18 on an example.  The model answers for [zxqfoo.bin] on an empty
    store. *)
Lemma classify_writes_one_unconfirmed_row_per_model_result_witness :
  exists c' results,
    Classify (L := Llm.AnswerWith (9 # 10)) Demo.fresh [Demo.zxqfoo] 0
    = Some (c', results) /\
    cfg c' = cfg Demo.fresh /\ batchID c' = batchID Demo.fresh /\
    learned_rules (db c') = learned_rules (db Demo.fresh) /\
    user_feedback (db c') = user_feedback (db Demo.fresh) /\
    operation_logs (db c') = operation_logs (db Demo.fresh) /\
    model_stats (db c') = model_stats (db Demo.fresh) /\
    (Config.EnableLearning (cfg Demo.fresh) = false -> db c' = db Demo.fresh) /\
    exists llmResults,
      Permutation (filter (fun r => Source r <> "memory") results) llmResults /\
      (Config.EnableLearning (cfg Demo.fresh) = true ->
       map (fun h => (History.Filename h, History.Category h,
                      History.Subcategory h, History.Confidence h,
                      History.Source h, History.UserConfirmed h))
           (classification_history (db c'))
       = map (fun h => (History.Filename h, History.Category h,
                        History.Subcategory h, History.Confidence h,
                        History.Source h, History.UserConfirmed h))
             (classification_history (db Demo.fresh))
         ++ map (fun r => (Scanner.Name (FileInfo r), Category r,
                           Subcategory r, Confidence r, "llm", false))
                llmResults /\
       map (fun v => (Vector.Filename v, Vector.Category v,
                      Vector.Subcategory v, Vector.Vector v))
           (vectors (db c'))
       = map (fun v => (Vector.Filename v, Vector.Category v,
                        Vector.Subcategory v, Vector.Vector v))
             (vectors (db Demo.fresh))
         ++ map (fun r => (Scanner.Name (FileInfo r), Category r,
                           Subcategory r, Embed (Scanner.Name (FileInfo r))))
                llmResults).
Proof.
  eexists _, _. split; [vm_compute; reflexivity|].
  eapply (EffectFacts.classify_writes_one_unconfirmed_row_per_model_result
            (L := Llm.AnswerWith (9 # 10)) Demo.fresh [Demo.zxqfoo] 0).
  vm_compute. reflexivity.
Defined.


(** X25 on an example.  A plan with the confident result only. *)
Lemma review_asks_nothing_about_a_confident_plan_witness :
  Forall (fun r => (Organizer.LowConfidenceThreshold
                    <= Classifier.Confidence r)%Q)
    (concat (map snd (map_range (map_to_list (Organizer.Actions
       (Organizer.GeneratePlan [PlanScenario.sure] PlanScenario.target)))))) /\
  Organizer.InteractiveReview
    (Organizer.GeneratePlan [PlanScenario.sure] PlanScenario.target)
    Demo.fresh ["y"]
  = (Organizer.GeneratePlan [PlanScenario.sure] PlanScenario.target,
     Demo.fresh, ["y"]).
Proof.
  assert (Hconfident :
    Forall (fun r => (Organizer.LowConfidenceThreshold
                      <= Classifier.Confidence r)%Q)
      (concat (map snd (map_range (map_to_list (Organizer.Actions
         (Organizer.GeneratePlan [PlanScenario.sure]
            PlanScenario.target))))))).
  { apply Forall_forall. intros r Hr. vm_compute in Hr.
    apply list_elem_of_singleton in Hr. rewrite Hr. vm_compute. discriminate. }
  split; [exact Hconfident|].
  exact (PlanFacts.review_asks_nothing_about_a_confident_plan
           (Organizer.GeneratePlan [PlanScenario.sure] PlanScenario.target)
           Demo.fresh ["y"] Hconfident).
Defined.

(** X26 on an example.  The user skips the first question asked and ends the
    review at the second. *)
Lemma review_changes_nothing_without_y_or_c_witness :
  (forall line, line ∈ ["N"; "q"] ->
     GoStrings.ToLower line <> "y" /\ GoStrings.ToLower line <> "c") /\
  exists rest,
    Organizer.InteractiveReview
      (Organizer.GeneratePlan [PlanScenario.sure; PlanScenario.unsure]
         PlanScenario.target)
      Demo.fresh ["N"; "q"]
    = (Organizer.GeneratePlan [PlanScenario.sure; PlanScenario.unsure]
         PlanScenario.target, Demo.fresh, rest) /\
    rest `suffix_of` ["N"; "q"].
Proof.
  assert (Hlines : forall line, line ∈ ["N"; "q"] ->
    GoStrings.ToLower line <> "y" /\ GoStrings.ToLower line <> "c").
  { intros line Hin. apply elem_of_cons in Hin as [->|Hin].
    - split; vm_compute; discriminate.
    - apply list_elem_of_singleton in Hin as ->.
      split; vm_compute; discriminate. }
  split; [exact Hlines|].
  exact (PlanFacts.review_changes_nothing_without_y_or_c
           (Organizer.GeneratePlan [PlanScenario.sure; PlanScenario.unsure]
              PlanScenario.target)
           Demo.fresh ["N"; "q"] Hlines).
Defined.

(** X27 on an example.  A run on the directory with one file, confirmed by
    the user. *)
Lemma run_organize_logs_exactly_what_it_executes_witness :
  exists db' fs' out,
    Cmd.runOrganize (L := Llm.AnswerWith (9 # 10)) CmdScenario.ready
      Config.defaultConfig (empty 0) CmdScenario.home CmdScenario.flags
      ["/home/u/in"] = Some (db', fs', out) /\
    match out with
    | Cmd.Executed r =>
      Cmd.dryRun CmdScenario.flags = false /\
      exists logs,
        operation_logs db' = operation_logs (empty 0) ++ logs /\
        Forall (fun l => OperationLog.BatchID l
                         = Cmd.execute_time CmdScenario.ready) logs /\
        Organizer.Success r
        = Z.of_nat (List.length
                      (filter (fun l => OperationLog.Status l = "success")
                              logs)) /\
        Organizer.Success r + Organizer.Errors r = Z.of_nat (List.length logs)
    | Cmd.Preview =>
      Cmd.dryRun CmdScenario.flags = true /\ fs' = CmdScenario.home /\
      operation_logs db' = operation_logs (empty 0)
    | Cmd.Cancelled =>
      Cmd.dryRun CmdScenario.flags = false /\ fs' = CmdScenario.home /\
      operation_logs db' = operation_logs (empty 0)
    | _ => fs' = CmdScenario.home /\ db' = empty 0
    end.
Proof.
  eexists _, _, _. split; [vm_compute; reflexivity|].
  eapply (RunFacts.run_organize_logs_exactly_what_it_executes
            (L := Llm.AnswerWith (9 # 10)) CmdScenario.ready
            Config.defaultConfig (empty 0) CmdScenario.home CmdScenario.flags
            ["/home/u/in"]).
  vm_compute. reflexivity.
Defined.

End MoreInstances.
